(** * NewsDigestApp: scheduling and orchestration core

    A shallow embedding of the scheduling core of the application:
    - [Double]   Python floats
    - [Db]       app/database/models.py, app/database/db_utils.py
    - [Sheets]   app/scheduler/sheets_sync_manager.py
    - [Base]     app/scheduler/base_scheduler.py
    - [Digest]   app/scheduler/digest_scheduler.py
    - [Manager]  app/scheduler/scheduler_manager.py
    - [Samples]  concrete records and worlds for the examples
    followed by the properties of each part.

    Python [int] is [Z]; list positions and cursors, which the code only
    ever creates as [0] and increments, are [nat]; a [float] is an IEEE 754
    binary64 value, every operation rounded to nearest even ([spec_float]
    of the Standard Library at precision 53); a [dict] keyed by strings is
    a [gmap string _]; ORM
    objects are shared by reference, so a channel held by a scheduler is a
    position in the session's table and every attribute read goes through
    the session. *)

From Stdlib Require Import ZArith Lia.
From Stdlib Require Floats.SpecFloat.
From stdpp Require Import base option list gmap strings.

Local Open Scope Z_scope.

(** Python exceptions that matter to the control flow: every ordinary error
    derives from [Exception]; [asyncio.CancelledError] derives from
    [BaseException] only and is not caught by [except Exception]. *)
Inductive exn : Type :=
  | Exception (msg : string)
  | ValueError (msg : string)
  | ZeroDivisionError
  | OverflowError
  | CancelledError.

Definition is_Exception (e : exn) : bool :=
  match e with
  | CancelledError => false
  | _ => true
  end.

(** [str(e)] *)
Definition str_exn (e : exn) : string :=
  match e with
  | Exception msg | ValueError msg => msg
  | ZeroDivisionError => "float division by zero"
  | OverflowError => "int too large to convert to float"
  | CancelledError => ""
  end.

(** Result of a call that may raise. *)
Inductive outcome (A : Type) : Type :=
  | Returned (a : A)
  | Raised (e : exn).
Arguments Returned {A} a.
Arguments Raised {A} e.

(** Python [float]: IEEE 754 binary64.  The operations are those of
    [SpecFloat] at precision 53 and maximal exponent 1024; they round to
    nearest, ties to even, and overflow to an infinity without raising. *)
Module Double.

Definition float : Type := SpecFloat.spec_float.

Definition prec : Z := 53.
Definition emax : Z := 1024.

(** [x + y], [x * y] on two floats, and [x / y] for [y] other than zero. *)
Definition add : float -> float -> float := SpecFloat.SFadd prec emax.
Definition mul : float -> float -> float := SpecFloat.SFmul prec emax.
Definition div : float -> float -> float := SpecFloat.SFdiv prec emax.

(** [0.0] *)
Definition zero : float := SpecFloat.S754_zero false.

(** The double nearest to an integer. *)
Definition of_Z (n : Z) : float :=
  SpecFloat.binary_normalize prec emax n 0 false.

(** The integer rounds to a finite double. *)
Definition fits (n : Z) : bool :=
  match of_Z n with
  | SpecFloat.S754_infinity _ => false
  | _ => true
  end.

(** The conversion of an [int] operand in mixed arithmetic; an integer
    beyond the range of a double raises. *)
Definition of_int (n : Z) : outcome float :=
  if fits n then Returned (of_Z n) else Raised OverflowError.

(** [x > 0] *)
Definition gt_zero (x : float) : bool := SpecFloat.SFltb zero x.

(** [bool(x)]: false for [0.0] and [-0.0] only. *)
Definition truthy (x : float) : bool :=
  match x with
  | SpecFloat.S754_zero _ => false
  | _ => true
  end.

(** Neither an infinity nor a NaN. *)
Definition is_finite (x : float) : bool :=
  match x with
  | SpecFloat.S754_zero _ | SpecFloat.S754_finite _ _ _ => true
  | _ => false
  end.

(** The sign bit is clear (a NaN counts as such). *)
Definition sign_clear (x : float) : bool :=
  match x with
  | SpecFloat.S754_zero s | SpecFloat.S754_infinity s
  | SpecFloat.S754_finite s _ _ => negb s
  | SpecFloat.S754_nan => true
  end.

(** The value of a decimal literal with numerator [n] over the power of
    ten [d], as in [0.8 = dec 8 10]: the double nearest to [n / d]. *)
Definition dec (n d : Z) : float := div (of_Z n) (of_Z d).

End Double.

(** Records written by [logger]. *)
Inductive level : Type := DEBUG | INFO | WARNING | ERROR.

Record log_record : Type := Log { log_level : level; log_msg : string }.

(** Text of an optional string inside an f-string. *)
Definition fmt_opt (s : option string) : string :=
  match s with
  | Some x => x
  | None => "None"
  end.

(* ================================================================== *)
(** ** app/database *)

Module Db.

(** [models.ChannelSource] *)
Record ChannelSource : Type := {
  id : Z;
  source_type : string;
  url : string;
  channel_id : option string;
  sheet_name : string;
  row_number : Z;
  is_active : bool;
  last_checked : option Z;
  news_collected : Z;
  success_count : Z;
  failure_count : Z;
  avg_interest_score : Double.float;
  last_processed : option Z
}.

(** The rows of [channel_sources] held by the (single) session, in table
    order.  A position in this list is the identity of the ORM object. *)
Definition Session : Type := list ChannelSource.

(** [ChannelSource.channel_id == channel_id and
     ChannelSource.source_type == source_type] *)
Definition same_channel (channel_id : option string) (source_type : string)
    (ch : ChannelSource) : bool :=
  bool_decide (ch.(Db.channel_id) = channel_id)
  && bool_decide (ch.(Db.source_type) = source_type).

(** [session.query(ChannelSource).filter(...).first()]: position and value
    of the first matching row. *)
Fixpoint query_first (p : ChannelSource -> bool) (rows : Session)
    : option (nat * ChannelSource) :=
  match rows with
  | [] => None
  | ch :: rest =>
      if p ch then Some (0%nat, ch)
      else match query_first p rest with
           | Some (i, c) => Some (S i, c)
           | None => None
           end
  end.

Definition set_last_processed (t : Z) (ch : ChannelSource) : ChannelSource :=
  {| id := ch.(id); source_type := ch.(source_type); url := ch.(url);
     channel_id := ch.(channel_id); sheet_name := ch.(sheet_name);
     row_number := ch.(row_number); is_active := ch.(is_active);
     last_checked := ch.(last_checked);
     news_collected := ch.(news_collected);
     success_count := ch.(success_count);
     failure_count := ch.(failure_count);
     avg_interest_score := ch.(avg_interest_score);
     last_processed := Some t |}.

Definition set_success (sc nc : Z) (avg : Double.float)
    (ch : ChannelSource)
    : ChannelSource :=
  {| id := ch.(id); source_type := ch.(source_type); url := ch.(url);
     channel_id := ch.(channel_id); sheet_name := ch.(sheet_name);
     row_number := ch.(row_number); is_active := ch.(is_active);
     last_checked := ch.(last_checked);
     news_collected := nc;
     success_count := sc;
     failure_count := ch.(failure_count);
     avg_interest_score := avg;
     last_processed := ch.(last_processed) |}.

Definition set_failure (fc : Z) (active : bool) (ch : ChannelSource)
    : ChannelSource :=
  {| id := ch.(id); source_type := ch.(source_type); url := ch.(url);
     channel_id := ch.(channel_id); sheet_name := ch.(sheet_name);
     row_number := ch.(row_number); is_active := active;
     last_checked := ch.(last_checked);
     news_collected := ch.(news_collected);
     success_count := ch.(success_count);
     failure_count := fc;
     avg_interest_score := ch.(avg_interest_score);
     last_processed := ch.(last_processed) |}.

(** The warning of line 769. *)
Definition deactivated (cid : option string) : log_record :=
  Log WARNING ("Канал " +:+ fmt_opt cid +:+ " деактивирован: 3 ошибки").

(** The body of [update_channel_result] once the row is found: lines
    755-769.  The counts are converted to floats where they meet one, in
    the order in which the three statements are evaluated; a conversion
    raises on an integer no double can hold, and the division on a zero
    divisor, which the converted count is exactly when the count is 0. *)
Definition record_result (now : Z) (cid : option string) (success : bool)
    (news_count : Z) (avg_score : Double.float) (channel : ChannelSource)
    : outcome (ChannelSource * list log_record) :=
  let channel := set_last_processed now channel in
  if success then
    let success_count' := channel.(success_count) + 1 in
    let news_collected' := channel.(news_collected) + news_count in
    if (0 <? news_count) && Double.gt_zero avg_score then
      match Double.of_int (news_collected' - news_count) with
      | Raised e => Raised e
      | Returned collected_before =>
        let total_score :=
          Double.mul channel.(avg_interest_score) collected_before in
        match Double.of_int news_count with
        | Raised e => Raised e
        | Returned count =>
          let total_score :=
            Double.add total_score (Double.mul avg_score count) in
          match Double.of_int news_collected' with
          | Raised e => Raised e
          | Returned collected =>
            if news_collected' =? 0 then Raised ZeroDivisionError
            else
              Returned
                (set_success success_count' news_collected'
                   (Double.div total_score collected) channel, [])
          end
        end
      end
    else
      Returned
        (set_success success_count' news_collected'
           channel.(avg_interest_score) channel, [])
  else
    let failure_count' := channel.(failure_count) + 1 in
    if 3 <=? failure_count' then
      Returned
        (set_failure failure_count' false channel, [deactivated cid])
    else
      Returned (set_failure failure_count' channel.(is_active) channel, []).

(** [DatabaseManager.update_channel_result]: the return value, the session
    after the call (committed, or rolled back when the body raised) and the
    log records written.  The query and the commit themselves are taken to
    succeed. *)
Definition update_channel_result (now : Z) (session : Session)
    (channel_id : option string) (source_type : string) (success : bool)
    (news_count : Z) (avg_score : Double.float)
    : bool * Session * list log_record :=
  match query_first (same_channel channel_id source_type) session with
  | None =>
      (false, session,
       [Log WARNING
          ("Канал не найден: " +:+ source_type +:+ "/" +:+ fmt_opt channel_id)])
  | Some (i, channel) =>
      match record_result now channel_id success news_count avg_score channel with
      | Returned (channel', logs) => (true, <[i := channel']> session, logs)
      | Raised e =>
          (false, session,
           [Log ERROR ("Ошибка обновления канала " +:+ fmt_opt channel_id
                       +:+ ": " +:+ str_exn e)])
      end
  end.

(** The weighted mean in the words of the specification, each operation
    rounded to a double. *)
Definition weighted_mean (avgScore_prev : Double.float)
    (itemsCollected_prev : Z) (newAvg : Double.float) (newCount : Z)
    : Double.float :=
  Double.div
    (Double.add (Double.mul avgScore_prev (Double.of_Z itemsCollected_prev))
                (Double.mul newAvg (Double.of_Z newCount)))
    (Double.of_Z (itemsCollected_prev + newCount)).

(** *** Reconciliation with the channel lists of the sheets *)

(** One entry of a sheet, a dict with ['url'] and, read with [.get], the
    other keys. *)
Record RawChannel : Type := {
  raw_url : string;
  raw_channel_id : option string;
  raw_sheet_name : option string;
  raw_row_number : option Z
}.

(** [f"{source_type}:{url}"] *)
Definition channel_key (source_type url : string) : string :=
  source_type +:+ ":" +:+ url.

Definition key_of (ch : ChannelSource) : string :=
  channel_key ch.(source_type) ch.(url).

(** [existing_channels] of [sync_channels_from_sheets]: key to row; a
    later row with the same key replaces an earlier one. *)
Definition existing_channels (session : Session) : gmap string nat :=
  foldl (fun m ich => <[key_of ich.2 := ich.1]> m) ∅ (imap pair session).

(** The branch [if key in existing_channels]. *)
Definition refresh (now : Z) (raw : RawChannel) (ch : ChannelSource)
    : ChannelSource :=
  {| id := ch.(id); source_type := ch.(source_type); url := ch.(url);
     channel_id := raw.(raw_channel_id);
     sheet_name := default "unknown" raw.(raw_sheet_name);
     row_number := default 0 raw.(raw_row_number);
     is_active := true;
     last_checked := Some now;
     news_collected := ch.(news_collected);
     success_count := ch.(success_count);
     failure_count := ch.(failure_count);
     avg_interest_score := ch.(avg_interest_score);
     last_processed := ch.(last_processed) |}.

(** The key the table gives a new row: one more than the largest. *)
Definition next_id (session : Session) : Z :=
  1 + foldr Z.max 0 (id <$> session).

(** The branch [else]: [ChannelSource(...)]. *)
Definition new_channel (now : Z) (session : Session) (source_type : string)
    (raw : RawChannel) : ChannelSource :=
  {| id := next_id session; source_type := source_type;
     url := raw.(raw_url);
     channel_id := raw.(raw_channel_id);
     sheet_name := default "unknown" raw.(raw_sheet_name);
     row_number := default 0 raw.(raw_row_number);
     is_active := true;
     last_checked := Some now;
     news_collected := 0; success_count := 0; failure_count := 0;
     avg_interest_score := Double.zero;
     last_processed := None |}.

(** [ch.is_active = False] *)
Definition deactivate (ch : ChannelSource) : ChannelSource :=
  set_failure ch.(failure_count) false ch.

(** The session, [created_count] and [current_keys] while the sheets are
    walked. *)
Definition sync_state : Type := (Session * Z * gset string)%type.

(** The body of [for raw in raw_channels]. *)
Definition sync_raw (now : Z) (existing : gmap string nat)
    (source_type : string) (acc : sync_state) (raw : RawChannel)
    : sync_state :=
  let '(session, created_count, current_keys) := acc in
  let key := channel_key source_type raw.(raw_url) in
  let current_keys := {[ key ]} ∪ current_keys in
  match existing !! key with
  | Some i => (alter (refresh now raw) i session, created_count, current_keys)
  | None =>
      (session ++ [new_channel now session source_type raw],
       created_count + 1, current_keys)
  end.

(** The two nested loops over [sheets_data.items()]. *)
Definition sync_sheets (now : Z) (existing : gmap string nat)
    (sheets_data : list (string * list RawChannel)) (acc : sync_state)
    : sync_state :=
  foldl (fun acc sheet => foldl (sync_raw now existing sheet.1) acc sheet.2)
        acc sheets_data.

(** [for key, ch in existing_channels.items():
       if key not in current_keys: ch.is_active = False] *)
Definition deactivate_unlisted (existing : gmap string nat)
    (current_keys : gset string) (session : Session) : Session :=
  map_fold (fun key i session =>
              if decide (key ∈ current_keys) then session
              else alter deactivate i session)
           session existing.

(** [DatabaseManager.sync_channels_from_sheets]: the number of channels
    created and the session after the commit, which is taken to succeed. *)
Definition sync_channels_from_sheets (now : Z)
    (sheets_data : list (string * list RawChannel)) (session : Session)
    : Z * Session :=
  let existing := existing_channels session in
  let '(session, created_count, current_keys) :=
    sync_sheets now existing sheets_data (session, 0, ∅) in
  (created_count, deactivate_unlisted existing current_keys session).

(** The columns a reconciliation never writes. *)
Definition kept (ch : ChannelSource)
    : Z * string * string * Z * Z * Z * Double.float * option Z :=
  (ch.(id), ch.(source_type), ch.(url), ch.(news_collected),
   ch.(success_count), ch.(failure_count), ch.(avg_interest_score),
   ch.(last_processed)).

(** What holds of the walk over the sheets at every point, for the
    session [session0] the reconciliation started from: no row is lost,
    the kept columns of the old rows are what they were, an old row is
    active when it was so or when its key has been met, and the rows
    added are active, listed and have no history. *)
Definition walk_inv (session0 : Session) (acc : sync_state) : Prop :=
  let '(session, created_count, current_keys) := acc in
  0 <= created_count
  /\ length session = (length session0 + Z.to_nat created_count)%nat
  /\ (forall i ch0, session0 !! i = Some ch0 ->
        exists ch, session !! i = Some ch /\ kept ch = kept ch0
          /\ (is_active ch = true <->
              is_active ch0 = true
              \/ exists key, key ∈ current_keys
                             /\ existing_channels session0 !! key = Some i))
  /\ (forall i ch, (length session0 <= i)%nat -> session !! i = Some ch ->
        is_active ch = true /\ key_of ch ∈ current_keys
        /\ (news_collected ch, success_count ch, failure_count ch) = (0, 0, 0)).

(** The keys a sheets listing names. *)
Definition listed_keys (sheets_data : list (string * list RawChannel))
    : list string :=
  sheets_data ≫= fun sheet => channel_key sheet.1 <$> (raw_url <$> sheet.2).

(** *** Reading the channels back *)

(** [DatabaseManager.get_all_active_channels]: the active rows grouped by
    source type, in table order. *)
Definition get_all_active_channels (session : Session)
    : gmap string (list nat) :=
  foldl (fun result ich =>
           <[ich.2.(source_type) :=
               default [] (result !! ich.2.(source_type)) ++ [ich.1]]> result)
        ∅
        (List.filter (fun ich => ich.2.(is_active)) (imap pair session)).

(** [DatabaseManager.get_channels_by_source] *)
Definition get_channels_by_source (session : Session) (source_type : string)
    : list nat :=
  fst <$> List.filter
            (fun ich => bool_decide (ich.2.(Db.source_type) = source_type)
                        && ich.2.(is_active))
            (imap pair session).

(** *** Collected items *)

(** [models.NewsItem], the columns the digests use. *)
Record NewsItem : Type := {
  ID : Z;
  News_URL : string;
  Interest_score : option Double.float;
  Daily_used : bool;
  Weekly_used : bool;
  Monthly_used : bool
}.

Inductive used_field : Type := Daily | Weekly | Monthly.

(** [{field: True}] on one row. *)
Definition set_used (field : used_field) (item : NewsItem) : NewsItem :=
  {| ID := item.(ID); News_URL := item.(News_URL);
     Interest_score := item.(Interest_score);
     Daily_used := match field with Daily => true | _ => item.(Daily_used) end;
     Weekly_used :=
       match field with Weekly => true | _ => item.(Weekly_used) end;
     Monthly_used :=
       match field with Monthly => true | _ => item.(Monthly_used) end |}.

(** [NewsItem.ID.in_(news_ids)] *)
Definition id_in (news_ids : list Z) (item : NewsItem) : bool :=
  bool_decide (item.(ID) ∈ news_ids).

(** [DatabaseManager.mark_as_used]: the number of rows the update matched
    and the table afterwards. *)
Definition mark_as_used (news : list NewsItem) (news_ids : list Z)
    (digest_type : string) : Z * list NewsItem :=
  match news_ids with
  | [] => (0, news)
  | _ =>
    let field :=
      if bool_decide (digest_type = "daily") then Some Daily
      else if bool_decide (digest_type = "weekly") then Some Weekly
      else if bool_decide (digest_type = "monthly") then Some Monthly
      else None in
    match field with
    | None => (0, news)
    | Some field =>
        (Z.of_nat (length (List.filter (id_in news_ids) news)),
         (fun item => if id_in news_ids item then set_used field item
                      else item) <$> news)
    end
  end.

End Db.

(* ================================================================== *)
(** ** app/scheduler/sheets_sync_manager.py *)

Module Sheets.

(** [SheetsSyncManager], the attribute its methods write.  Points in time
    are counted in microseconds, the resolution of [datetime]. *)
Record SheetsSyncManager : Type := {
  last_sync_time : option Z
}.

(** [SheetsSyncManager.__init__] *)
Definition __init__ : SheetsSyncManager := {| last_sync_time := None |}.

(** [SheetsSyncManager.needs_sync] at the time [now]. *)
Definition needs_sync (now : Z) (force : bool) (self : SheetsSyncManager)
    : bool :=
  if force then true
  else
    match self.(last_sync_time) with
    | None => true
    | Some t => bool_decide (24 * 3600 * 1000000 <= now - t)
    end.

(** [SheetsSyncManager._load_from_db] *)
Definition _load_from_db (session : Db.Session) : gmap string (list nat) :=
  Db.get_all_active_channels session.

(** [SheetsSyncManager.sync_channels].  [fetch] is what
    [sheets_parser.get_all_channels()] does when it is called; the clock
    reads [t_check] in [needs_sync], [now] in the reconciliation and
    [now'] after it.  The result is the directory returned, the session
    and the manager afterwards. *)
Definition sync_channels (t_check now now' : Z)
    (fetch : outcome (list (string * list Db.RawChannel)))
    (force : bool) (session : Db.Session) (self : SheetsSyncManager)
    : outcome (gmap string (list nat)) * Db.Session * SheetsSyncManager :=
  if negb (needs_sync t_check force self)
  then (Returned (_load_from_db session), session, self)
  else
    match fetch with
    | Returned [] => (Returned (_load_from_db session), session, self)
    | Returned all_channels_raw =>
        let '(created_count, session) :=
          Db.sync_channels_from_sheets now all_channels_raw session in
        let self := {| last_sync_time := Some now' |} in
        (Returned (_load_from_db session), session, self)
    | Raised e =>
        if is_Exception e
        then (Returned (_load_from_db session), session, self)
        else (Raised e, session, self)
    end.

End Sheets.
(* ================================================================== *)
(** ** app/scheduler/base_scheduler.py *)

Module Base.

(** [asyncio.Task] as the scheduler observes it. *)
Record Task : Type := { task_name : string; done : bool; cancelled : bool }.

(** [config.app] and [config.scheduler], the parts read here.
    [parser_status] keeps the order of [dict.items()]. *)
Record Config : Type := {
  parser_status : list (string * bool);
  intervals : gmap string Z
}.

(** [SchedulerConfig.get_interval] *)
Definition get_interval (config : Config) (source_type : string) : Z :=
  default 10 (config.(intervals) !! source_type).

Record BaseScheduler : Type := {
  scheduler_type : string;
  cycle : bool;
  _channels_by_source : gmap string (list nat);
  _channel_indices : gmap string nat;
  tasks : gmap string Task;
  is_running : bool;
  start_time : option Z;
  loop : option nat
}.

Definition with_indices (ix : gmap string nat) (self : BaseScheduler)
    : BaseScheduler :=
  {| scheduler_type := self.(scheduler_type); cycle := self.(cycle);
     _channels_by_source := self.(_channels_by_source);
     _channel_indices := ix;
     tasks := self.(tasks); is_running := self.(is_running);
     start_time := self.(start_time); loop := self.(loop) |}.

Definition with_channels (d : gmap string (list nat)) (self : BaseScheduler)
    : BaseScheduler :=
  {| scheduler_type := self.(scheduler_type); cycle := self.(cycle);
     _channels_by_source := d;
     _channel_indices := self.(_channel_indices);
     tasks := self.(tasks); is_running := self.(is_running);
     start_time := self.(start_time); loop := self.(loop) |}.

Definition with_tasks (t : gmap string Task) (self : BaseScheduler)
    : BaseScheduler :=
  {| scheduler_type := self.(scheduler_type); cycle := self.(cycle);
     _channels_by_source := self.(_channels_by_source);
     _channel_indices := self.(_channel_indices);
     tasks := t; is_running := self.(is_running);
     start_time := self.(start_time); loop := self.(loop) |}.

Definition with_loop (l : option nat) (self : BaseScheduler) : BaseScheduler :=
  {| scheduler_type := self.(scheduler_type); cycle := self.(cycle);
     _channels_by_source := self.(_channels_by_source);
     _channel_indices := self.(_channel_indices);
     tasks := self.(tasks); is_running := self.(is_running);
     start_time := self.(start_time); loop := l |}.

Definition with_running (b : bool) (t : option Z) (self : BaseScheduler)
    : BaseScheduler :=
  {| scheduler_type := self.(scheduler_type); cycle := self.(cycle);
     _channels_by_source := self.(_channels_by_source);
     _channel_indices := self.(_channel_indices);
     tasks := self.(tasks); is_running := b;
     start_time := t; loop := self.(loop) |}.

(** The objects behind a list of references, each with its reference. *)
Definition objects (session : Db.Session) (refs : list nat)
    : list (nat * Db.ChannelSource) :=
  omap (fun r => pair r <$> session !! r) refs.

(** [[ch for ch in channels if ch.is_active]] *)
Definition active_of (session : Db.Session) (channels : list nat)
    : list (nat * Db.ChannelSource) :=
  List.filter (fun ch => Db.is_active ch.2) (objects session channels).

(** [BaseScheduler._get_next_channel] *)
Definition _get_next_channel (session : Db.Session) (source_type : string)
    (self : BaseScheduler)
    : option (nat * Db.ChannelSource) * BaseScheduler :=
  let channels := default [] (self.(_channels_by_source) !! source_type) in
  match channels with
  | [] => (None, self)
  | _ =>
    let active_channels := active_of session channels in
    match active_channels with
    | [] => (None, self)
    | _ =>
      let current_index := default 0%nat (self.(_channel_indices) !! source_type) in
      let wrapped :=
        if (length active_channels <=? current_index)%nat then
          if self.(cycle) then
            Some (0%nat,
                  with_indices (<[source_type := 0%nat]> self.(_channel_indices)) self)
          else None
        else Some (current_index, self) in
      match wrapped with
      | None => (None, self)
      | Some (current_index, self) =>
          (active_channels !! current_index,
           with_indices
             (<[source_type := S current_index]> self.(_channel_indices)) self)
      end
    end
  end.

(** The cursor of a source type: [self._channel_indices.get(source_type, 0)]. *)
Definition cursor (source_type : string) (self : BaseScheduler) : nat :=
  default 0%nat (self.(_channel_indices) !! source_type).

(** [k] calls of [_get_next_channel] in a row for one source type: what
    each returned, and the scheduler afterwards. *)
Fixpoint next_channels (k : nat) (session : Db.Session) (source_type : string)
    (self : BaseScheduler)
    : list (option (nat * Db.ChannelSource)) * BaseScheduler :=
  match k with
  | O => ([], self)
  | S k =>
      let '(r, self) := _get_next_channel session source_type self in
      let '(rs, self) := next_channels k session source_type self in
      (r :: rs, self)
  end.

(** The active part of what the directory holds for a source type. *)
Definition active_list (session : Db.Session) (self : BaseScheduler)
    (source_type : string) : list (nat * Db.ChannelSource) :=
  active_of session (default [] (self.(_channels_by_source) !! source_type)).

(** [BaseScheduler._check_finished] *)
Definition _check_finished (config : Config) (session : Db.Session)
    (self : BaseScheduler) : bool :=
  if self.(cycle) then false
  else
    let active_sources :=
      omap (fun '(source_type, is_active) =>
              if is_active
                 && bool_decide (is_Some (self.(_channels_by_source) !! source_type))
              then Some source_type else None)
           config.(parser_status) in
    forallb
      (fun source_type =>
         let channels := default [] (self.(_channels_by_source) !! source_type) in
         let active_channels := active_of session channels in
         let current_index :=
           default 0%nat (self.(_channel_indices) !! source_type) in
         negb (current_index <? length active_channels)%nat)
      active_sources.

(** [for source_type in channels_by_source:
       self._channel_indices[source_type] = 0] *)
Definition reset_indices (channels_by_source : gmap string (list nat))
    (indices : gmap string nat) : gmap string nat :=
  map_fold (fun source_type _ acc => <[source_type := 0%nat]> acc)
           indices channels_by_source.

(** [BaseScheduler.force_sync], and the body of [_sync_loop] after its
    sleep; [synced] is what [sync_manager.sync_channels] returned. *)
Definition force_sync (synced : gmap string (list nat)) (self : BaseScheduler)
    : BaseScheduler :=
  let self := with_channels synced self in
  with_indices (reset_indices synced self.(_channel_indices)) self.

(** [BaseScheduler._check_parser_needs_restart];
    [recent_failures > len(channels) / 2] on integers. *)
Definition _check_parser_needs_restart (session : Db.Session)
    (source_type : string) (self : BaseScheduler) : bool :=
  let channels := default [] (self.(_channels_by_source) !! source_type) in
  match channels with
  | [] => false
  | _ =>
    let recent_failures :=
      length (List.filter (fun ch => 3 <=? Db.failure_count ch.2)
                          (objects session channels)) in
    (length channels <? 2 * recent_failures)%nat
  end.

(** A collected item: the dict the parsers pass around, of which the
    scheduler reads ['Interest_score'] only. *)
Record NewsDict : Type := {
  News_URL : string;
  Interest_score : option Double.float
}.

(** [BaseParser], the three calls of the per-channel pipeline. *)
Record BaseParser : Type := {
  process_channel : string -> option string -> outcome (list NewsDict);
  filter_by_interest_threshold : list NewsDict -> outcome (list NewsDict);
  save_to_database : list NewsDict -> outcome Z
}.

(** [[n.get('Interest_score', 0) for n in filtered_news
      if n.get('Interest_score')]] *)
Definition truthy_scores (filtered_news : list NewsDict)
    : list Double.float :=
  omap (fun n =>
          match n.(Interest_score) with
          | Some x => if Double.truthy x then Some x else None
          | None => None
          end) filtered_news.

(** [sum(scores) / len(scores) if scores else 0.0]: the scores are added
    from the left, starting from 0, with one rounding per addition (the
    plain loop of [sum]; an interpreter that compensates the rounding
    error of [sum] over floats can differ in the last place); the length
    of a list is within the range of a double. *)
Definition average (scores : list Double.float) : Double.float :=
  match scores with
  | [] => Double.zero
  | _ =>
      Double.div (foldl Double.add Double.zero scores)
                 (Double.of_Z (Z.of_nat (length scores)))
  end.

(** [channel.last_processed = datetime.now()] on the shared object. *)
Definition touch (now : Z) (channel : nat) (session : Db.Session)
    : Db.Session :=
  alter (Db.set_last_processed now) channel session.

(** The [try] block of [_process_single_channel]. *)
Definition process_single_channel_try (now : Z)
    (parsers : gmap string (option BaseParser)) (source_type : string)
    (channel : nat * Db.ChannelSource) (session : Db.Session)
    : outcome Z * Db.Session :=
  let cid := Db.channel_id channel.2 in
  let session := touch now channel.1 session in
  match mjoin (parsers !! source_type) with
  | None =>
      (Returned 0,
       (Db.update_channel_result now session cid source_type false 0
          Double.zero).1.2)
  | Some parser =>
      match parser.(process_channel) (Db.url channel.2) cid with
      | Raised e => (Raised e, session)
      | Returned [] =>
          (Returned 0,
           (Db.update_channel_result now session cid source_type true 0
              Double.zero).1.2)
      | Returned news_items =>
          match parser.(filter_by_interest_threshold) news_items with
          | Raised e => (Raised e, session)
          | Returned filtered_news =>
              match parser.(save_to_database) filtered_news with
              | Raised e => (Raised e, session)
              | Returned saved_count =>
                  let avg_score := average (truthy_scores filtered_news) in
                  (Returned saved_count,
                   (Db.update_channel_result now session cid source_type true
                      saved_count avg_score).1.2)
              end
          end
      end
  end.

(** [BaseScheduler._process_single_channel]: [except Exception] records a
    failed outcome and returns 0; a [CancelledError] passes through. *)
Definition _process_single_channel (now : Z)
    (parsers : gmap string (option BaseParser)) (source_type : string)
    (channel : nat * Db.ChannelSource) (session : Db.Session)
    : outcome Z * Db.Session :=
  match process_single_channel_try now parsers source_type channel session with
  | (Raised e, session) =>
      if is_Exception e then
        (Returned 0,
         (Db.update_channel_result now session (Db.channel_id channel.2)
            source_type false 0 Double.zero).1.2)
      else (Raised e, session)
  | r => r
  end.

(** What a source loop does that an observer can see. *)
Inductive event : Type :=
  | Poll (source_type : string) (channel : nat)
  | Sleep (seconds : Z).

(** What the environment supplies to one iteration of the source loop:
    the clock, and an error raised while the loop selects the channel
    (reading an attribute of an ORM object reloads the row and can fail). *)
Record Tick : Type := { now : Z; selection_error : option exn }.

Inductive control : Type := Continue | Break.

Definition loop_state : Type := (BaseScheduler * Db.Session)%type.

(** The [try] block of the [while True] of [_process_source_task]. *)
Definition source_loop_try (config : Config)
    (parsers : gmap string (option BaseParser)) (source_type : string)
    (tick : Tick) (st : loop_state)
    : outcome control * loop_state * list event :=
  let '(self, session) := st in
  match tick.(selection_error) with
  | Some e => (Raised e, st, [])
  | None =>
    if negb self.(cycle) && _check_finished config session self then
      (Returned Break, st, [])
    else if _check_parser_needs_restart session source_type self then
      (Returned Continue, st, [Sleep 60])
    else
      match _get_next_channel session source_type self with
      | (None, self) => (Returned Break, (self, session), [])
      | (Some channel, self) =>
          match _process_single_channel tick.(now) parsers source_type
                  channel session with
          | (Raised e, session) =>
              (Raised e, (self, session), [Poll source_type channel.1])
          | (Returned _, session) =>
              let interval := get_interval config source_type in
              (Returned Continue, (self, session),
               [Poll source_type channel.1; Sleep interval])
          end
      end
  end.

(** One iteration with its [except] clauses. *)
Definition source_loop_iteration (config : Config)
    (parsers : gmap string (option BaseParser)) (source_type : string)
    (tick : Tick) (st : loop_state) : control * loop_state * list event :=
  match source_loop_try config parsers source_type tick st with
  | (Returned c, st, evs) => (c, st, evs)
  | (Raised CancelledError, st, evs) => (Break, st, evs)
  | (Raised _, st, evs) => (Break, st, evs ++ [Sleep 60])
  end.

(** How a run of the loop over finitely many ticks ends. *)
Inductive loop_end : Type := Exited | StillLooping.

Fixpoint while_true (config : Config)
    (parsers : gmap string (option BaseParser)) (source_type : string)
    (ticks : list Tick) (st : loop_state)
    : loop_end * loop_state * list event :=
  match ticks with
  | [] => (StillLooping, st, [])
  | tick :: ticks =>
      match source_loop_iteration config parsers source_type tick st with
      | (Break, st, evs) => (Exited, st, evs)
      | (Continue, st, evs) =>
          let '(r, st, evs') :=
            while_true config parsers source_type ticks st in
          (r, st, evs ++ evs')
      end
  end.

(** [BaseScheduler._process_source_task] *)
Definition _process_source_task (config : Config)
    (parsers : gmap string (option BaseParser)) (source_type : string)
    (ticks : list Tick) (st : loop_state)
    : loop_end * loop_state * list event :=
  if negb st.1.(is_running) then (Exited, st, [])
  else while_true config parsers source_type ticks st.

(** [BaseScheduler._start_source_task] *)
Definition _start_source_task (source_type : string) (self : BaseScheduler)
    : BaseScheduler :=
  with_tasks
    (<[source_type := {| task_name := source_type; done := false;
                          cancelled := false |}]> self.(tasks)) self.

(** [BaseScheduler.initialize] *)
Definition initialize (synced : gmap string (list nat)) (self : BaseScheduler)
    : BaseScheduler :=
  let self := with_channels synced self in
  with_indices (reset_indices synced self.(_channel_indices)) self.

Inductive start_result : Type := AlreadyRunning | Started.

(** [BaseScheduler.start], from its first line to the point where it begins
    to wait (line 606).  [running_loop] is [asyncio.get_running_loop()],
    [synced] what [sync_manager.sync_channels(force=True)] returns;
    [parser_manager.create_parsers()] touches nothing of the scheduler. *)
Definition start (now : Z) (running_loop : nat)
    (synced : gmap string (list nat)) (config : Config) (self : BaseScheduler)
    : start_result * BaseScheduler :=
  let self := with_tasks ∅ self in
  let self := with_indices ∅ self in
  let self := with_loop (Some running_loop) self in
  if self.(is_running) then (AlreadyRunning, self)
  else
    let self := with_running true (Some now) self in
    let self := initialize synced self in
    let source_types :=
      omap (fun '(source_type, is_active) =>
              if is_active : bool then Some source_type else None)
           config.(parser_status) in
    let self := foldl (fun self st => _start_source_task st self)
                      self source_types in
    let self :=
      if self.(cycle) then
        let self :=
          with_tasks (<["sync" := {| task_name := "Task-sync"; done := false;
                                      cancelled := false |}]> self.(tasks))
                     self in
        with_tasks (<["monitor" := {| task_name := "Task-monitor";
                                       done := false;
                                       cancelled := false |}]> self.(tasks))
                   self
      else self in
    (Started, self).

(** [BaseScheduler.stop]: the scheduler afterwards and the tasks it
    cancelled, those that were not done. *)
Definition stop (self : BaseScheduler) : BaseScheduler * gmap string Task :=
  let self := with_running false self.(start_time) self in
  let cancelled := filter (fun kv => kv.2.(done) = false) self.(tasks) in
  (with_tasks ∅ self, cancelled).

(** [channel.failure_count = 0; channel.is_active = True] *)
Definition revive (ch : Db.ChannelSource) : Db.ChannelSource :=
  Db.set_failure 0 true ch.

(** [BaseScheduler.restart_source]: the scheduler and the session
    afterwards, and whether the old task of the source was cancelled. *)
Definition restart_source (session : Db.Session) (source_type : string)
    (self : BaseScheduler) : BaseScheduler * Db.Session * bool :=
  let self :=
    with_indices (<[source_type := 0%nat]> self.(_channel_indices)) self in
  let channels := default [] (self.(_channels_by_source) !! source_type) in
  let session := foldl (fun s channel => alter revive channel s)
                       session channels in
  let cancel :=
    match self.(tasks) !! source_type with
    | Some task => negb task.(done)
    | None => false
    end in
  (_start_source_task source_type self, session, cancel).

(** What the health check and the rotation read of a session: the
    activity flag and the failure counter of every row. *)
Definition health (session : Db.Session) : list (bool * Z) :=
  (fun ch => (Db.is_active ch, Db.failure_count ch)) <$> session.

(** A parser none of whose three calls raises. *)
Definition never_raises (parser : BaseParser) : Prop :=
  (forall url cid, exists items,
      parser.(process_channel) url cid = Returned items)
  /\ (forall items, exists filtered,
        parser.(filter_by_interest_threshold) items = Returned filtered)
  /\ (forall items, exists saved,
        parser.(save_to_database) items = Returned saved).

(** What a visit of each of the given channels shows: the poll and the
    pause after it. *)
Definition visits (config : Config) (source_type : string)
    (channels : list (nat * Db.ChannelSource)) : list event :=
  channels ≫= fun ch =>
    [Poll source_type ch.1; Sleep (get_interval config source_type)].

End Base.
(* ================================================================== *)
(** ** app/scheduler/digest_scheduler.py *)

Module Digest.

(** What [DigestCreator.create_digest] returns when it returns a dict:
    the rendered text and the ids of [digest_data['news_items']]. *)
Record DigestData : Type := {
  type : string;
  text : string;
  news_items : list Z
}.

Record DigestScheduler : Type := {
  max_retries : nat;
  retry_delay : Z;
  is_processing : bool;
  is_running : bool;
  start_time : option Z
}.

(** [DigestScheduler.__init__] *)
Definition __init__ : DigestScheduler :=
  {| max_retries := 3; retry_delay := 300; is_processing := false;
     is_running := false; start_time := None |}.

Definition with_processing (b : bool) (self : DigestScheduler)
    : DigestScheduler :=
  {| max_retries := self.(max_retries); retry_delay := self.(retry_delay);
     is_processing := b; is_running := self.(is_running);
     start_time := self.(start_time) |}.

(** Calls made to the collaborators, and log records, in program order.
    Apart from the warning of line 167 a log record keeps the level and
    the leading words of its message. *)
Inductive event : Type :=
  | create_digest (digest_type : string) (is_test : bool)
  | publish_digest (digest_data : DigestData)
  | mark_as_used (news_ids : list Z) (digest_type : string)
  | sleep (seconds : Z)
  | logged (lvl : level) (msg : string).

(** The warning of line 167. *)
Definition dropped (digest_type : string) : event :=
  logged WARNING
    ("⚠️  Дайджест " +:+ digest_type +:+ " уже выполняется, пропускаем").

(** Where a call of [execute_digest_with_retry] is suspended. *)
Inductive frame : Type :=
  | Called (digest_type : string) (is_test : bool)
  | AwaitCreate (digest_type : string) (is_test : bool) (attempt : nat)
  | AwaitPublish (digest_type : string) (is_test : bool) (attempt : nat)
                 (digest_data : DigestData)
  | AwaitSleep (digest_type : string) (is_test : bool) (attempt : nat)
  | Finished.

(** What the event loop hands back when it resumes the call. *)
Inductive answer : Type :=
  | Go
  | Created (r : outcome (option DigestData))
  | Published (r : outcome bool)
  | Slept.

Definition suspended (f : frame) : bool :=
  match f with
  | AwaitCreate _ _ _ | AwaitPublish _ _ _ _ | AwaitSleep _ _ _ => true
  | Called _ _ | Finished => false
  end.

(** Head of the [for attempt in range(self.max_retries)] loop: either the
    next attempt starts with [create_digest], or the loop is over and line
    217 runs. *)
Definition next_attempt (self : DigestScheduler) (digest_type : string)
    (is_test : bool) (attempt : nat)
    : DigestScheduler * frame * list event :=
  if (attempt <? self.(max_retries))%nat then
    (self, AwaitCreate digest_type is_test attempt,
     [logged INFO "Попытка"; create_digest digest_type is_test])
  else (with_processing false self, Finished, []).

(** The [except Exception] clause, lines 202-215. *)
Definition on_exception (self : DigestScheduler) (digest_type : string)
    (is_test : bool) (attempt : nat)
    : DigestScheduler * frame * list event :=
  if (attempt <? self.(max_retries) - 1)%nat then
    (self, AwaitSleep digest_type is_test attempt,
     [logged ERROR "Ошибка при выполнении дайджеста";
      logged INFO "Повторная попытка";
      sleep self.(retry_delay)])
  else
    let '(self', f, evs) :=
      next_attempt self digest_type is_test (S attempt) in
    (self', f,
     [logged ERROR "Ошибка при выполнении дайджеста";
      logged ERROR "Не удалось выполнить дайджест";
      logged ERROR "Трассировка ошибки"] ++ evs).

(** An exception raised at an [await] inside the [try]. *)
Definition on_raise (e : exn) (self : DigestScheduler) (digest_type : string)
    (is_test : bool) (attempt : nat)
    : DigestScheduler * frame * list event :=
  if is_Exception e then on_exception self digest_type is_test attempt
  else (self, Finished, []).

(** [DigestScheduler.execute_digest_with_retry], run from one suspension
    point to the next.  [None]: the answer does not fit the frame. *)
Definition resume (self : DigestScheduler) (f : frame) (a : answer)
    : option (DigestScheduler * frame * list event) :=
  match f, a with
  | Called digest_type is_test, Go =>
      if self.(is_processing) then
        Some (self, Finished, [dropped digest_type])
      else
        let self := with_processing true self in
        Some (next_attempt self digest_type is_test 0)
  | AwaitCreate digest_type is_test attempt, Created r =>
      match r with
      | Raised e => Some (on_raise e self digest_type is_test attempt)
      | Returned None
      | Returned (Some {| news_items := [] |}) =>
          Some (with_processing false self, Finished,
                [logged WARNING "Нет данных для дайджеста"])
      | Returned (Some digest_data) =>
          Some (self, AwaitPublish digest_type is_test attempt digest_data,
                [publish_digest digest_data])
      end
  | AwaitPublish digest_type is_test attempt digest_data, Published r =>
      match r with
      | Raised e => Some (on_raise e self digest_type is_test attempt)
      | Returned success =>
          Some (with_processing false self, Finished,
                (if success then
                   [mark_as_used digest_data.(news_items) digest_type;
                    logged INFO "Помечено новостей как использованные"]
                 else [])
                ++ [logged INFO "дайджест успешно обработан"])
      end
  | AwaitSleep digest_type is_test attempt, Slept =>
      Some (next_attempt self digest_type is_test (S attempt))
  | _, _ => None
  end.

(** A call driven through a sequence of answers. *)
Fixpoint run (self : DigestScheduler) (f : frame) (answers : list answer)
    : option (DigestScheduler * frame * list event) :=
  match answers with
  | [] => Some (self, f, [])
  | a :: answers =>
      match resume self f a with
      | None => None
      | Some (self, f, evs) =>
          match run self f answers with
          | None => None
          | Some (self, f, evs') => Some (self, f, evs ++ evs')
          end
      end
  end.

(** The collaborators as the call meets them: what [create_digest] and
    [publish_digest] do on each attempt. *)
Record World : Type := {
  creator : nat -> outcome (option DigestData);
  publisher : nat -> outcome bool
}.

Definition reply (w : World) (f : frame) : option answer :=
  match f with
  | Called _ _ => Some Go
  | AwaitCreate _ _ attempt => Some (Created (w.(creator) attempt))
  | AwaitPublish _ _ attempt _ => Some (Published (w.(publisher) attempt))
  | AwaitSleep _ _ _ => Some Slept
  | Finished => None
  end.

(** The call run against a world for at most [fuel] resumptions. *)
Fixpoint drive (fuel : nat) (w : World) (self : DigestScheduler) (f : frame)
    : DigestScheduler * frame * list event :=
  match fuel with
  | O => (self, f, [])
  | S fuel =>
      match reply w f with
      | None => (self, f, [])
      | Some a =>
          match resume self f a with
          | None => (self, f, [])
          | Some (self', f', evs) =>
              let '(self'', f'', evs') := drive fuel w self' f' in
              (self'', f'', evs ++ evs')
          end
      end
  end.

(** One whole call of [execute_digest_with_retry]: three resumptions per
    attempt and the entry are enough. *)
Definition execute_digest_with_retry (w : World) (self : DigestScheduler)
    (digest_type : string) (is_test : bool)
    : DigestScheduler * frame * list event :=
  drive (3 * self.(max_retries) + 1) w self (Called digest_type is_test).

(** Two calls on one scheduler: the first is driven through [pre], then
    the second call is made, then the first goes on through [post].  The
    result holds the frames of both calls and everything that happened,
    in order. *)
Definition two_calls (self : DigestScheduler)
    (digest_type : string) (is_test : bool) (pre : list answer)
    (digest_type' : string) (is_test' : bool) (post : list answer)
    : option (DigestScheduler * frame * frame * list event) :=
  match run self (Called digest_type is_test) pre with
  | None => None
  | Some (self, f1, evs1) =>
      match resume self (Called digest_type' is_test') Go with
      | None => None
      | Some (self, f2, evs2) =>
          match run self f1 post with
          | None => None
          | Some (self, f1, evs3) => Some (self, f1, f2, evs1 ++ evs2 ++ evs3)
          end
      end
  end.

(** The frames a call can be in: an attempt in progress is one of the
    [max_retries] attempts, and a pause is followed by another attempt. *)
Definition frame_ok (self : DigestScheduler) (f : frame) : bool :=
  match f with
  | AwaitCreate _ _ attempt | AwaitPublish _ _ attempt _ =>
      (attempt <? self.(max_retries))%nat
  | AwaitSleep _ _ attempt => (S attempt <? self.(max_retries))%nat
  | Called _ _ | Finished => true
  end.

(** A bound on the number of resumptions a call still needs. *)
Definition steps_left (self : DigestScheduler) (f : frame) : nat :=
  match f with
  | Called _ _ => 3 * self.(max_retries) + 1
  | AwaitCreate _ _ attempt => 3 * (self.(max_retries) - attempt)
  | AwaitPublish _ _ attempt _ => 3 * (self.(max_retries) - attempt) - 1
  | AwaitSleep _ _ attempt => 3 * (self.(max_retries) - attempt) - 2
  | Finished => 0
  end.

Definition is_publish (e : event) : bool :=
  match e with publish_digest _ => true | _ => false end.

Definition is_mark_as_used (e : event) : bool :=
  match e with mark_as_used _ _ => true | _ => false end.

Definition is_sleep (e : event) : bool :=
  match e with sleep _ => true | _ => false end.

Definition is_call (e : event) : bool :=
  match e with logged _ _ => false | _ => true end.

Definition is_create (e : event) : bool :=
  match e with create_digest _ _ => true | _ => false end.

(** How many calls of [create_digest], of [publish_digest] and of
    [asyncio.sleep] a call in a given frame can still make. *)
Definition creates_left (self : DigestScheduler) (f : frame) : nat :=
  match f with
  | Called _ _ => self.(max_retries)
  | AwaitCreate _ _ attempt | AwaitPublish _ _ attempt _
  | AwaitSleep _ _ attempt => self.(max_retries) - S attempt
  | Finished => 0
  end.

Definition publishes_left (self : DigestScheduler) (f : frame) : nat :=
  match f with
  | Called _ _ => self.(max_retries)
  | AwaitCreate _ _ attempt => self.(max_retries) - attempt
  | AwaitPublish _ _ attempt _ | AwaitSleep _ _ attempt =>
      self.(max_retries) - S attempt
  | Finished => 0
  end.

Definition sleeps_left (self : DigestScheduler) (f : frame) : nat :=
  match f with
  | Called _ _ => self.(max_retries) - 1
  | AwaitCreate _ _ attempt | AwaitPublish _ _ attempt _ =>
      self.(max_retries) - 1 - attempt
  | AwaitSleep _ _ attempt => self.(max_retries) - 1 - S attempt
  | Finished => 0
  end.

(** [DigestScheduler.stop], the flags it resets; the cron timer it shuts
    down is outside the model. *)
Definition stop (self : DigestScheduler) : DigestScheduler :=
  {| max_retries := self.(max_retries); retry_delay := self.(retry_delay);
     is_processing := self.(is_processing); is_running := false;
     start_time := None |}.

End Digest.
(* ================================================================== *)
(** ** app/scheduler/scheduler_manager.py *)

Module Manager.

Import Base.

Record SchedulerManager : Type := {
  continuous_scheduler : option BaseScheduler;
  single_pass_scheduler : option BaseScheduler;
  digest_scheduler : option Digest.DigestScheduler;
  parser_manager : option (gmap string (option BaseParser));
  tasks : gmap string Task
}.

Definition with_continuous (s : option BaseScheduler) (self : SchedulerManager)
    : SchedulerManager :=
  {| continuous_scheduler := s;
     single_pass_scheduler := self.(single_pass_scheduler);
     digest_scheduler := self.(digest_scheduler);
     parser_manager := self.(parser_manager);
     tasks := self.(tasks) |}.

Definition with_single_pass (s : option BaseScheduler) (self : SchedulerManager)
    : SchedulerManager :=
  {| continuous_scheduler := self.(continuous_scheduler);
     single_pass_scheduler := s;
     digest_scheduler := self.(digest_scheduler);
     parser_manager := self.(parser_manager);
     tasks := self.(tasks) |}.

Definition with_tasks (t : gmap string Task) (self : SchedulerManager)
    : SchedulerManager :=
  {| continuous_scheduler := self.(continuous_scheduler);
     single_pass_scheduler := self.(single_pass_scheduler);
     digest_scheduler := self.(digest_scheduler);
     parser_manager := self.(parser_manager);
     tasks := t |}.

(** [BaseScheduler.__init__] as the two subclasses call it. *)
Definition new_scheduler (scheduler_type : string) (cycle : bool)
    : BaseScheduler :=
  {| Base.scheduler_type := scheduler_type; Base.cycle := cycle;
     _channels_by_source := ∅; _channel_indices := ∅; Base.tasks := ∅;
     Base.is_running := false; Base.start_time := None; loop := None |}.

Definition ContinuousScheduler : BaseScheduler :=
  new_scheduler "continuous" true.

Definition SinglePassScheduler : BaseScheduler :=
  new_scheduler "single_pass" false.

(** [SchedulerManager._create_single_pass_scheduler] *)
Definition _create_single_pass_scheduler (self : SchedulerManager)
    : option BaseScheduler :=
  match self.(parser_manager) with
  | None => None
  | Some _ => Some SinglePassScheduler
  end.

(** [name in self.tasks and not self.tasks[name].done()] *)
Definition task_live (self : SchedulerManager) (name : string) : bool :=
  match self.(tasks) !! name with
  | Some task => negb task.(done)
  | None => false
  end.

(** [scheduler and hasattr(scheduler, 'is_running') and
     scheduler.is_running] *)
Definition flag_set (scheduler : option BaseScheduler) : bool :=
  match scheduler with
  | Some s => s.(Base.is_running)
  | None => false
  end.

(** [SchedulerManager.get_mutual_exclusion_status]["active_scheduler"] *)
Definition get_mutual_exclusion_status (self : SchedulerManager)
    : option string :=
  if task_live self "continuous" then Some "continuous"
  else if task_live self "single_pass" then Some "single_pass"
  else if flag_set self.(continuous_scheduler) then Some "continuous"
  else if flag_set self.(single_pass_scheduler) then Some "single_pass"
  else None.

(** [SchedulerManager._get_scheduler_name] *)
Definition _get_scheduler_name (scheduler_type : string) : string :=
  if bool_decide (scheduler_type = "continuous") then "Цикличный сборщик"
  else if bool_decide (scheduler_type = "single_pass") then "Единичный сборщик"
  else if bool_decide (scheduler_type = "digest_publisher")
       then "Планировщик публикаций"
  else if bool_decide (scheduler_type = "sheets_sync")
       then "Синхронизация с Google Sheets"
  else scheduler_type.

(** [SchedulerManager._check_mutual_exclusion] *)
Definition _check_mutual_exclusion (self : SchedulerManager)
    (scheduler_type action : string)
    : bool * option string * option string :=
  if negb (bool_decide (action = "start")) then (true, None, None)
  else if negb (bool_decide (scheduler_type ∈ ["continuous"; "single_pass"]))
  then (true, None, None)
  else
    match get_mutual_exclusion_status self with
    | Some current_running =>
        if negb (bool_decide (current_running = scheduler_type)) then
          (false,
           Some ("Нельзя запустить " +:+ _get_scheduler_name scheduler_type
                 +:+ ": " +:+ _get_scheduler_name current_running
                 +:+ " уже запущен. Остановите его сначала."),
           Some current_running)
        else (true, None, None)
    | None => (true, None, None)
    end.

(** The part of [_get_scheduler_status] for the exclusive pair that does
    not read the clock: [type] and [running]. *)
Definition _get_scheduler_status (self : SchedulerManager)
    (scheduler_type : string) (scheduler : option BaseScheduler)
    : string * bool :=
  let task_running := task_live self scheduler_type in
  match scheduler with
  | None => (scheduler_type, task_running)
  | Some s => (scheduler_type, s.(Base.is_running))
  end.

(** [asyncio.create_task(self._run_scheduler(...), name=...)]: the new
    task has not run yet when the caller goes on. *)
Definition create_task (name : string) : Task :=
  {| task_name := name; done := false; cancelled := false |}.

(** [SchedulerManager.start_continuous] *)
Definition start_continuous (self : SchedulerManager)
    : outcome (string * bool) * SchedulerManager :=
  match _check_mutual_exclusion self "continuous" "start" with
  | (false, error_msg, _) => (Raised (ValueError (default "None" error_msg)), self)
  | (true, _, _) =>
      let self :=
        match self.(continuous_scheduler) with
        | None => with_continuous (Some ContinuousScheduler) self
        | Some _ => self
        end in
      let task := create_task "continuous_scheduler" in
      let self := with_tasks (<["continuous" := task]> self.(tasks)) self in
      (Returned (_get_scheduler_status self "continuous"
                   self.(continuous_scheduler)), self)
  end.

(** [SchedulerManager.start_single_pass] *)
Definition start_single_pass (self : SchedulerManager)
    : outcome (string * bool) * SchedulerManager :=
  match _check_mutual_exclusion self "single_pass" "start" with
  | (false, error_msg, _) => (Raised (ValueError (default "None" error_msg)), self)
  | (true, _, _) =>
      let self :=
        match self.(single_pass_scheduler) with
        | None => with_single_pass (_create_single_pass_scheduler self) self
        | Some _ => self
        end in
      let task := create_task "single_pass_scheduler" in
      let self := with_tasks (<["single_pass" := task]> self.(tasks)) self in
      (Returned (_get_scheduler_status self "single_pass"
                   self.(single_pass_scheduler)), self)
  end.

(** An engine of the exclusive pair is running: it has a live task in the
    table, or its own flag is set. *)
Definition engine_running (self : SchedulerManager) (scheduler_type : string)
    : bool :=
  task_live self scheduler_type
  || flag_set (if bool_decide (scheduler_type = "continuous")
               then self.(continuous_scheduler)
               else self.(single_pass_scheduler)).

Definition refused (r : outcome (string * bool) * SchedulerManager) : bool :=
  match r.1 with
  | Raised (ValueError _) => true
  | _ => false
  end.

Definition with_digest (d : option Digest.DigestScheduler)
    (self : SchedulerManager) : SchedulerManager :=
  {| continuous_scheduler := self.(continuous_scheduler);
     single_pass_scheduler := self.(single_pass_scheduler);
     digest_scheduler := d;
     parser_manager := self.(parser_manager);
     tasks := self.(tasks) |}.

(** [SchedulerManager._create_digest_scheduler] *)
Definition _create_digest_scheduler : Digest.DigestScheduler :=
  Digest.__init__.

(** [type] and [running] of [_get_scheduler_status('digest_publisher')]. *)
Definition _get_digest_status (self : SchedulerManager) : string * bool :=
  match self.(digest_scheduler) with
  | None => ("digest_publisher", false)
  | Some d => ("digest_publisher", d.(Digest.is_running))
  end.

(** [SchedulerManager.stop_continuous] *)
Definition stop_continuous (self : SchedulerManager)
    : (string * bool) * SchedulerManager :=
  let self := with_tasks (delete "continuous" self.(tasks)) self in
  let self :=
    match self.(continuous_scheduler) with
    | Some s => with_continuous (Some (Base.stop s).1) self
    | None => self
    end in
  (("continuous", false), self).

(** [SchedulerManager.stop_single_pass] *)
Definition stop_single_pass (self : SchedulerManager)
    : (string * bool) * SchedulerManager :=
  let self :=
    match self.(single_pass_scheduler) with
    | Some s => with_single_pass (Some (Base.stop s).1) self
    | None => self
    end in
  let self := with_tasks (delete "single_pass" self.(tasks)) self in
  let self := with_single_pass None self in
  (("single_pass", false), self).

(** [SchedulerManager.start_all]: the manager afterwards.  The statuses it
    returns are those of [_get_scheduler_status] for the keys of the task
    table of this manager. *)
Definition start_all (self : SchedulerManager) : SchedulerManager :=
  let self :=
    match self.(digest_scheduler) with
    | Some _ =>
        with_tasks (<["digest_publisher" := create_task "digest_scheduler"]>
                      self.(tasks)) self
    | None => self
    end in
  let self :=
    match self.(continuous_scheduler) with
    | Some _ =>
        with_tasks (<["continuous" := create_task "continuous_scheduler"]>
                      self.(tasks)) self
    | None => self
    end in
  match self.(single_pass_scheduler) with
  | Some _ =>
      with_tasks (<["single_pass" := create_task "single_pass_scheduler"]>
                    self.(tasks)) self
  | None => self
  end.

(** [SchedulerManager.restart_digest_scheduler]: the status returned and
    the manager afterwards; the scheduler that is stopped is the one that
    is replaced. *)
Definition restart_digest_scheduler (self : SchedulerManager)
    : (string * bool) * SchedulerManager :=
  let self := with_tasks (delete "digest_publisher" self.(tasks)) self in
  let self := with_digest (Some _create_digest_scheduler) self in
  let self :=
    with_tasks (<["digest_publisher" := create_task "digest_scheduler"]>
                  self.(tasks)) self in
  (_get_digest_status self, self).

(** At most one engine of the exclusive pair is running. *)
Definition exclusive (self : SchedulerManager) : bool :=
  negb (engine_running self "continuous"
        && engine_running self "single_pass").

End Manager.

(* ================================================================== *)
(** ** Sample data for the examples *)

Module Samples.

Import Db.

(** A stored channel with five items at 0.8 and two failures. *)
Definition sample_channel : ChannelSource :=
  {| id := 1; source_type := "telegram"; url := "https://t.me/s/news";
     channel_id := Some "news"; sheet_name := "Telegram"; row_number := 2;
     is_active := true; last_checked := None;
     news_collected := 5; success_count := 1; failure_count := 2;
     avg_interest_score := Double.dec 8 10; last_processed := None |}.

Definition fresh_channel : ChannelSource :=
  {| id := 2; source_type := "youtube"; url := "https://youtube.com/@ai";
     channel_id := Some "ai"; sheet_name := "YouTube"; row_number := 2;
     is_active := true; last_checked := None;
     news_collected := 0; success_count := 0; failure_count := 0;
     avg_interest_score := Double.zero; last_processed := None |}.

Definition sample_session : Session := [fresh_channel; sample_channel].

(** Four Telegram channels, the second one inactive. *)
Definition tg (i : Z) (name : string) (active : bool) : ChannelSource :=
  {| id := i; source_type := "telegram"; url := "https://t.me/s/" +:+ name;
     channel_id := Some name; sheet_name := "Telegram"; row_number := i + 1;
     is_active := active; last_checked := None;
     news_collected := 0; success_count := 0; failure_count := 0;
     avg_interest_score := Double.zero; last_processed := None |}.

Definition tg_session : Session :=
  [tg 1 "alpha" true; tg 2 "beta" false; tg 3 "gamma" true; tg 4 "delta" true].

Definition tg_directory : gmap string (list nat) :=
  {[ "telegram" := [0; 1; 2; 3]%nat ]}.

Definition tg_config : Base.Config :=
  {| Base.parser_status :=
       [("twitter", false); ("telegram", true); ("youtube", true)];
     Base.intervals := {[ "telegram" := 5 ]} |}.

(** A scheduler over [tg_directory] with every cursor at 0. *)
Definition tg_scheduler (cycle : bool) : Base.BaseScheduler :=
  {| Base.scheduler_type := if cycle then "continuous" else "single_pass";
     Base.cycle := cycle;
     Base._channels_by_source := tg_directory;
     Base._channel_indices := {[ "telegram" := 0%nat ]};
     Base.tasks := ∅; Base.is_running := true;
     Base.start_time := Some 1000; Base.loop := Some 1%nat |}.

(** A running single-pass scheduler that has served two channels and holds
    the task of its Telegram loop. *)
Definition running_scheduler : Base.BaseScheduler :=
  {| Base.scheduler_type := "single_pass";
     Base.cycle := false;
     Base._channels_by_source := tg_directory;
     Base._channel_indices := {[ "telegram" := 2%nat ]};
     Base.tasks := {[ "telegram" := {| Base.task_name := "telegram";
                                       Base.done := false;
                                       Base.cancelled := false |} ]};
     Base.is_running := true;
     Base.start_time := Some 1000; Base.loop := Some 1%nat |}.

(** A parser whose network call fails, and one that finds nothing. *)
Definition failing_parser : Base.BaseParser :=
  {| Base.process_channel := fun _ _ => Raised (Exception "timeout");
     Base.filter_by_interest_threshold := fun l => Returned l;
     Base.save_to_database := fun l => Returned (Z.of_nat (length l)) |}.

Definition quiet_parser : Base.BaseParser :=
  {| Base.process_channel := fun _ _ => Returned [];
     Base.filter_by_interest_threshold := fun l => Returned l;
     Base.save_to_database := fun l => Returned (Z.of_nat (length l)) |}.

(** A rendered daily digest of two items. *)
Definition daily_digest : Digest.DigestData :=
  {| Digest.type := "daily"; Digest.text := "<b>AI</b>";
     Digest.news_items := [11; 12] |}.

(** Worlds in which the digest is always assembled and the publisher
    - reports failure on the first attempt,
    - raises on the first two attempts and succeeds on the third. *)
Definition publish_returns_false : Digest.World :=
  {| Digest.creator := fun _ => Returned (Some daily_digest);
     Digest.publisher := fun attempt =>
       match attempt with
       | O => Returned false
       | _ => Returned true
       end |}.

Definition publish_raises_twice : Digest.World :=
  {| Digest.creator := fun _ => Returned (Some daily_digest);
     Digest.publisher := fun attempt =>
       match attempt with
       | O | S O => Raised (Exception "network")
       | _ => Returned true
       end |}.

(** The manager after [start_single_pass]: the single-pass task is live
    and there is no continuous engine. *)
Definition single_pass_started : Manager.SchedulerManager :=
  {| Manager.continuous_scheduler := None;
     Manager.single_pass_scheduler := Some Manager.SinglePassScheduler;
     Manager.digest_scheduler := Some Digest.__init__;
     Manager.parser_manager := Some ∅;
     Manager.tasks :=
       {[ "single_pass" := Manager.create_task "single_pass_scheduler" ]} |}.


Definition both_started : Manager.SchedulerManager :=
  {| Manager.continuous_scheduler := Some Manager.ContinuousScheduler;
     Manager.single_pass_scheduler := Some Manager.SinglePassScheduler;
     Manager.digest_scheduler := Some Digest.__init__;
     Manager.parser_manager := Some ∅;
     Manager.tasks :=
       {[ "digest_publisher" := Manager.create_task "digest_scheduler";
          "continuous" := Manager.create_task "continuous_scheduler";
          "single_pass" := Manager.create_task "single_pass_scheduler" ]} |}.

(** A listing that keeps ["alpha"], drops the other three Telegram
    channels and adds ["epsilon"]; and a listing with an empty sheet. *)
Definition tg_sheet : string * list RawChannel :=
  ("telegram",
   [ {| raw_url := "https://t.me/s/alpha"; raw_channel_id := Some "alpha";
        raw_sheet_name := Some "Telegram"; raw_row_number := Some 1 |};
     {| raw_url := "https://t.me/s/epsilon";
        raw_channel_id := Some "epsilon";
        raw_sheet_name := Some "Telegram"; raw_row_number := Some 2 |} ]).

Definition tg_sheets : list (string * list RawChannel) := [tg_sheet].

Definition empty_sheets : list (string * list RawChannel) :=
  [("telegram", []); ("youtube", [])].



(** Clock readings of successive iterations of a source loop, none of
    which fails to select. *)
Definition calm_ticks : list Base.Tick :=
  [ {| Base.now := 10; Base.selection_error := None |};
    {| Base.now := 20; Base.selection_error := None |};
    {| Base.now := 30; Base.selection_error := None |};
    {| Base.now := 40; Base.selection_error := None |} ].

Definition tg_parsers : gmap string (option Base.BaseParser) :=
  {[ "telegram" := Some quiet_parser ]}.

(** A directory whose only enabled source lists an inactive channel. *)
Definition idle_directory : gmap string (list nat) :=
  {[ "telegram" := [1%nat] ]}.

(** Worlds in which nothing can be assembled, and in which the call is
    cancelled while the digest is being assembled. *)
Definition nothing_to_publish : Digest.World :=
  {| Digest.creator := fun _ => Returned None;
     Digest.publisher := fun _ => Returned true |}.

Definition cancelled_while_creating : Digest.World :=
  {| Digest.creator := fun _ => Raised CancelledError;
     Digest.publisher := fun _ => Returned true |}.

End Samples.

(* ================================================================== *)
(** * Properties *)

(** ** Channel records: [DatabaseManager.update_channel_result] *)

Section ChannelResult.

Import Db Samples.

Lemma query_first_None (p : ChannelSource -> bool) (rows : Session) :
  query_first p rows = None <-> forall ch, ch ∈ rows -> p ch = false.
Proof.
  induction rows as [|c rows IH]; simpl.
  - split; [intros _ ch Hin; inversion Hin | done].
  - destruct (p c) eqn:Hc.
    + split; [done|]. intros H. specialize (H c (list_elem_of_here _ _)).
      congruence.
    + destruct (query_first p rows) as [[i c']|] eqn:Hq.
      * split; [done|]. intros H.
        assert (Some (i, c') = None) as Habs; [|done].
        apply IH. intros ch Hin. apply H. by apply list_elem_of_further.
      * split; [|done]. intros _ ch Hin.
        apply elem_of_cons in Hin as [->|Hin]; [done|].
        destruct IH as [IH _]. by apply IH.
Qed.

Lemma query_first_Some (p : ChannelSource -> bool) (rows : Session) i ch :
  query_first p rows = Some (i, ch) ->
  rows !! i = Some ch /\ p ch = true /\
  forall j c, (j < i)%nat -> rows !! j = Some c -> p c = false.
Proof.
  revert i. induction rows as [|c rows IH]; intros i; simpl; [done|].
  destruct (p c) eqn:Hc.
  - intros [= <- <-]. repeat split; [done|]. intros j c' Hj. lia.
  - destruct (query_first p rows) as [[k c']|] eqn:Hq; [|done].
    intros [= <- <-]. destruct (IH k eq_refl) as (Hl & Hp & Hmin).
    repeat split; [done..|]. intros [|j] c0 Hj; simpl.
    + by intros [= <-].
    + apply Hmin. lia.
Qed.

Lemma same_channel_spec cid st ch :
  same_channel cid st ch = true <->
  channel_id ch = cid /\ source_type ch = st.
Proof.
  unfold same_channel. rewrite andb_true_iff, !bool_decide_eq_true. done.
Qed.

(** *** The stored average in double precision *)

Lemma of_int_fits (n : Z) :
  Double.fits n = true -> Double.of_int n = Returned (Double.of_Z n).
Proof. unfold Double.of_int. by intros ->. Qed.

(** Rounding keeps the sign it is given. *)
Lemma binary_round_aux_sign_clear (m e : Z) (l : SpecFloat.location) :
  Double.sign_clear
    (SpecFloat.binary_round_aux Double.prec Double.emax false m e l) = true.
Proof.
  unfold SpecFloat.binary_round_aux.
  destruct (SpecFloat.shr_fexp _ _ m e l) as [mrs' e'].
  destruct (SpecFloat.shr_fexp _ _ _ e' _) as [mrs'' e''].
  destruct (SpecFloat.shr_m mrs'') as [|p|p]; [done| |done].
  by destruct (e'' <=? _).
Qed.

Lemma of_Z_sign_clear (n : Z) :
  0 <= n -> Double.sign_clear (Double.of_Z n) = true.
Proof.
  intros Hn. destruct n as [|p|p]; [done| |lia].
  unfold Double.of_Z, SpecFloat.binary_normalize, SpecFloat.binary_round.
  destruct (SpecFloat.shl_align _ _ _) as [mz ez].
  apply binary_round_aux_sign_clear.
Qed.

Lemma gt_zero_sign_clear (x : Double.float) :
  Double.gt_zero x = true -> Double.sign_clear x = true.
Proof. by destruct x as [[]|[]| |[] m e]. Qed.

Lemma mul_sign_clear (x y : Double.float) :
  Double.sign_clear x = true -> Double.sign_clear y = true ->
  Double.sign_clear (Double.mul x y) = true.
Proof.
  destruct x as [[]|[]| |[] mx ex], y as [[]|[]| |[] my ey];
    try done; intros _ _.
  apply binary_round_aux_sign_clear.
Qed.

(** A zero of either sign added to a value whose sign bit is clear gives
    that value. *)
Lemma add_zero_l (s : bool) (y : Double.float) :
  Double.sign_clear y = true -> Double.add (SpecFloat.S754_zero s) y = y.
Proof. by destruct s, y as [[]|[]| |[] my ey]. Qed.

Lemma mul_zero_r (x : Double.float) :
  Double.is_finite x = true ->
  exists s, Double.mul x (Double.of_Z 0) = SpecFloat.S754_zero s.
Proof. destruct x as [s|s| |s m e]; try done; intros _; by eexists. Qed.

(** The weighted mean over nothing collected before: the old average,
    when finite, drops out and one product and one quotient remain. *)
Lemma weighted_mean_fresh (a newAvg : Double.float) (newCount : Z) :
  Double.is_finite a = true ->
  Double.gt_zero newAvg = true ->
  0 <= newCount ->
  weighted_mean a 0 newAvg newCount
  = Double.div (Double.mul newAvg (Double.of_Z newCount))
               (Double.of_Z newCount).
Proof.
  intros Ha Hpos Hn. unfold weighted_mean. rewrite Z.add_0_l.
  destruct (mul_zero_r a Ha) as [s ->].
  rewrite add_zero_l; [done|].
  apply mul_sign_clear; [by apply gt_zero_sign_clear|by apply of_Z_sign_clear].
Qed.

(** C6 (as amended).  Folding a successful outcome into the stored record
    adds the items to the collected count and one to the success counter.
    Under the guard [news_count > 0 and avg_score > 0], with a new count
    other than 0 and counts within the range of a double, the average
    becomes the weighted mean of the specification evaluated in double
    precision: the two products, the sum and the quotient are each
    rounded.  When nothing had been collected before and the old average
    is finite, this is [(avg_score * news_count) / news_count] so
    evaluated, which need not be [avg_score].  When the guard fails the
    average is left as it was. *)
Theorem update_channel_result_success_average
    (now : Z) (session : Session) (cid : option string) (st : string)
    (news_count : Z) (avg_score : Double.float) (i : nat)
    (ch : ChannelSource) :
  query_first (same_channel cid st) session = Some (i, ch) ->
  let guard := (0 <? news_count) && Double.gt_zero avg_score in
  let r := update_channel_result now session cid st true news_count
             avg_score in
  (guard = true ->
   news_collected ch + news_count <> 0 ->
   Double.fits (news_collected ch) = true ->
   Double.fits news_count = true ->
   Double.fits (news_collected ch + news_count) = true ->
   exists ch',
     r = (true, <[i := ch']> session, [])
     /\ news_collected ch' = news_collected ch + news_count
     /\ success_count ch' = success_count ch + 1
     /\ avg_interest_score ch'
        = weighted_mean (avg_interest_score ch) (news_collected ch)
                        avg_score news_count
     /\ (news_collected ch = 0 ->
         Double.is_finite (avg_interest_score ch) = true ->
         avg_interest_score ch'
         = Double.div (Double.mul avg_score (Double.of_Z news_count))
                      (Double.of_Z news_count)))
  /\ (guard = false ->
      exists ch',
        r = (true, <[i := ch']> session, [])
        /\ news_collected ch' = news_collected ch + news_count
        /\ success_count ch' = success_count ch + 1
        /\ avg_interest_score ch' = avg_interest_score ch).
Proof.
  intros Hq guard r. subst guard r.
  unfold update_channel_result, record_result. rewrite Hq. simpl.
  split; intros Hguard; rewrite Hguard.
  - intros Hsum Hf1 Hf2 Hf3.
    pose proof Hguard as Hg.
    apply andb_true_iff in Hg as [Hpos Hgt]. apply Z.ltb_lt in Hpos.
    replace (news_collected ch + news_count - news_count)
      with (news_collected ch) by lia.
    rewrite (of_int_fits _ Hf1), (of_int_fits _ Hf2), (of_int_fits _ Hf3).
    destruct (news_collected ch + news_count =? 0) eqn:Hz;
      [by apply Z.eqb_eq in Hz|].
    eexists. split; [reflexivity|]. simpl.
    split; [done|]. split; [done|]. split; [done|].
    intros H0 Hfin. rewrite H0, Z.add_0_l.
    rewrite <- (weighted_mean_fresh (avg_interest_score ch) avg_score
                  news_count Hfin Hgt ltac:(lia)).
    unfold weighted_mean. by rewrite Z.add_0_l.
  - eexists. split; [reflexivity|]. by simpl.
Qed.

Lemma update_channel_result_success_average_witness :
  query_first (same_channel (Some "news") "telegram") sample_session
    = Some (1%nat, sample_channel)
  /\ exists ch',
       update_channel_result 100 sample_session (Some "news") "telegram"
         true 5 (Double.dec 4 10)
         = (true, <[1%nat := ch']> sample_session, [])
       /\ news_collected ch' = 10
       /\ avg_interest_score ch' = Double.dec 6 10.
Proof.
  split; [reflexivity|].
  destruct (proj1 (update_channel_result_success_average 100 sample_session
                     (Some "news") "telegram" 5 (Double.dec 4 10) 1
                     sample_channel eq_refl))
    as (ch' & Hupd & Hn & _ & Havg & _);
    [reflexivity | simpl; lia | reflexivity | reflexivity | reflexivity |].
  exists ch'. split; [exact Hupd|]. split; [exact Hn|].
  rewrite Havg. vm_compute. reflexivity.
Defined.

(** Five items at 0.8 into a record that has none, then five more at 0.4:
    the stored average is the double 0.6. *)
Example avg_score_five_and_five :
  let s1 := (update_channel_result 100 [fresh_channel] (Some "ai") "youtube"
               true 5 (Double.dec 8 10)).1.2 in
  let s2 := (update_channel_result 200 s1 (Some "ai") "youtube"
               true 5 (Double.dec 4 10)).1.2 in
  match s1 !! 0%nat with
  | Some ch => avg_interest_score ch = Double.dec 8 10 /\ news_collected ch = 5
  | None => False
  end
  /\ match s2 !! 0%nat with
     | Some ch =>
         avg_interest_score ch = Double.dec 6 10 /\ news_collected ch = 10
     | None => False
     end.
Proof. vm_compute. repeat split. Qed.

(** C6, counterexample.  Five items whose per-poll average is 0 folded
    into a record holding five items at 0.8: the weighted mean is 0.4, the
    stored average stays 0.8.  Three items at 0.1 folded into a record
    that has collected nothing: the stored average is
    0.10000000000000002, the double next above 0.1, not 0.1. *)
Lemma stored_average_differs_from_the_mean :
  let r := update_channel_result 100 sample_session (Some "news") "telegram"
             true 5 Double.zero in
  let r' := update_channel_result 100 [fresh_channel] (Some "ai") "youtube"
              true 3 (Double.dec 1 10) in
  (r.1.1 = true
   /\ (news_collected <$> r.1.2 !! 1%nat) = Some 10
   /\ (avg_interest_score <$> r.1.2 !! 1%nat) = Some (Double.dec 8 10)
   /\ weighted_mean (avg_interest_score sample_channel)
        (news_collected sample_channel) Double.zero 5 = Double.dec 4 10
   /\ Double.dec 8 10 <> Double.dec 4 10)
  /\ (r'.1.1 = true
      /\ news_collected fresh_channel = 0
      /\ (avg_interest_score <$> r'.1.2 !! 0%nat)
         = Some (SpecFloat.S754_finite false 7205759403792795 (-56))
      /\ Double.dec 1 10 = SpecFloat.S754_finite false 7205759403792794 (-56)
      /\ (avg_interest_score <$> r'.1.2 !! 0%nat) <> Some (Double.dec 1 10)).
Proof. vm_compute. repeat split; discriminate. Qed.

(** C7 (as amended).  A failed outcome folded into a stored record whose
    failure counter is already 2 or more adds exactly one to the counter,
    leaves the record inactive whatever its activity flag was, changes no
    other counter, and writes the deactivation warning; this happens on
    every such outcome, not only on the first. *)
Theorem update_channel_result_failure_deactivates
    (now : Z) (session : Session) (cid : option string) (st : string)
    (news_count : Z) (avg_score : Double.float) (i : nat)
    (ch : ChannelSource) :
  query_first (same_channel cid st) session = Some (i, ch) ->
  2 <= failure_count ch ->
  exists ch',
    update_channel_result now session cid st false news_count avg_score
      = (true, <[i := ch']> session, [deactivated cid])
    /\ is_active ch' = false
    /\ failure_count ch' = failure_count ch + 1
    /\ success_count ch' = success_count ch
    /\ news_collected ch' = news_collected ch
    /\ avg_interest_score ch' = avg_interest_score ch.
Proof.
  intros Hq Hfc. unfold update_channel_result, record_result. rewrite Hq.
  simpl. destruct (3 <=? failure_count ch + 1) eqn:Hb;
    [|apply Z.leb_gt in Hb; lia].
  eexists. split; [reflexivity|]. by simpl.
Qed.

Lemma update_channel_result_failure_deactivates_witness :
  query_first (same_channel (Some "news") "telegram") sample_session
    = Some (1%nat, sample_channel)
  /\ 2 <= failure_count sample_channel
  /\ exists ch',
       update_channel_result 100 sample_session (Some "news") "telegram"
         false 0 Double.zero
         = (true, <[1%nat := ch']> sample_session, [deactivated (Some "news")])
       /\ is_active ch' = false
       /\ failure_count ch' = 3.
Proof.
  split; [reflexivity|]. split; [simpl; lia|].
  destruct (update_channel_result_failure_deactivates 100 sample_session
              (Some "news") "telegram" 0 Double.zero 1 sample_channel)
    as (ch' & Hupd & Hact & Hfc & _); [reflexivity | simpl; lia |].
  exists ch'. split; [exact Hupd|]. split; [exact Hact|]. exact Hfc.
Defined.

(** C7, counterexample: two failed outcomes in a row on a channel that
    starts with two failures.  The first deactivates it; the second, on
    the now inactive channel, writes the deactivation warning again. *)
Lemma second_failure_logs_deactivation_again :
  let r1 := update_channel_result 100 sample_session (Some "news") "telegram"
              false 0 Double.zero in
  let r2 := update_channel_result 200 r1.1.2 (Some "news") "telegram"
              false 0 Double.zero in
  (is_active <$> r1.1.2 !! 1%nat) = Some false
  /\ r1.2 = [deactivated (Some "news")]
  /\ (failure_count <$> r2.1.2 !! 1%nat) = Some 4
  /\ (is_active <$> r2.1.2 !! 1%nat) = Some false
  /\ r2.2 = [deactivated (Some "news")]
  /\ r2.2 <> [].
Proof. simpl. repeat split. discriminate. Qed.

(** C10.  When no stored record has the given channel id and source type,
    [update_channel_result] returns [False] and the table of channel
    records is exactly what it was. *)
Theorem update_channel_result_unknown_channel
    (now : Z) (session : Session) (cid : option string) (st : string)
    (success : bool) (news_count : Z) (avg_score : Double.float) :
  (forall ch, ch ∈ session ->
              ~ (channel_id ch = cid /\ source_type ch = st)) ->
  (update_channel_result now session cid st success news_count avg_score).1
    = (false, session).
Proof.
  intros Hnone. unfold update_channel_result.
  destruct (query_first (same_channel cid st) session) as [[i ch]|] eqn:Hq;
    [|reflexivity].
  apply query_first_Some in Hq as (Hl & Hp & _).
  apply same_channel_spec in Hp. exfalso.
  apply (Hnone ch); [|exact Hp]. by eapply list_elem_of_lookup_2.
Qed.

Lemma update_channel_result_unknown_channel_witness :
  (forall ch, ch ∈ sample_session ->
              ~ (channel_id ch = Some "news" /\ source_type ch = "youtube"))
  /\ (update_channel_result 100 sample_session (Some "news") "youtube"
        false 0 Double.zero).1 = (false, sample_session).
Proof.
  assert (forall ch, ch ∈ sample_session ->
            ~ (channel_id ch = Some "news" /\ source_type ch = "youtube"))
    as Hnone.
  { intros ch Hin [Hc Hs]. unfold sample_session in Hin.
    apply elem_of_cons in Hin as [->|Hin]; [discriminate Hc|].
    apply list_elem_of_singleton in Hin as ->. discriminate Hs. }
  split; [exact Hnone|].
  exact (update_channel_result_unknown_channel 100 sample_session
           (Some "news") "youtube" false 0 Double.zero Hnone).
Defined.

End ChannelResult.

(** ** Channel rotation: [BaseScheduler._get_next_channel] *)

Section Rotation.

Import Base.

Variables (session : Db.Session) (st : string).

(** The call, once the directory entry and its active part are known. *)
Lemma get_next_channel_unfold (self : BaseScheduler) (channels : list nat) :
  _channels_by_source self !! st = Some channels ->
  active_of session channels <> [] ->
  _get_next_channel session st self =
    let act := active_of session channels in
    if (length act <=? cursor st self)%nat then
      if cycle self then
        (act !! 0%nat,
         with_indices (<[st := 1%nat]> (<[st := 0%nat]> (_channel_indices self)))
                      self)
      else (None, self)
    else
      (act !! cursor st self,
       with_indices (<[st := S (cursor st self)]> (_channel_indices self)) self).
Proof.
  intros Hch Hact. unfold _get_next_channel, cursor. rewrite Hch. simpl.
  destruct channels as [|r channels]; [done|].
  destruct (active_of session (r :: channels)) as [|a act] eqn:Ha; [done|].
  destruct (length (a :: act) <=? default 0%nat (_channel_indices self !! st))%nat;
    [destruct (cycle self)|]; reflexivity.
Qed.

Lemma cursor_with_indices_insert (self : BaseScheduler) ix c :
  cursor st (with_indices (<[st := c]> ix) self) = c.
Proof. unfold cursor. simpl. by rewrite lookup_insert_eq. Qed.

(** A call changes nothing but cursors, and only the cursor of [st]. *)
Lemma get_next_channel_frame (self : BaseScheduler) :
  let self' := (_get_next_channel session st self).2 in
  cycle self' = cycle self
  /\ _channels_by_source self' = _channels_by_source self
  /\ tasks self' = tasks self
  /\ is_running self' = is_running self
  /\ start_time self' = start_time self
  /\ forall st', st' <> st -> cursor st' self' = cursor st' self.
Proof.
  unfold _get_next_channel.
  destruct (default [] (_channels_by_source self !! st)) as [|r channels];
    [by simpl|].
  destruct (active_of session (r :: channels)) as [|a act]; [by simpl|].
  destruct (length (a :: act) <=? default 0%nat (_channel_indices self !! st))%nat;
    [destruct (cycle self) eqn:Hc|]; simpl; repeat split; try done;
    intros st' Hne; unfold cursor; simpl;
    by rewrite ?lookup_insert_ne by done.
Qed.

Lemma next_channels_frame (k : nat) (self : BaseScheduler) :
  let self' := (next_channels k session st self).2 in
  cycle self' = cycle self
  /\ _channels_by_source self' = _channels_by_source self
  /\ forall st', st' <> st -> cursor st' self' = cursor st' self.
Proof.
  revert self. induction k as [|k IH]; intros self; simpl; [done|].
  pose proof (get_next_channel_frame self) as (Hc & Hd & _ & _ & _ & Ho).
  destruct (_get_next_channel session st self) as [r self1]. simpl in *.
  specialize (IH self1).
  destruct (next_channels k session st self1) as [rs self2]. simpl in *.
  destruct IH as (Hc' & Hd' & Ho').
  repeat split; [congruence..|]. intros st' Hne.
  rewrite Ho', Ho; done.
Qed.

Lemma next_channels_add (a b : nat) (self : BaseScheduler) :
  next_channels (a + b) session st self =
    let r1 := next_channels a session st self in
    let r2 := next_channels b session st r1.2 in
    (r1.1 ++ r2.1, r2.2).
Proof.
  revert self. induction a as [|a IH]; intros self; simpl.
  - by destruct (next_channels b session st self).
  - destruct (_get_next_channel session st self) as [r self1].
    rewrite IH. simpl.
    destruct (next_channels a session st self1) as [rs self2]. simpl.
    by destruct (next_channels b session st self2).
Qed.

(** Without reaching the end of the list the calls walk through it,
    whatever the mode. *)
Lemma next_channels_walk (k : nat) (self : BaseScheduler) (channels : list nat) :
  _channels_by_source self !! st = Some channels ->
  (cursor st self + k <= length (active_of session channels))%nat ->
  (0 < k)%nat ->
  let r := next_channels k session st self in
  r.1 = Some <$> take k (drop (cursor st self) (active_of session channels))
  /\ cursor st r.2 = (cursor st self + k)%nat.
Proof.
  revert self. induction k as [|k IH]; intros self Hch Hle Hk; [lia|].
  set (act := active_of session channels) in *.
  assert (act <> []) as Hne by (intros E; rewrite E in Hle; simpl in Hle; lia).
  simpl. rewrite (get_next_channel_unfold self channels Hch Hne). simpl.
  fold act. destruct (length act <=? cursor st self)%nat eqn:Hb;
    [apply Nat.leb_le in Hb; lia|].
  destruct (act !! cursor st self) as [x|] eqn:Hx;
    [|apply lookup_ge_None in Hx; lia].
  set (self1 := with_indices _ self).
  assert (cursor st self1 = S (cursor st self)) as Hc1
    by apply cursor_with_indices_insert.
  rewrite (drop_S _ _ _ Hx). simpl.
  destruct k as [|k].
  - simpl. split; [done|]. rewrite Hc1. lia.
  - specialize (IH self1 Hch). rewrite Hc1 in IH.
    destruct (next_channels (S k) session st self1) as [rs self2] eqn:Hn.
    simpl in *. destruct IH as [-> ->]; [lia..|]. split; [done|lia].
Qed.

(** In wrap mode a cursor at the end of the list is as good as cursor 0. *)
Lemma get_next_channel_wrap (self : BaseScheduler) (channels : list nat) :
  cycle self = true ->
  _channels_by_source self !! st = Some channels ->
  active_of session channels <> [] ->
  (length (active_of session channels) <= cursor st self)%nat ->
  let r := _get_next_channel session st self in
  r.1 = active_of session channels !! 0%nat /\ cursor st r.2 = 1%nat.
Proof.
  intros Hcy Hch Hne Hle.
  rewrite (get_next_channel_unfold self channels Hch Hne). simpl.
  rewrite Hcy. apply Nat.leb_le in Hle. rewrite Hle. simpl.
  split; [done|]. apply cursor_with_indices_insert.
Qed.

(** In wrap mode, from a cursor at the end, [k] calls return the first [k]
    active channels. *)
Lemma next_channels_wrap_walk (k : nat) (self : BaseScheduler)
    (channels : list nat) :
  cycle self = true ->
  _channels_by_source self !! st = Some channels ->
  (length (active_of session channels) <= cursor st self)%nat ->
  (0 < k <= length (active_of session channels))%nat ->
  let r := next_channels k session st self in
  r.1 = Some <$> take k (active_of session channels)
  /\ cursor st r.2 = k.
Proof.
  intros Hcy Hch Hle [Hk Hkn].
  set (act := active_of session channels) in *.
  assert (act <> []) as Hne by (intros E; rewrite E in Hkn; simpl in Hkn; lia).
  destruct k as [|k]; [lia|]. simpl.
  pose proof (get_next_channel_wrap self channels Hcy Hch Hne Hle) as [Hr Hc].
  pose proof (get_next_channel_frame self) as (_ & Hd & _).
  destruct (_get_next_channel session st self) as [r self1]. simpl in *.
  fold act in Hr. destruct act as [|a act'] eqn:Hact; [done|].
  simpl in Hr. subst r. rewrite <- Hd in Hch.
  destruct k as [|k].
  - simpl. done.
  - pose proof (next_channels_walk (S k) self1 channels Hch) as Hw.
    rewrite Hc in Hw. fold act in Hw. rewrite Hact in Hw.
    destruct (next_channels (S k) session st self1) as [rs self2].
    simpl in *. destruct Hw as [-> ->]; [lia..|]. done.
Qed.

(** C4.  In wrap mode over a fixed non-empty active list, after any number
    of earlier calls, as many calls as there are active channels return
    the whole active list once, in list order starting at the cursor and
    wrapping to index 0: each active channel exactly once, none skipped,
    none twice. *)
Theorem get_next_channel_round_robin (self : BaseScheduler)
    (channels : list nat) (m : nat) :
  cycle self = true ->
  _channels_by_source self !! st = Some channels ->
  active_of session channels <> [] ->
  let act := active_of session channels in
  let n := length act in
  let self_m := (next_channels m session st self).2 in
  let j := if (n <=? cursor st self_m)%nat then 0%nat else cursor st self_m in
  (j < n)%nat
  /\ (next_channels n session st self_m).1 = Some <$> (drop j act ++ take j act)
  /\ (next_channels n session st self_m).1 ≡ₚ Some <$> act.
Proof.
  intros Hcy Hch Hne act n self_m j.
  assert (0 < n)%nat as Hn
    by (subst n act; destruct (active_of session channels);
        [done|simpl; lia]).
  pose proof (next_channels_frame m self) as (Hcy' & Hd' & _).
  fold self_m in Hcy', Hd'. rewrite <- Hd' in Hch. rewrite <- Hcy' in Hcy.
  assert ((j < n)%nat /\
          (next_channels n session st self_m).1
          = Some <$> (drop j act ++ take j act)) as [Hj Heq].
  { subst j. destruct (n <=? cursor st self_m)%nat eqn:Hb.
    - apply Nat.leb_le in Hb. split; [done|].
      destruct (next_channels_wrap_walk n self_m channels Hcy Hch Hb)
        as [-> _]; [fold act; lia|].
      fold act. subst n. rewrite firstn_all, drop_0, take_0, app_nil_r. done.
    - apply Nat.leb_gt in Hb. split; [done|].
      set (c := cursor st self_m) in *.
      replace n with ((n - c) + c)%nat at 1 by lia.
      rewrite next_channels_add. simpl.
      destruct (next_channels_walk (n - c) self_m channels Hch)
        as [Hr1 Hc1]; [fold act c; lia | lia |].
      fold c act in Hr1, Hc1.
      pose proof (next_channels_frame (n - c) self_m)
        as (Hcy1 & Hd1 & _).
      destruct (next_channels (n - c) session st self_m) as [rs1 self1].
      simpl in *. subst rs1.
      rewrite take_ge by (rewrite length_drop; fold n; lia).
      destruct (decide (c = 0%nat)) as [Hc0|Hc0].
      + rewrite Hc0. simpl. by rewrite take_0, !app_nil_r.
      + destruct (next_channels_wrap_walk c self1 channels)
          as [-> _]; [congruence | congruence | fold act n; lia
                     | fold act n; lia |].
        fold act. by rewrite fmap_app. }
  split; [done|]. split; [done|].
  rewrite Heq. apply fmap_Permutation.
  rewrite Permutation_app_comm. by rewrite take_drop.
Qed.

End Rotation.

Lemma get_next_channel_round_robin_witness :
  let session := Samples.tg_session in
  let self := Samples.tg_scheduler true in
  let self_2 := (Base.next_channels 2 session "telegram" self).2 in
  Base.cycle self = true
  /\ Base._channels_by_source self !! "telegram" = Some [0; 1; 2; 3]%nat
  /\ Base.active_of session [0; 1; 2; 3]%nat <> []
  /\ (Base.next_channels 3 session "telegram" self_2).1
     = [Some (3%nat, Samples.tg 4 "delta" true);
        Some (0%nat, Samples.tg 1 "alpha" true);
        Some (2%nat, Samples.tg 3 "gamma" true)]
  /\ (Base.next_channels 3 session "telegram" self_2).1
     ≡ₚ Some <$> Base.active_of session [0; 1; 2; 3]%nat.
Proof.
  intros session self self_2.
  assert (Base.cycle self = true) as H1 by reflexivity.
  assert (Base._channels_by_source self !! "telegram" = Some [0; 1; 2; 3]%nat)
    as H2 by (vm_compute; reflexivity).
  assert (Base.active_of session [0; 1; 2; 3]%nat <> []) as H3
    by (vm_compute; discriminate).
  split; [exact H1|]. split; [exact H2|]. split; [exact H3|].
  split; [vm_compute; reflexivity|].
  exact (proj2 (proj2 (get_next_channel_round_robin session "telegram" self
                         [0; 1; 2; 3]%nat 2 H1 H2 H3))).
Defined.

(** ** Exhaustion in single-pass mode: [BaseScheduler._check_finished] *)

Section Exhaustion.

Import Base.

Variables (config : Config) (session : Db.Session).

(** The check is true exactly when the mode is single-pass and every
    enabled source type present in the directory has its cursor at or
    beyond the length of its active list. *)
Lemma check_finished_iff (self : BaseScheduler) :
  _check_finished config session self = true <->
  cycle self = false /\
  forall st, (st, true) ∈ parser_status config ->
             is_Some (_channels_by_source self !! st) ->
             (length (active_list session self st) <= cursor st self)%nat.
Proof.
  unfold _check_finished. destruct (cycle self); [split; [done|by intros []]|].
  rewrite forallb_forall. split.
  - intros H. split; [done|]. intros st Hin Hsome.
    specialize (H st). rewrite <- list_elem_of_In in H.
    rewrite negb_true_iff, Nat.ltb_ge in H. apply H.
    apply list_elem_of_omap. exists (st, true). split; [done|]. simpl.
    by rewrite bool_decide_true.
  - intros [_ H] st Hin. rewrite <- list_elem_of_In in Hin.
    apply list_elem_of_omap in Hin as ([st' b] & Hin & Hf). simpl in Hf.
    destruct b; simpl in Hf; [|done]. case_bool_decide; [|done].
    injection Hf as ->. rewrite negb_true_iff, Nat.ltb_ge.
    by apply H.
Qed.

Lemma reset_indices_lookup (d : gmap string (list nat))
    (ix : gmap string nat) (st : string) :
  reset_indices d ix !! st =
    match d !! st with
    | Some _ => Some 0%nat
    | None => ix !! st
    end.
Proof.
  unfold reset_indices.
  apply (map_fold_weak_ind
           (fun acc (m : gmap string (list nat)) =>
              acc !! st = match m !! st with
                          | Some _ => Some 0%nat
                          | None => ix !! st
                          end)).
  - by rewrite lookup_empty.
  - intros i x m r Hi IH. destruct (decide (i = st)) as [->|Hne].
    + by rewrite !lookup_insert_eq.
    + by rewrite !lookup_insert_ne.
Qed.

(** After a reconciliation every listed source type has cursor 0. *)
Lemma force_sync_cursor (synced : gmap string (list nat))
    (self : BaseScheduler) (st : string) :
  is_Some (synced !! st) -> cursor st (force_sync synced self) = 0%nat.
Proof.
  intros [l Hl]. unfold cursor, force_sync. simpl.
  by rewrite reset_indices_lookup, Hl.
Qed.

(** C5.  In single-pass mode, for an enabled source type with a non-empty
    active list and its cursor at 0:
    - as many calls as there are active channels return them in order,
      and the check is false until the last of them;
    - the next call returns nothing and leaves the scheduler as it is;
    - the check is true exactly when every enabled source type present in
      the directory has its cursor at the length of its active list or
      beyond, so it is true now if the other source types are exhausted;
    - a reconciliation that still lists an active channel for the source
      type makes the check false again. *)
Theorem single_pass_exhaustion (self : BaseScheduler) (st : string)
    (channels : list nat) (synced : gmap string (list nat))
    (channels' : list nat) :
  cycle self = false ->
  _channels_by_source self !! st = Some channels ->
  active_of session channels <> [] ->
  cursor st self = 0%nat ->
  (st, true) ∈ parser_status config ->
  (forall st', st' <> st -> (st', true) ∈ parser_status config ->
               is_Some (_channels_by_source self !! st') ->
               (length (active_list session self st') <= cursor st' self)%nat) ->
  synced !! st = Some channels' ->
  active_of session channels' <> [] ->
  let act := active_of session channels in
  let n := length act in
  let self_n := (next_channels n session st self).2 in
  (next_channels n session st self).1 = Some <$> act
  /\ (forall k, (k < n)%nat ->
        _check_finished config session (next_channels k session st self).2
        = false)
  /\ _get_next_channel session st self_n = (None, self_n)
  /\ _check_finished config session self_n = true
  /\ (forall s : BaseScheduler,
        _check_finished config session s = true <->
        cycle s = false /\
        forall st', (st', true) ∈ parser_status config ->
                    is_Some (_channels_by_source s !! st') ->
                    (length (active_list session s st') <= cursor st' s)%nat)
  /\ _check_finished config session (force_sync synced self_n) = false.
Proof.
  intros Hcy Hch Hne Hc0 Hen Hothers Hsy Hne' act n self_n.
  assert (0 < n)%nat as Hn
    by (subst n act; destruct (active_of session channels);
        [done|simpl; lia]).
  (* the cursor after k <= n calls *)
  assert (forall k, (k <= n)%nat ->
            cursor st (next_channels k session st self).2 = k) as Hcur.
  { intros [|k] Hk; [done|].
    destruct (next_channels_walk session st (S k) self channels Hch)
      as [_ ->]; [rewrite Hc0; fold act n; lia | lia |]. by rewrite Hc0. }
  pose proof (next_channels_frame session st n self) as (Hcy_n & Hd_n & Ho_n).
  fold self_n in Hcy_n, Hd_n, Ho_n.
  split; [|split; [|split; [|split; [|split]]]].
  - destruct (next_channels_walk session st n self channels Hch)
      as [-> _]; [rewrite Hc0; fold act n; lia | lia |].
    rewrite Hc0, drop_0. fold act. subst n. by rewrite firstn_all.
  - intros k Hk. apply not_true_is_false. intros Hfin.
    apply check_finished_iff in Hfin as [_ Hfin].
    pose proof (next_channels_frame session st k self) as (_ & Hd_k & _).
    specialize (Hfin st Hen). rewrite Hd_k, Hch in Hfin.
    specialize (Hfin (mk_is_Some _ _ eq_refl)).
    unfold active_list in Hfin. rewrite Hd_k, Hch in Hfin. simpl in Hfin.
    fold act n in Hfin. rewrite Hcur in Hfin by lia. lia.
  - rewrite (get_next_channel_unfold session st self_n channels);
      [|by rewrite Hd_n|done].
    simpl. fold act n. unfold self_n at 1. rewrite (Hcur n) by lia.
    rewrite Nat.leb_refl, Hcy_n, Hcy. done.
  - apply check_finished_iff. split; [congruence|].
    intros st' Hin Hsome. unfold active_list. rewrite Hd_n in *.
    destruct (decide (st' = st)) as [->|Hne_st].
    + rewrite Hch. simpl. fold act n. unfold self_n. by rewrite Hcur.
    + rewrite Ho_n by done. by apply Hothers.
  - apply check_finished_iff.
  - apply not_true_is_false. intros Hfin.
    apply check_finished_iff in Hfin as [_ Hfin].
    specialize (Hfin st Hen). unfold active_list in Hfin.
    simpl in Hfin. rewrite Hsy in Hfin.
    specialize (Hfin (mk_is_Some _ _ eq_refl)). simpl in Hfin.
    rewrite force_sync_cursor in Hfin by (by rewrite Hsy).
    destruct (active_of session channels'); [done|simpl in Hfin; lia].
Qed.

End Exhaustion.

Lemma single_pass_exhaustion_witness :
  let config := Samples.tg_config in
  let session := Samples.tg_session in
  let self := Samples.tg_scheduler false in
  let self_3 := (Base.next_channels 3 session "telegram" self).2 in
  (Base.cycle self = false
   /\ Base._channels_by_source self !! "telegram" = Some [0; 1; 2; 3]%nat
   /\ Base.active_of session [0; 1; 2; 3]%nat <> []
   /\ Base.cursor "telegram" self = 0%nat
   /\ ("telegram", true) ∈ Base.parser_status config
   /\ (forall st', st' <> "telegram" ->
         (st', true) ∈ Base.parser_status config ->
         is_Some (Base._channels_by_source self !! st') ->
         (length (Base.active_list session self st')
          <= Base.cursor st' self)%nat)
   /\ Samples.tg_directory !! "telegram" = Some [0; 1; 2; 3]%nat)
  /\ (Base.next_channels 3 session "telegram" self).1
     = Some <$> Base.active_of session [0; 1; 2; 3]%nat
  /\ Base._get_next_channel session "telegram" self_3 = (None, self_3)
  /\ Base._check_finished config session self_3 = true
  /\ Base._check_finished config session
       (Base.force_sync Samples.tg_directory self_3) = false.
Proof.
  intros config session self self_3.
  assert (Base.cycle self = false) as H1 by reflexivity.
  assert (Base._channels_by_source self !! "telegram" = Some [0; 1; 2; 3]%nat)
    as H2 by (vm_compute; reflexivity).
  assert (Base.active_of session [0; 1; 2; 3]%nat <> []) as H3
    by (vm_compute; discriminate).
  assert (Base.cursor "telegram" self = 0%nat) as H4
    by (vm_compute; reflexivity).
  assert (("telegram", true) ∈ Base.parser_status config) as H5
    by (simpl; apply list_elem_of_further, list_elem_of_here).
  assert (forall st', st' <> "telegram" ->
            (st', true) ∈ Base.parser_status config ->
            is_Some (Base._channels_by_source self !! st') ->
            (length (Base.active_list session self st')
             <= Base.cursor st' self)%nat) as H6.
  { intros st' Hne _ [l Hl]. simpl in Hl. unfold Samples.tg_directory in Hl.
    rewrite lookup_singleton_ne in Hl by done. discriminate Hl. }
  assert (Samples.tg_directory !! "telegram" = Some [0; 1; 2; 3]%nat) as H7
    by (vm_compute; reflexivity).
  pose proof (single_pass_exhaustion config session self "telegram"
                [0; 1; 2; 3]%nat Samples.tg_directory [0; 1; 2; 3]%nat
                H1 H2 H3 H4 H5 H6 H7 H3) as (R1 & _ & R3 & R4 & _ & R6).
  split; [repeat split; assumption|].
  split; [exact R1|]. split; [exact R3|]. split; [exact R4|exact R6].
Defined.

(** ** Starting an engine: [BaseScheduler.start] *)

Section Start.

Import Base.

(** What a call of [start] on a running instance does. *)
Lemma start_already_running (now : Z) (running_loop : nat)
    (synced : gmap string (list nat)) (config : Config)
    (self : BaseScheduler) :
  is_running self = true ->
  start now running_loop synced config self
  = (AlreadyRunning,
     with_loop (Some running_loop) (with_indices ∅ (with_tasks ∅ self))).
Proof. intros Hr. unfold start. simpl. by rewrite Hr. Qed.

(** C9, at a running instance.  The second [start] is refused and leaves
    [is_running] and [start_time] alone, but it has already emptied the
    task table and the cursors: the Telegram task is no longer in the
    table and the cursor, which was 2, reads 0 again. *)
Theorem start_while_running_clears_tasks_and_cursors :
  let self := Samples.running_scheduler in
  let r := start 2000 1 Samples.tg_directory Samples.tg_config self in
  r.1 = AlreadyRunning
  /\ is_running r.2 = is_running self
  /\ start_time r.2 = start_time self
  /\ is_Some (tasks self !! "telegram")
  /\ tasks r.2 = ∅
  /\ cursor "telegram" self = 2%nat
  /\ _channel_indices r.2 = ∅
  /\ cursor "telegram" r.2 = 0%nat.
Proof.
  intros self r. subst r.
  rewrite (start_already_running 2000 1 _ _ self eq_refl). simpl.
  repeat split. by eexists.
Qed.

End Start.

(** ** The source loop: [_process_single_channel], [_process_source_task] *)

Section SourceLoop.

Import Base.

Variables (config : Config) (parsers : gmap string (option BaseParser))
          (st : string).

(** An ordinary error at any stage of the pipeline is recorded as a failed
    outcome of the channel and does not leave [_process_single_channel]. *)
Lemma process_single_channel_catches (now : Z)
    (channel : nat * Db.ChannelSource) (session session' : Db.Session)
    (e : exn) :
  process_single_channel_try now parsers st channel session
    = (Raised e, session') ->
  is_Exception e = true ->
  _process_single_channel now parsers st channel session
  = (Returned 0,
     (Db.update_channel_result now session' (Db.channel_id channel.2) st
        false 0 Double.zero).1.2).
Proof.
  intros Htry He. unfold _process_single_channel. by rewrite Htry, He.
Qed.

(** [_process_single_channel] lets nothing but a cancellation out. *)
Lemma process_single_channel_raises (now : Z)
    (channel : nat * Db.ChannelSource) (session session' : Db.Session)
    (e : exn) :
  _process_single_channel now parsers st channel session
    = (Raised e, session') ->
  e = CancelledError.
Proof.
  unfold _process_single_channel.
  destruct (process_single_channel_try now parsers st channel session)
    as [[z|e'] s]; [done|].
  destruct e'; simpl; congruence.
Qed.

(** After a channel was selected, an iteration ends in [Continue] unless
    the task was cancelled: pipeline errors do not end the loop. *)
Lemma source_loop_survives_pipeline (tick : Tick) (self self' : BaseScheduler)
    (session : Db.Session) (channel : nat * Db.ChannelSource) :
  selection_error tick = None ->
  (negb (cycle self) && _check_finished config session self) = false ->
  _check_parser_needs_restart session st self = false ->
  _get_next_channel session st self = (Some channel, self') ->
  let r := _process_single_channel (now tick) parsers st channel session in
  r.1 <> Raised CancelledError ->
  source_loop_iteration config parsers st tick (self, session)
  = (Continue, (self', r.2),
     [Poll st channel.1; Sleep (get_interval config st)]).
Proof.
  intros Hsel Hfin Hrestart Hnext r Hr.
  unfold source_loop_iteration, source_loop_try.
  rewrite Hsel, Hfin, Hrestart, Hnext. subst r.
  destruct (_process_single_channel (now tick) parsers st channel session)
    as [[z|e] s] eqn:Hp; [done|].
  apply process_single_channel_raises in Hp. subst e. by simpl in Hr.
Qed.

(** An ordinary error raised while the loop selects the channel ends the
    loop after the 60 second pause; the remaining ticks are never used. *)
Lemma source_loop_selection_error_exits (tick : Tick) (ticks : list Tick)
    (state : loop_state) (e : exn) :
  is_running state.1 = true ->
  selection_error tick = Some e ->
  is_Exception e = true ->
  _process_source_task config parsers st (tick :: ticks) state
  = (Exited, state, [Sleep 60]).
Proof.
  intros Hrun Hsel He. unfold _process_source_task. rewrite Hrun. simpl.
  unfold source_loop_iteration, source_loop_try. destruct state as [self s].
  rewrite Hsel. by destruct e.
Qed.

End SourceLoop.

(** C8, at a failing run.  The Telegram loop of a running continuous
    scheduler with three active channels still to visit meets an error
    while it selects the channel: it pauses 60 seconds and exits, polling
    nothing, although the environment would have let it go on.  The same
    loop meeting an error inside the pipeline records the failure and
    goes on to the next channel. *)
Theorem source_loop_exits_on_selection_error :
  let parsers : gmap string (option Base.BaseParser) :=
    {[ "telegram" := Some Samples.failing_parser ]} in
  let state := (Samples.tg_scheduler true, Samples.tg_session) in
  let bad := {| Base.now := 10;
                Base.selection_error := Some (Exception "database is locked") |} in
  let ok t := {| Base.now := t; Base.selection_error := None |} in
  Base._process_source_task Samples.tg_config parsers "telegram"
    [bad; ok 20; ok 30] state
  = (Base.Exited, state, [Base.Sleep 60])
  /\ (Base._process_source_task Samples.tg_config parsers "telegram"
        [ok 20; ok 30] state).1.1 = Base.StillLooping
  /\ (Base._process_source_task Samples.tg_config parsers "telegram"
        [ok 20; ok 30] state).2
     = [Base.Poll "telegram" 0; Base.Sleep 5;
        Base.Poll "telegram" 2; Base.Sleep 5]
  /\ (Db.failure_count <$>
        (Base._process_source_task Samples.tg_config parsers "telegram"
           [ok 20; ok 30] state).1.2.2 !! 0%nat) = Some 1.
Proof. vm_compute. repeat split. Qed.

(** ** The publication scheduler: [execute_digest_with_retry] *)

Section SingleFlight.

Import Digest.

(** While a call is suspended the guard flag is set. *)
Lemma resume_keeps_flag (self self' : DigestScheduler) (f f' : frame)
    (a : answer) (evs : list event) :
  (suspended f = true -> is_processing self = true) ->
  resume self f a = Some (self', f', evs) ->
  suspended f' = true -> is_processing self' = true.
Proof.
  intros Hinv Hres Hsusp.
  destruct f as [dt it|dt it n|dt it n d|dt it n|]; destruct a as [|r|r|];
    simpl in Hres; try discriminate Hres.
  - destruct (is_processing self) eqn:Hp.
    + injection Hres as <- <- <-. discriminate Hsusp.
    + unfold next_attempt in Hres. simpl in Hres.
      destruct (0 <? max_retries self)%nat;
        injection Hres as <- <- <-; [done|discriminate Hsusp].
  - specialize (Hinv eq_refl).
    destruct r as [[[ty tx [|i items]]|]|e]; simpl in Hres.
    + injection Hres as <- <- <-. discriminate Hsusp.
    + by injection Hres as <- <- <-.
    + injection Hres as <- <- <-. discriminate Hsusp.
    + unfold on_raise, on_exception, next_attempt in Hres.
      destruct (is_Exception e), (n <? max_retries self - 1)%nat,
               (S n <? max_retries self)%nat;
        injection Hres as <- <- <-; first [done | discriminate Hsusp].
  - specialize (Hinv eq_refl). destruct r as [b|e]; simpl in Hres.
    + injection Hres as <- <- <-. discriminate Hsusp.
    + unfold on_raise, on_exception, next_attempt in Hres.
      destruct (is_Exception e), (n <? max_retries self - 1)%nat,
               (S n <? max_retries self)%nat;
        injection Hres as <- <- <-; first [done | discriminate Hsusp].
  - specialize (Hinv eq_refl). unfold next_attempt in Hres.
    destruct (S n <? max_retries self)%nat;
      injection Hres as <- <- <-; [done|discriminate Hsusp].
Qed.

Lemma run_keeps_flag (answers : list answer) (self self' : DigestScheduler)
    (f f' : frame) (evs : list event) :
  (suspended f = true -> is_processing self = true) ->
  run self f answers = Some (self', f', evs) ->
  suspended f' = true -> is_processing self' = true.
Proof.
  revert self f evs. induction answers as [|a answers IH];
    intros self f evs Hinv Hrun; simpl in Hrun.
  - injection Hrun as <- <- <-. done.
  - destruct (resume self f a) as [[[s1 f1] e1]|] eqn:Hres; [|done].
    destruct (run s1 f1 answers) as [[[s2 f2] e2]|] eqn:Hrun'; [|done].
    injection Hrun as <- <- <-.
    eapply IH; [|exact Hrun'].
    by eapply resume_keeps_flag.
Qed.

(** A call made while the flag is set ends at once: it changes nothing
    and calls no collaborator. *)
Lemma resume_dropped (self : DigestScheduler) (digest_type : string)
    (is_test : bool) :
  is_processing self = true ->
  resume self (Called digest_type is_test) Go
  = Some (self, Finished, [dropped digest_type]).
Proof. intros Hp. simpl. by rewrite Hp. Qed.

(** C2.  A call of [execute_digest_with_retry] made while an earlier call
    on the same scheduler is suspended at any of its waiting points ends
    at once with the warning: it is not kept for later, it leaves the
    scheduler as it is, and the calls made to the collaborators by both
    together are those of the first call alone. *)
Theorem execute_digest_single_flight (self self1 self3 : DigestScheduler)
    (digest_type digest_type' : string) (is_test is_test' : bool)
    (pre post : list answer) (f1 f3 : frame) (evs1 evs3 : list event) :
  run self (Called digest_type is_test) pre = Some (self1, f1, evs1) ->
  suspended f1 = true ->
  run self1 f1 post = Some (self3, f3, evs3) ->
  resume self1 (Called digest_type' is_test') Go
    = Some (self1, Finished, [dropped digest_type'])
  /\ two_calls self digest_type is_test pre digest_type' is_test' post
     = Some (self3, f3, Finished, evs1 ++ [dropped digest_type'] ++ evs3)
  /\ List.filter is_call (evs1 ++ [dropped digest_type'] ++ evs3)
     = List.filter is_call (evs1 ++ evs3).
Proof.
  intros Hpre Hsusp Hpost.
  assert (is_processing self1 = true) as Hflag
    by (eapply run_keeps_flag; [|exact Hpre|exact Hsusp]; done).
  pose proof (resume_dropped self1 digest_type' is_test' Hflag) as Hdrop.
  split; [exact Hdrop|]. split.
  - unfold two_calls. by rewrite Hpre, Hdrop, Hpost.
  - by rewrite !List.filter_app.
Qed.

Lemma execute_digest_single_flight_witness :
  let pre := [Go; Created (Returned (Some Samples.daily_digest))] in
  let post := [Published (Returned true)] in
  (exists self1 f1 evs1 self3 f3 evs3,
      run __init__ (Called "daily" false) pre = Some (self1, f1, evs1)
      /\ suspended f1 = true
      /\ run self1 f1 post = Some (self3, f3, evs3)
      /\ two_calls __init__ "daily" false pre "daily" false post
         = Some (self3, f3, Finished, evs1 ++ [dropped "daily"] ++ evs3))
  /\ (match two_calls __init__ "daily" false pre "daily" false post with
      | Some (_, _, _, evs) =>
          length (List.filter is_publish evs) = 1%nat
          /\ length (List.filter is_mark_as_used evs) = 1%nat
      | None => False
      end).
Proof.
  intros pre post. split; [|vm_compute; done].
  eexists _, _, _, _, _, _.
  assert (run __init__ (Called "daily" false) pre
          = Some (with_processing true __init__,
                  AwaitPublish "daily" false 0 Samples.daily_digest,
                  [logged INFO "Попытка"; create_digest "daily" false;
                   publish_digest Samples.daily_digest])) as Hpre
    by reflexivity.
  assert (suspended (AwaitPublish "daily" false 0 Samples.daily_digest) = true)
    as Hsusp by reflexivity.
  assert (run (with_processing true __init__)
              (AwaitPublish "daily" false 0 Samples.daily_digest) post
          = Some (__init__, Finished,
                  [mark_as_used [11; 12] "daily";
                   logged INFO "Помечено новостей как использованные";
                   logged INFO "дайджест успешно обработан"])) as Hpost
    by reflexivity.
  split; [exact Hpre|]. split; [exact Hsusp|]. split; [exact Hpost|].
  exact (proj1 (proj2 (execute_digest_single_flight __init__ _ _
                         "daily" "daily" false false pre post _ _ _ _
                         Hpre Hsusp Hpost))).
Defined.

End SingleFlight.

(** *** The retry loop *)

Section Retry.

Import Digest.

Variable w : World.

(** Every resumption against a world brings the call closer to its end. *)
Lemma resume_progress (self : DigestScheduler) (f : frame) (a : answer) :
  frame_ok self f = true ->
  reply w f = Some a ->
  exists self' f' evs,
    resume self f a = Some (self', f', evs)
    /\ frame_ok self' f' = true
    /\ max_retries self' = max_retries self
    /\ (steps_left self' f' < steps_left self f)%nat.
Proof.
  intros Hok Hrep.
  destruct f as [dt it|dt it n|dt it n d|dt it n|]; simpl in Hrep;
    [| | | |discriminate Hrep]; injection Hrep as <-; simpl in *.
  - destruct (is_processing self).
    + eexists _, _, _. split; [reflexivity|]. simpl. repeat split. lia.
    + unfold next_attempt. simpl.
      destruct (0 <? max_retries self)%nat eqn:Hm;
        eexists _, _, _; (split; [reflexivity|]); simpl;
        rewrite ?Hm; repeat split; lia.
  - apply Nat.ltb_lt in Hok.
    destruct (creator w n) as [[[ty tx [|i items]]|]|e]; simpl.
    + eexists _, _, _. split; [reflexivity|]. simpl. repeat split. lia.
    + eexists _, _, _. split; [reflexivity|]. simpl.
      split; [by apply Nat.ltb_lt|]. split; [done|lia].
    + eexists _, _, _. split; [reflexivity|]. simpl. repeat split. lia.
    + unfold on_raise, on_exception, next_attempt.
      destruct (is_Exception e);
        [|eexists _, _, _; split; [reflexivity|]; simpl; repeat split; lia].
      destruct (n <? max_retries self - 1)%nat eqn:Hn.
      * apply Nat.ltb_lt in Hn. eexists _, _, _. split; [reflexivity|].
        simpl. split; [apply Nat.ltb_lt; lia|]. split; [done|lia].
      * apply Nat.ltb_ge in Hn.
        destruct (S n <? max_retries self)%nat eqn:Hs;
          [apply Nat.ltb_lt in Hs; lia|].
        eexists _, _, _. split; [reflexivity|]. simpl. repeat split. lia.
  - apply Nat.ltb_lt in Hok. destruct (publisher w n) as [b|e]; simpl.
    + eexists _, _, _. split; [reflexivity|]. simpl. repeat split. lia.
    + unfold on_raise, on_exception, next_attempt.
      destruct (is_Exception e);
        [|eexists _, _, _; split; [reflexivity|]; simpl; repeat split; lia].
      destruct (n <? max_retries self - 1)%nat eqn:Hn.
      * apply Nat.ltb_lt in Hn. eexists _, _, _. split; [reflexivity|].
        simpl. split; [apply Nat.ltb_lt; lia|]. split; [done|lia].
      * apply Nat.ltb_ge in Hn.
        destruct (S n <? max_retries self)%nat eqn:Hs;
          [apply Nat.ltb_lt in Hs; lia|].
        eexists _, _, _. split; [reflexivity|]. simpl. repeat split. lia.
  - apply Nat.ltb_lt in Hok. unfold next_attempt.
    destruct (S n <? max_retries self)%nat eqn:Hs;
      [|apply Nat.ltb_ge in Hs; lia].
    eexists _, _, _. split; [reflexivity|]. simpl.
    split; [exact Hs|]. split; [done|]. apply Nat.ltb_lt in Hs. lia.
Qed.

Lemma drive_finishes (fuel : nat) (self : DigestScheduler) (f : frame) :
  frame_ok self f = true ->
  (steps_left self f <= fuel)%nat ->
  (drive fuel w self f).1.2 = Finished.
Proof.
  revert self f. induction fuel as [|fuel IH]; intros self f Hok Hfuel.
  - destruct f; simpl in *; try done; try lia;
      apply Nat.ltb_lt in Hok; lia.
  - simpl. destruct (reply w f) as [a|] eqn:Hrep;
      [|by destruct f; try discriminate Hrep].
    destruct (resume_progress self f a Hok Hrep)
      as (self' & f' & evs & -> & Hok' & _ & Hlt).
    specialize (IH self' f' Hok'). 
    destruct (drive fuel w self' f') as [[s2 f2] e2]. simpl in *.
    apply IH. lia.
Qed.

(** A call of [execute_digest_with_retry] always comes to its end,
    whatever the collaborators do. *)
Lemma execute_digest_with_retry_finishes (self : DigestScheduler)
    (digest_type : string) (is_test : bool) :
  (execute_digest_with_retry w self digest_type is_test).1.2 = Finished.
Proof.
  unfold execute_digest_with_retry. apply drive_finishes; [done|].
  simpl. lia.
Qed.

(** A [False] from the publisher on the first attempt ends the run after
    that attempt. *)
Lemma publish_false_ends_run (self : DigestScheduler) (digest_type : string)
    (is_test : bool) (digest_data : DigestData) :
  is_processing self = false ->
  (0 < max_retries self)%nat ->
  creator w 0%nat = Returned (Some digest_data) ->
  news_items digest_data <> [] ->
  publisher w 0%nat = Returned false ->
  execute_digest_with_retry w self digest_type is_test
  = (with_processing false self, Finished,
     [logged INFO "Попытка"; create_digest digest_type is_test;
      publish_digest digest_data;
      logged INFO "дайджест успешно обработан"]).
Proof.
  intros Hp Hm Hc Hitems Hpub. unfold execute_digest_with_retry.
  destruct (max_retries self) as [|m] eqn:HM; [lia|].
  replace (3 * S m + 1)%nat with (S (S (S (S (3 * m))))) by lia.
  cbn [drive reply resume]. rewrite Hp. unfold next_attempt.
  cbn [max_retries with_processing]. rewrite HM.
  change (0 <? S m)%nat with true. cbn iota.
  cbn [drive reply resume]. rewrite Hc.
  destruct digest_data as [ty tx [|i items]]; [done|].
  cbn [drive reply resume]. rewrite Hpub. cbn [drive reply resume].
  simpl. done.
Qed.

(** Only the resumption that ends a call after a successful publish marks
    items as used. *)
Lemma resume_marks (self self' : DigestScheduler) (f f' : frame) (a : answer)
    (evs : list event) :
  resume self f a = Some (self', f', evs) ->
  (length (List.filter is_mark_as_used evs) <= 1)%nat
  /\ (List.filter is_mark_as_used evs <> [] ->
      f' = Finished /\ exists dt it n d,
        f = AwaitPublish dt it n d /\ a = Published (Returned true)
        /\ List.filter is_mark_as_used evs = [mark_as_used (news_items d) dt]).
Proof.
  intros Hres.
  destruct f as [dt it|dt it n|dt it n d|dt it n|]; destruct a as [|r|r|];
    simpl in Hres; try discriminate Hres.
  - unfold next_attempt in Hres.
    destruct (is_processing self); simpl in Hres;
      [|destruct (0 <? max_retries self)%nat];
      injection Hres as <- <- <-; simpl; split; done || lia.
  - destruct r as [[[ty tx [|i items]]|]|e]; simpl in Hres;
      try (injection Hres as <- <- <-; simpl; split; done || lia).
    unfold on_raise, on_exception, next_attempt in Hres.
    destruct (is_Exception e), (n <? max_retries self - 1)%nat,
             (S n <? max_retries self)%nat;
      injection Hres as <- <- <-; simpl; split; done || lia.
  - destruct r as [[|]|e]; simpl in Hres.
    + injection Hres as <- <- <-. simpl. split; [lia|]. intros _.
      split; [done|]. by eexists _, _, _, _.
    + injection Hres as <- <- <-. simpl. split; done || lia.
    + unfold on_raise, on_exception, next_attempt in Hres.
      destruct (is_Exception e), (n <? max_retries self - 1)%nat,
               (S n <? max_retries self)%nat;
        injection Hres as <- <- <-; simpl; split; done || lia.
  - unfold next_attempt in Hres.
    destruct (S n <? max_retries self)%nat;
      injection Hres as <- <- <-; simpl; split; done || lia.
Qed.

(** However a call is driven, it marks items as used at most once, and
    not at all before it has ended. *)
Lemma run_marks_at_most_once (answers : list answer)
    (self self' : DigestScheduler) (f f' : frame) (evs : list event) :
  run self f answers = Some (self', f', evs) ->
  (length (List.filter is_mark_as_used evs) <= 1)%nat
  /\ (f' <> Finished -> List.filter is_mark_as_used evs = []).
Proof.
  revert self f evs. induction answers as [|a answers IH];
    intros self f evs Hrun; simpl in Hrun.
  - injection Hrun as <- <- <-. simpl. split; [lia|done].
  - destruct (resume self f a) as [[[s1 f1] e1]|] eqn:Hres; [|done].
    destruct (run s1 f1 answers) as [[[s2 f2] e2]|] eqn:Hrun'; [|done].
    injection Hrun as <- <- <-.
    destruct (resume_marks _ _ _ _ _ _ Hres) as [Hle Hfin].
    destruct (IH _ _ _ Hrun') as [Hle' Hnone].
    rewrite List.filter_app, length_app.
    destruct (List.filter is_mark_as_used e1) as [|m ms] eqn:He1.
    + simpl. split; [lia|]. intros Hf. by rewrite Hnone.
    + destruct Hfin as [-> _]; [done|].
      destruct answers as [|a' answers]; [|done].
      injection Hrun' as <- <- <-. simpl in *. split; [lia|done].
Qed.

End Retry.

(** C3, at a failing run.  When [publish_digest] reports failure by
    returning [False] on the first attempt, the run ends there: one
    publish attempt, no pause, no second attempt, nothing marked as used,
    and the flag released.  When it fails by raising on the first two
    attempts and succeeds on the third, the run pauses 300 seconds twice,
    publishes three times and marks the items as used once, after the
    last publish. *)
Theorem publish_returning_false_is_not_retried :
  let r := Digest.execute_digest_with_retry Samples.publish_returns_false
             Digest.__init__ "daily" false in
  let r' := Digest.execute_digest_with_retry Samples.publish_raises_twice
              Digest.__init__ "daily" false in
  r.1 = (Digest.__init__, Digest.Finished)
  /\ List.filter Digest.is_call r.2
     = [Digest.create_digest "daily" false;
        Digest.publish_digest Samples.daily_digest]
  /\ List.filter Digest.is_sleep r.2 = []
  /\ List.filter Digest.is_mark_as_used r.2 = []
  /\ r'.1 = (Digest.__init__, Digest.Finished)
  /\ List.filter Digest.is_call r'.2
     = [Digest.create_digest "daily" false;
        Digest.publish_digest Samples.daily_digest; Digest.sleep 300;
        Digest.create_digest "daily" false;
        Digest.publish_digest Samples.daily_digest; Digest.sleep 300;
        Digest.create_digest "daily" false;
        Digest.publish_digest Samples.daily_digest;
        Digest.mark_as_used [11; 12] "daily"].
Proof. vm_compute. repeat split. Qed.

(** ** Mutual exclusion: [SchedulerManager.start_continuous],
       [SchedulerManager.start_single_pass] *)

Section MutualExclusion.

Import Manager.

(** The conflict message of [_check_mutual_exclusion]. *)
Lemma check_mutual_exclusion_start (self : SchedulerManager)
    (requested current : string) :
  requested ∈ ["continuous"; "single_pass"] ->
  get_mutual_exclusion_status self = Some current ->
  current <> requested ->
  _check_mutual_exclusion self requested "start"
  = (false,
     Some ("Нельзя запустить " +:+ _get_scheduler_name requested
           +:+ ": " +:+ _get_scheduler_name current
           +:+ " уже запущен. Остановите его сначала."),
     Some current).
Proof.
  intros Hin Hcur Hne. unfold _check_mutual_exclusion.
  rewrite bool_decide_true by done. simpl.
  rewrite (bool_decide_true _ Hin). simpl. rewrite Hcur.
  by rewrite (bool_decide_false _ Hne).
Qed.

(** When the other engine runs and the requested one does not, the status
    names the other engine. *)
Lemma status_names_single_pass (self : SchedulerManager) :
  engine_running self "single_pass" = true ->
  engine_running self "continuous" = false ->
  get_mutual_exclusion_status self = Some "single_pass".
Proof.
  unfold engine_running, get_mutual_exclusion_status.
  rewrite (bool_decide_true ("continuous" = "continuous")) by done.
  rewrite (bool_decide_false ("single_pass" = "continuous")) by done.
  intros Hsp Hc. apply orb_false_iff in Hc as [-> ->].
  apply orb_true_iff in Hsp as [->| ->]; [done|].
  by destruct (task_live self "single_pass").
Qed.

Lemma status_names_continuous (self : SchedulerManager) :
  engine_running self "continuous" = true ->
  engine_running self "single_pass" = false ->
  get_mutual_exclusion_status self = Some "continuous".
Proof.
  unfold engine_running, get_mutual_exclusion_status.
  rewrite (bool_decide_true ("continuous" = "continuous")) by done.
  rewrite (bool_decide_false ("single_pass" = "continuous")) by done.
  intros Hc Hsp. apply orb_false_iff in Hsp as [-> ->].
  apply orb_true_iff in Hc as [->| ->]; [done|].
  by destruct (task_live self "continuous").
Qed.

(** The start is refused exactly when the status names the other engine. *)
Lemma start_continuous_refused_iff (self : SchedulerManager) :
  refused (start_continuous self) = true <->
  get_mutual_exclusion_status self = Some "single_pass".
Proof.
  unfold refused, start_continuous, _check_mutual_exclusion,
    get_mutual_exclusion_status. simpl.
  destruct (task_live self "continuous"), (task_live self "single_pass"),
    (flag_set (continuous_scheduler self)),
    (flag_set (single_pass_scheduler self)); simpl; split; done.
Qed.

Lemma start_single_pass_refused_iff (self : SchedulerManager) :
  refused (start_single_pass self) = true <->
  get_mutual_exclusion_status self = Some "continuous".
Proof.
  unfold refused, start_single_pass, _check_mutual_exclusion,
    get_mutual_exclusion_status. simpl.
  destruct (task_live self "continuous"), (task_live self "single_pass"),
    (flag_set (continuous_scheduler self)),
    (flag_set (single_pass_scheduler self)); simpl; split; done.
Qed.

(** Where the check works.  When the other engine of the pair is running
    (it has a live task in the table or its running flag is set) and the
    requested engine is not, the start is refused with the conflict error
    and the manager is left exactly as it was; in particular the table
    entry of the requested engine is what it was. *)
Theorem start_refused_while_other_runs (self : SchedulerManager) :
  (engine_running self "single_pass" = true ->
   engine_running self "continuous" = false ->
   start_continuous self
   = (Raised (ValueError
        "Нельзя запустить Цикличный сборщик: Единичный сборщик уже запущен. Остановите его сначала."),
      self)
   /\ tasks (start_continuous self).2 !! "continuous" = tasks self !! "continuous")
  /\ (engine_running self "continuous" = true ->
      engine_running self "single_pass" = false ->
      start_single_pass self
      = (Raised (ValueError
           "Нельзя запустить Единичный сборщик: Цикличный сборщик уже запущен. Остановите его сначала."),
         self)
      /\ tasks (start_single_pass self).2 !! "single_pass"
         = tasks self !! "single_pass").
Proof.
  split; intros Hother Hself.
  - pose proof (status_names_single_pass self Hother Hself) as Hst.
    assert (start_continuous self
            = (Raised (ValueError
                 "Нельзя запустить Цикличный сборщик: Единичный сборщик уже запущен. Остановите его сначала."),
               self)) as Heq.
    { unfold start_continuous.
      rewrite (check_mutual_exclusion_start self "continuous" "single_pass");
        [reflexivity | set_solver | exact Hst | done]. }
    split; [exact Heq|]. by rewrite Heq.
  - pose proof (status_names_continuous self Hother Hself) as Hst.
    assert (start_single_pass self
            = (Raised (ValueError
                 "Нельзя запустить Единичный сборщик: Цикличный сборщик уже запущен. Остановите его сначала."),
               self)) as Heq.
    { unfold start_single_pass.
      rewrite (check_mutual_exclusion_start self "single_pass" "continuous");
        [reflexivity | set_solver | exact Hst | done]. }
    split; [exact Heq|]. by rewrite Heq.
Qed.

Lemma start_refused_while_other_runs_witness :
  let self := Samples.single_pass_started in
  engine_running self "single_pass" = true
  /\ engine_running self "continuous" = false
  /\ refused (start_continuous self) = true
  /\ (start_continuous self).2 = self
  /\ tasks (start_continuous self).2 !! "continuous" = None.
Proof.
  intros self.
  assert (engine_running self "single_pass" = true) as H1
    by (vm_compute; reflexivity).
  assert (engine_running self "continuous" = false) as H2
    by (vm_compute; reflexivity).
  destruct (proj1 (start_refused_while_other_runs self) H1 H2) as [Heq Ht].
  split; [exact H1|]. split; [exact H2|].
  rewrite Ht, Heq. repeat split.
Defined.


End MutualExclusion.

(** ** Reconciliation: [DatabaseManager.sync_channels_from_sheets] *)

Section Reconciliation.

Import Db.

Lemma existing_channels_snoc (l : list ChannelSource) (x : ChannelSource) :
  existing_channels (l ++ [x]) = <[key_of x := length l]> (existing_channels l).
Proof.
  unfold existing_channels. rewrite imap_app, foldl_app. simpl.
  by rewrite Nat.add_0_r.
Qed.

Lemma existing_channels_lookup (l : list ChannelSource) (k : string) (i : nat) :
  existing_channels l !! k = Some i ->
  exists ch, l !! i = Some ch /\ key_of ch = k.
Proof.
  induction l as [|x l IH] using rev_ind;
    [cbn; by rewrite lookup_empty|].
  rewrite existing_channels_snoc.
  destruct (decide (key_of x = k)) as [<-|Hne].
  - rewrite lookup_insert_eq. intros [= <-]. exists x. split; [|done].
    by apply list_lookup_middle.
  - rewrite lookup_insert_ne by done. intros H.
    destruct (IH H) as (ch & Hl & Hk). exists ch.
    split; [|done]. by apply lookup_app_l_Some.
Qed.

Lemma existing_channels_None (l : list ChannelSource) (k : string) :
  existing_channels l !! k = None <-> forall ch, ch ∈ l -> key_of ch <> k.
Proof.
  induction l as [|x l IH] using rev_ind.
  - split; [intros _ ch Hin; by apply elem_of_nil in Hin|done].
  - rewrite existing_channels_snoc.
    destruct (decide (key_of x = k)) as [<-|Hne].
    + rewrite lookup_insert_eq. split; [done|]. intros H.
      exfalso. apply (H x); [|done]. apply elem_of_app. right.
      apply list_elem_of_here.
    + rewrite lookup_insert_ne by done. rewrite IH. split.
      * intros H ch Hin. apply elem_of_app in Hin as [Hin|Hin]; [by apply H|].
        apply list_elem_of_singleton in Hin as ->. done.
      * intros H ch Hin. apply H. apply elem_of_app. by left.
Qed.

(** With distinct keys every row is the one its key names. *)
Lemma existing_channels_NoDup (l : list ChannelSource) (i : nat) (ch : ChannelSource) :
  NoDup (key_of <$> l) ->
  l !! i = Some ch ->
  existing_channels l !! key_of ch = Some i.
Proof.
  revert i. induction l as [|x l IH] using rev_ind; intros i Hnd Hl; [done|].
  rewrite fmap_app in Hnd. apply NoDup_app in Hnd as (Hnd & Hdis & _).
  rewrite existing_channels_snoc.
  destruct (decide (i < length l)%nat) as [Hlt|Hge].
  - rewrite lookup_app_l in Hl by done.
    rewrite lookup_insert_ne; [by apply IH|].
    intros Heq. apply (Hdis (key_of ch)).
    + apply list_elem_of_fmap. exists ch. split; [done|].
      by eapply list_elem_of_lookup_2.
    + rewrite <- Heq. simpl. apply list_elem_of_here.
  - assert (i = length l) as ->.
    { apply lookup_lt_Some in Hl. rewrite length_app in Hl. simpl in Hl. lia. }
    rewrite list_lookup_middle in Hl by done.
    injection Hl as ->. by rewrite lookup_insert_eq.
Qed.

Lemma walk_inv_init (session0 : list ChannelSource) :
  walk_inv session0 (session0, 0, ∅).
Proof.
  unfold walk_inv. split; [lia|]. split; [simpl; lia|]. split.
  - intros i ch0 Hl. exists ch0. split; [done|]. split; [done|].
    split; [by left|]. intros [H|(key & Hin & _)]; [done|].
    by apply not_elem_of_empty in Hin.
  - intros i ch Hi Hl. apply lookup_lt_Some in Hl. lia.
Qed.

Lemma sync_raw_inv (now : Z) (session0 : list ChannelSource) (st : string)
    (acc : sync_state) (raw : RawChannel) :
  walk_inv session0 acc ->
  walk_inv session0
    (sync_raw now (existing_channels session0) st acc raw).
Proof.
  destruct acc as [[session created] keys].
  unfold walk_inv, sync_raw, Session in *.
  intros (Hpos & Hlen & Hold & Hnew).
  set (key := channel_key st (raw_url raw)).
  destruct (existing_channels session0 !! key) as [i|] eqn:Hex.
  - destruct (existing_channels_lookup _ _ _ Hex) as (chi & Hchi & Hkey).
    assert (i < length session0)%nat as Hi by (by eapply lookup_lt_Some).
    split; [done|]. split; [by rewrite length_alter|]. split.
    + intros j ch0 Hj. destruct (Hold j ch0 Hj) as (ch & Hl & Hk & Hact).
      destruct (decide (i = j)) as [->|Hne].
      * exists (refresh now raw ch). split.
        { by rewrite list_lookup_alter_eq, Hl. }
        split; [exact Hk|]. simpl. split; [|done]. intros _. right.
        exists key. split; [|done].
        apply elem_of_union. left. by apply elem_of_singleton.
      * exists ch. split; [by rewrite list_lookup_alter_ne|]. split; [done|].
        rewrite Hact. split.
        { intros [H|(k & Hin & Hk')]; [by left|].
          right. exists k. split; [|done]. apply elem_of_union. by right. }
        { intros [H|(k & Hin & Hk')]; [by left|].
          right. exists k. split; [|done].
          apply elem_of_union in Hin as [Hin|Hin]; [|done].
          apply elem_of_singleton in Hin as ->. congruence. }
    + intros j ch Hj Hl. rewrite list_lookup_alter_ne in Hl by lia.
      destruct (Hnew j ch Hj Hl) as (Ha & Hk & Hz).
      split; [done|]. split; [|done]. apply elem_of_union. by right.
  - split; [lia|]. split.
    { rewrite length_app, Hlen. simpl. rewrite Z2Nat.inj_add by lia.
      change (Z.to_nat 1) with 1%nat. lia. }
    split.
    + intros j ch0 Hj. destruct (Hold j ch0 Hj) as (ch & Hl & Hk & Hact).
      exists ch. split; [by apply lookup_app_l_Some|]. split; [done|].
      rewrite Hact. split.
      { intros [H|(k & Hin & Hk')]; [by left|].
        right. exists k. split; [|done]. apply elem_of_union. by right. }
      { intros [H|(k & Hin & Hk')]; [by left|].
        right. exists k. split; [|done].
        apply elem_of_union in Hin as [Hin|Hin]; [|done].
        apply elem_of_singleton in Hin as ->. congruence. }
    + intros j ch Hj Hl.
      destruct (decide (j < length session)%nat) as [Hlt|Hge].
      * rewrite lookup_app_l in Hl by done.
        destruct (Hnew j ch Hj Hl) as (Ha & Hk & Hz).
        split; [done|]. split; [|done]. apply elem_of_union. by right.
      * assert (j = length session) as ->.
        { apply lookup_lt_Some in Hl. rewrite length_app in Hl.
          simpl in Hl. lia. }
        rewrite list_lookup_middle in Hl by done. injection Hl as <-.
        split; [done|]. split; [|done].
        unfold key_of. simpl. fold key.
        apply elem_of_union. left. by apply elem_of_singleton.
Qed.

Lemma sync_sheets_inv (now : Z) (session0 : list ChannelSource)
    (sheets_data : list (string * list RawChannel)) (acc : sync_state) :
  walk_inv session0 acc ->
  walk_inv session0
    (sync_sheets now (existing_channels session0) sheets_data acc).
Proof.
  unfold sync_sheets. revert acc.
  induction sheets_data as [|[st raws] sheets IH]; intros acc Hinv; [done|].
  simpl. apply IH. clear IH. revert acc Hinv.
  induction raws as [|raw raws IH]; intros acc Hinv; [done|].
  simpl. apply IH. by apply sync_raw_inv.
Qed.

(** The keys met are the keys listed. *)
Lemma sync_sheets_keys (now : Z) (existing : gmap string nat)
    (sheets_data : list (string * list RawChannel)) (acc : sync_state) :
  forall key,
    key ∈ (sync_sheets now existing sheets_data acc).2 <->
    key ∈ listed_keys sheets_data \/ key ∈ acc.2.
Proof.
  unfold sync_sheets, listed_keys. revert acc.
  induction sheets_data as [|[st raws] sheets IH]; intros acc key.
  - simpl. split; [by right|]. intros [H|H]; [|done].
    by apply elem_of_nil in H.
  - simpl. rewrite IH. clear IH. rewrite elem_of_app.
    assert (key ∈ (foldl (sync_raw now existing st) acc raws).2 <->
            key ∈ channel_key st <$> (raw_url <$> raws) \/ key ∈ acc.2)
      as ->; [|tauto].
    revert acc. induction raws as [|raw raws IH]; intros acc.
    + simpl. split; [by right|]. intros [H|H]; [|done].
      by apply elem_of_nil in H.
    + simpl. rewrite IH. rewrite elem_of_cons.
      destruct acc as [[session created] keys]. unfold sync_raw.
      destruct (existing !! channel_key st (raw_url raw)); simpl;
        rewrite elem_of_union, elem_of_singleton; tauto.
Qed.

(** Rows after the last loop: nothing but the activity flag changes, and
    a row stays active unless a key that was not met names it. *)
Lemma deactivate_unlisted_spec (existing : gmap string nat)
    (keys : gset string) (session : list ChannelSource) :
  let session' := deactivate_unlisted existing keys session in
  length session' = length session
  /\ forall j ch, session !! j = Some ch ->
       exists ch', session' !! j = Some ch' /\ kept ch' = kept ch
         /\ key_of ch' = key_of ch
         /\ (is_active ch' = true <->
             is_active ch = true
             /\ ~ exists key, existing !! key = Some j /\ key ∉ keys).
Proof.
  unfold deactivate_unlisted, Session.
  apply (map_fold_weak_ind
           (fun (acc : list ChannelSource) (m : gmap string nat) =>
              length acc = length session
              /\ forall j ch, session !! j = Some ch ->
                   exists ch', acc !! j = Some ch' /\ kept ch' = kept ch
                     /\ key_of ch' = key_of ch
                     /\ (is_active ch' = true <->
                         is_active ch = true
                         /\ ~ exists key, m !! key = Some j /\ key ∉ keys))).
  - split; [done|]. intros j ch Hl. exists ch.
    split; [done|]. split; [done|]. split; [done|]. split; [|by intros []].
    intros Ha. split; [done|]. intros (key & Hk & _).
    by rewrite lookup_empty in Hk.
  - intros key i m acc Hfresh [Hlen Hrows].
    destruct (decide (key ∈ keys)) as [Hin|Hnin].
    + split; [done|]. intros j ch Hl.
      destruct (Hrows j ch Hl) as (ch' & Hl' & Hk & Hkey & Hact).
      exists ch'. split; [done|]. split; [done|]. split; [done|].
      rewrite Hact. split; intros [Ha Hno]; (split; [done|]);
        intros (k & Hk' & Hkn); apply Hno; exists k.
      * destruct (decide (k = key)) as [->|Hne]; [done|].
        by rewrite lookup_insert_ne in Hk' by done.
      * destruct (decide (k = key)) as [->|Hne]; [congruence|].
        by rewrite lookup_insert_ne.
    + split; [by rewrite length_alter|]. intros j ch Hl.
      destruct (Hrows j ch Hl) as (ch' & Hl' & Hk & Hkey & Hact).
      destruct (decide (i = j)) as [->|Hne].
      * exists (deactivate ch'). split; [by rewrite list_lookup_alter_eq, Hl'|].
        split; [done|]. split; [done|]. simpl. split; [done|].
        intros [_ Hno]. exfalso. apply Hno. exists key.
        by rewrite lookup_insert_eq.
      * exists ch'. split; [by rewrite list_lookup_alter_ne|].
        split; [done|]. split; [done|]. rewrite Hact.
        split; intros [Ha Hno]; (split; [done|]);
          intros (k & Hk' & Hkn); apply Hno; exists k.
        { destruct (decide (k = key)) as [->|Hnk].
          - rewrite lookup_insert_eq in Hk'. congruence.
          - by rewrite lookup_insert_ne in Hk' by done. }
        { destruct (decide (k = key)) as [->|Hnk]; [congruence|].
          by rewrite lookup_insert_ne. }
Qed.

Lemma kept_key_of (ch ch' : ChannelSource) :
  kept ch = kept ch' -> key_of ch = key_of ch'.
Proof. unfold kept, key_of. intros [= ? -> -> ? ? ? ? ?]. done. Qed.

(** The result of the whole call in terms of the walk and the last loop. *)
Lemma sync_channels_from_sheets_unfold (now : Z)
    (sheets_data : list (string * list RawChannel))
    (session0 : list ChannelSource) :
  exists session1 created keys,
    sync_sheets now (existing_channels session0) sheets_data (session0, 0, ∅)
      = (session1, created, keys)
    /\ sync_channels_from_sheets now sheets_data session0
       = (created,
          deactivate_unlisted (existing_channels session0) keys session1)
    /\ walk_inv session0 (session1, created, keys)
    /\ forall key, key ∈ keys <-> key ∈ listed_keys sheets_data.
Proof.
  pose proof (sync_sheets_inv now session0 sheets_data _
                (walk_inv_init session0)) as Hinv.
  pose proof (sync_sheets_keys now (existing_channels session0) sheets_data
                (session0, 0, ∅)) as Hkeys.
  unfold sync_channels_from_sheets.
  change (list ChannelSource * Z * gset string)%type with sync_state.
  change Session with (list ChannelSource) in *.
  set (w := sync_sheets now (existing_channels session0) sheets_data _) in *.
  clearbody w. destruct w as [[session1 created] keys].
  exists session1, created, keys.
  split; [reflexivity|]. split; [reflexivity|]. split; [exact Hinv|].
  intros key. split.
  - intros Hin. apply Hkeys in Hin as [Hin|Hin]; [done|].
    by apply not_elem_of_empty in Hin.
  - intros Hin. apply Hkeys. by left.
Qed.

(** The rows and their kept columns across a reconciliation. *)
Lemma reconciliation_keeps_rows (now : Z)
    (sheets_data : list (string * list RawChannel))
    (session0 : list ChannelSource) :
  let r := sync_channels_from_sheets now sheets_data session0 in
  0 <= r.1
  /\ length r.2 = (length session0 + Z.to_nat r.1)%nat
  /\ forall i ch0, session0 !! i = Some ch0 ->
       exists ch, r.2 !! i = Some ch /\ kept ch = kept ch0.
Proof.
  destruct (sync_channels_from_sheets_unfold now sheets_data session0)
    as (s1 & created & keys & _ & -> & (Hpos & Hlen & Hold & _) & _).
  destruct (deactivate_unlisted_spec (existing_channels session0) keys s1)
    as [Hlen' Hrows].
  simpl. split; [done|]. split; [congruence|].
  intros i ch0 Hl. destruct (Hold i ch0 Hl) as (ch1 & Hl1 & Hk1 & _).
  destruct (Hrows i ch1 Hl1) as (ch & Hl' & Hk & _).
  exists ch. split; [done|congruence].
Qed.

(** A reconciliation never removes a row and never touches the identity,
    the counters, the average or the last-processed time of a stored
    channel; the table grows by exactly the number it returns. *)
Theorem sync_channels_from_sheets_keeps_rows (now : Z)
    (sheets_data : list (string * list RawChannel))
    (session0 : list ChannelSource) :
  let r := sync_channels_from_sheets now sheets_data session0 in
  0 <= r.1
  /\ length r.2 = (length session0 + Z.to_nat r.1)%nat
  /\ forall i ch0, session0 !! i = Some ch0 ->
       exists ch, r.2 !! i = Some ch /\ kept ch = kept ch0.
Proof. exact (reconciliation_keeps_rows now sheets_data session0). Qed.

(** The activity flag after a reconciliation, for distinct keys. *)
Lemma reconciliation_activity (now : Z)
    (sheets_data : list (string * list RawChannel))
    (session0 : list ChannelSource) :
  NoDup (key_of <$> session0) ->
  forall i ch,
    (sync_channels_from_sheets now sheets_data session0).2 !! i = Some ch ->
    (is_active ch = true <-> key_of ch ∈ listed_keys sheets_data).
Proof.
  intros Hnd i ch.
  destruct (sync_channels_from_sheets_unfold now sheets_data session0)
    as (s1 & created & keys & _ & -> & (Hpos & Hlen & Hold & Hnew) & Hkeys).
  destruct (deactivate_unlisted_spec (existing_channels session0) keys s1)
    as [Hlen' Hrows].
  simpl. intros Hl.
  assert (is_Some (s1 !! i)) as [ch1 Hl1].
  { apply lookup_lt_is_Some. rewrite <- Hlen'. by eapply lookup_lt_Some. }
  destruct (Hrows i ch1 Hl1) as (ch' & Hl' & _ & Hkey & Hact).
  assert (ch' = ch) as -> by congruence.
  rewrite Hact, Hkey, <- Hkeys. clear Hact Hl'.
  destruct (decide (i < length session0)%nat) as [Hlt|Hge].
  - destruct (lookup_lt_is_Some_2 session0 i Hlt) as [ch0 Hl0].
    destruct (Hold i ch0 Hl0) as (ch1' & Hl1' & Hk1 & Hact1).
    assert (ch1' = ch1) as -> by congruence.
    pose proof (kept_key_of _ _ Hk1) as Hk.
    pose proof (existing_channels_NoDup session0 i ch0 Hnd Hl0) as Hex.
    assert (forall key, existing_channels session0 !! key = Some i ->
                        key = key_of ch1) as Huniq.
    { intros key Hkk.
      destruct (existing_channels_lookup _ _ _ Hkk) as (c & Hc & <-).
      congruence. }
    split.
    + intros [_ Hno]. destruct (decide (key_of ch1 ∈ keys)); [done|].
      exfalso. apply Hno. exists (key_of ch1). split; [congruence|done].
    + intros Hin. split.
      * apply Hact1. right. exists (key_of ch1). split; [done|congruence].
      * intros (key & Hkk & Hnin). apply Hnin.
        by rewrite (Huniq key Hkk).
  - destruct (Hnew i ch1 ltac:(lia) Hl1) as (Ha & Hk & _).
    split; [done|]. intros _. split; [done|].
    intros (key & Hkk & _).
    destruct (existing_channels_lookup _ _ _ Hkk) as (c & Hc & _).
    apply lookup_lt_Some in Hc. lia.
Qed.

(** When the stored channels have distinct keys, after a reconciliation a
    row is active exactly when the sheets list its key: listed channels
    are (re)activated, the others deactivated, new ones start active. *)
Theorem sync_channels_from_sheets_activity (now : Z)
    (sheets_data : list (string * list RawChannel))
    (session0 : list ChannelSource) :
  NoDup (key_of <$> session0) ->
  forall i ch,
    (sync_channels_from_sheets now sheets_data session0).2 !! i = Some ch ->
    (is_active ch = true <-> key_of ch ∈ listed_keys sheets_data).
Proof. exact (reconciliation_activity now sheets_data session0). Qed.

(** Every key met during the walk names a row of the session. *)
Lemma sync_raw_rows_for_keys (now : Z) (session0 : list ChannelSource)
    (st : string) (acc : sync_state) (raw : RawChannel) :
  walk_inv session0 acc ->
  (forall key, key ∈ acc.2 ->
     exists i ch, acc.1.1 !! i = Some ch /\ key_of ch = key) ->
  let acc' := sync_raw now (existing_channels session0) st acc raw in
  forall key, key ∈ acc'.2 ->
    exists i ch, acc'.1.1 !! i = Some ch /\ key_of ch = key.
Proof.
  destruct acc as [[session created] keys].
  unfold walk_inv, sync_raw, Session in *. simpl.
  intros (_ & _ & Hold & _) Hrows.
  set (k := channel_key st (raw_url raw)).
  destruct (existing_channels session0 !! k) as [i|] eqn:Hex; simpl.
  - destruct (existing_channels_lookup _ _ _ Hex) as (ch0 & Hl0 & Hk0).
    destruct (Hold i ch0 Hl0) as (chi & Hli & Hkept & _).
    assert (forall j ch, session !! j = Some ch ->
              exists ch', alter (refresh now raw) i session !! j = Some ch'
                          /\ key_of ch' = key_of ch) as Halt.
    { intros j ch Hj. destruct (decide (i = j)) as [->|Hne].
      - exists (refresh now raw ch).
        by rewrite list_lookup_alter_eq, Hj.
      - exists ch. by rewrite list_lookup_alter_ne. }
    intros key Hin. apply elem_of_union in Hin as [Hin|Hin].
    + apply elem_of_singleton in Hin as ->.
      destruct (Halt i chi Hli) as (ch' & Hl' & Hk').
      exists i, ch'. split; [done|].
      rewrite Hk', (kept_key_of _ _ Hkept). done.
    + destruct (Hrows key Hin) as (j & ch & Hj & Hk).
      destruct (Halt j ch Hj) as (ch' & Hl' & Hk').
      exists j, ch'. split; [done|congruence].
  - intros key Hin. apply elem_of_union in Hin as [Hin|Hin].
    + apply elem_of_singleton in Hin as ->.
      exists (length session), (new_channel now session st raw).
      split; [by apply list_lookup_middle|done].
    + destruct (Hrows key Hin) as (j & ch & Hj & Hk).
      exists j, ch. split; [by apply lookup_app_l_Some|done].
Qed.

Lemma sync_sheets_rows_for_keys (now : Z) (session0 : list ChannelSource)
    (sheets_data : list (string * list RawChannel)) (acc : sync_state) :
  walk_inv session0 acc ->
  (forall key, key ∈ acc.2 ->
     exists i ch, acc.1.1 !! i = Some ch /\ key_of ch = key) ->
  let acc' := sync_sheets now (existing_channels session0) sheets_data acc in
  forall key, key ∈ acc'.2 ->
    exists i ch, acc'.1.1 !! i = Some ch /\ key_of ch = key.
Proof.
  unfold sync_sheets. revert acc.
  induction sheets_data as [|[st raws] sheets IH]; intros acc Hinv Hrows;
    [done|].
  simpl. assert (walk_inv session0
                   (foldl (sync_raw now (existing_channels session0) st)
                          acc raws)
                 /\ forall key,
                      key ∈ (foldl (sync_raw now (existing_channels session0)
                                      st) acc raws).2 ->
                      exists i ch,
                        (foldl (sync_raw now (existing_channels session0) st)
                               acc raws).1.1 !! i = Some ch
                        /\ key_of ch = key) as [Hinv' Hrows'].
  { clear IH. revert acc Hinv Hrows.
    induction raws as [|raw raws IH]; intros acc Hinv Hrows; [done|].
    simpl. apply IH; [by apply sync_raw_inv|].
    by apply sync_raw_rows_for_keys. }
  by apply IH.
Qed.

(** When every listed key names a stored row, the walk creates nothing. *)
Lemma sync_sheets_creates_nothing (now : Z) (existing : gmap string nat)
    (sheets_data : list (string * list RawChannel)) (acc : sync_state) :
  (forall key, key ∈ listed_keys sheets_data -> is_Some (existing !! key)) ->
  (sync_sheets now existing sheets_data acc).1.2 = acc.1.2.
Proof.
  unfold sync_sheets, listed_keys. revert acc.
  induction sheets_data as [|[st raws] sheets IH]; intros acc Hall; [done|].
  simpl in *. rewrite IH.
  - clear IH. assert (forall key, key ∈ channel_key st <$> (raw_url <$> raws)
                        -> is_Some (existing !! key)) as Hraws.
    { intros key Hin. apply Hall, elem_of_app. by left. }
    clear Hall. revert acc. induction raws as [|raw raws IH]; intros acc;
      [done|].
    simpl. rewrite IH.
    + destruct acc as [[session created] keys]. unfold sync_raw.
      destruct (Hraws (channel_key st (raw_url raw))) as [i ->]; [|done].
      simpl. apply list_elem_of_here.
    + intros key Hin. apply Hraws. simpl. by apply list_elem_of_further.
  - intros key Hin. apply Hall, elem_of_app. by right.
Qed.

(** Reconciling twice against the same listing creates nothing the
    second time: the table keeps its length. *)
Theorem sync_channels_from_sheets_twice (now now' : Z)
    (sheets_data : list (string * list RawChannel))
    (session0 : list ChannelSource) :
  let session1 := (sync_channels_from_sheets now sheets_data session0).2 in
  let r := sync_channels_from_sheets now' sheets_data session1 in
  r.1 = 0 /\ length r.2 = length session1.
Proof.
  intros session1 r.
  assert (r.1 = 0) as Hzero.
  { assert (forall key, key ∈ listed_keys sheets_data ->
              is_Some (existing_channels session1 !! key)) as Hall.
    { intros key Hin. subst session1.
      destruct (sync_channels_from_sheets_unfold now sheets_data session0)
        as (s1 & created & keys & Hw & -> & Hinv & Hkeys).
      pose proof (sync_sheets_rows_for_keys now session0 sheets_data
                    (session0, 0, ∅) (walk_inv_init session0)) as Hrows.
      rewrite Hw in Hrows. simpl in Hrows.
      destruct (Hrows ltac:(set_solver) key ltac:(by apply Hkeys))
        as (i & ch & Hl & Hk).
      destruct (deactivate_unlisted_spec (existing_channels session0) keys s1)
        as [_ Hspec].
      destruct (Hspec i ch Hl) as (ch' & Hl' & _ & Hk' & _).
      simpl. destruct (existing_channels _ !! key) eqn:Hex; [done|].
      exfalso.
      apply (proj1 (existing_channels_None _ _) Hex ch');
        [by eapply list_elem_of_lookup_2|congruence]. }
    subst r.
    destruct (sync_channels_from_sheets_unfold now' sheets_data session1)
      as (s2 & created & keys & Hw & -> & _ & _).
    pose proof (sync_sheets_creates_nothing now' _ sheets_data
                  (session1, 0, ∅) Hall) as Hnone.
    simpl. change created with ((s2, created, keys).1.2).
    rewrite <- Hw. exact Hnone. }
  split; [done|].
  pose proof (reconciliation_keeps_rows now' sheets_data session1)
    as (_ & Hlen & _).
  fold r in Hlen. rewrite Hlen, Hzero. simpl. lia.
Qed.

(** A listing whose sheets are all empty creates nothing, whatever the
    stored channels are, and, when the stored channels have distinct
    keys, leaves every channel inactive. *)
Theorem sync_channels_from_sheets_empty_listing (now : Z)
    (sheets_data : list (string * list RawChannel))
    (session0 : list ChannelSource) :
  (forall sheet, sheet ∈ sheets_data -> sheet.2 = []) ->
  let r := sync_channels_from_sheets now sheets_data session0 in
  r.1 = 0
  /\ length r.2 = length session0
  /\ (NoDup (key_of <$> session0) ->
      forall ch, ch ∈ r.2 -> is_active ch = false).
Proof.
  intros Hempty r.
  assert (listed_keys sheets_data = []) as Hnil.
  { unfold listed_keys. clear r.
    induction sheets_data as [|[st raws] sheets IH]; [done|].
    assert (raws = []) as ->
      by (apply (Hempty (st, raws)), list_elem_of_here).
    simpl. apply IH. intros sheet Hin. apply Hempty.
    by apply list_elem_of_further. }
  assert (r.1 = 0) as Hzero.
  { subst r.
    destruct (sync_channels_from_sheets_unfold now sheets_data session0)
      as (s1 & created & keys & Hw & -> & _ & _).
    assert (forall key, key ∈ listed_keys sheets_data ->
              is_Some (existing_channels session0 !! key)) as Hall.
    { intros key Hin. rewrite Hnil in Hin. by apply elem_of_nil in Hin. }
    pose proof (sync_sheets_creates_nothing now (existing_channels session0)
                  sheets_data (session0, 0, ∅) Hall) as Hnone.
    simpl. change created with ((s1, created, keys).1.2).
    rewrite <- Hw. exact Hnone. }
  pose proof (reconciliation_keeps_rows now sheets_data session0)
    as (_ & Hlen & _).
  fold r in Hlen. split; [done|]. split; [rewrite Hlen, Hzero; simpl; lia|].
  intros Hnd ch Hin. apply list_elem_of_lookup_1 in Hin as [i Hl].
  apply not_true_is_false. intros Hact.
  apply (reconciliation_activity now sheets_data session0 Hnd i ch Hl)
    in Hact.
  rewrite Hnil in Hact. by apply elem_of_nil in Hact.
Qed.

End Reconciliation.

Lemma sync_channels_from_sheets_activity_witness :
  NoDup (Db.key_of <$> Samples.tg_session)
  /\ (Db.is_active <$>
        (Db.sync_channels_from_sheets 50 Samples.tg_sheets
           Samples.tg_session).2)
     = [true; false; false; false; true]
  /\ forall i ch,
       (Db.sync_channels_from_sheets 50 Samples.tg_sheets
          Samples.tg_session).2 !! i = Some ch ->
       (Db.is_active ch = true <->
        Db.key_of ch ∈ Db.listed_keys Samples.tg_sheets).
Proof.
  assert (NoDup (Db.key_of <$> Samples.tg_session)) as Hnd
    by (apply (bool_decide_unpack _); vm_compute; exact I).
  split; [exact Hnd|]. split; [vm_compute; reflexivity|].
  exact (sync_channels_from_sheets_activity 50 Samples.tg_sheets
           Samples.tg_session Hnd).
Defined.

Lemma sync_channels_from_sheets_empty_listing_witness :
  (forall sheet, sheet ∈ Samples.empty_sheets -> sheet.2 = [])
  /\ NoDup (Db.key_of <$> Samples.tg_session)
  /\ (Db.sync_channels_from_sheets 50 Samples.empty_sheets
        Samples.tg_session).1 = 0
  /\ length (Db.sync_channels_from_sheets 50 Samples.empty_sheets
               Samples.tg_session).2 = 4%nat
  /\ forall ch,
       ch ∈ (Db.sync_channels_from_sheets 50 Samples.empty_sheets
               Samples.tg_session).2 ->
       Db.is_active ch = false.
Proof.
  assert (NoDup (Db.key_of <$> Samples.tg_session)) as Hnd
    by (apply (bool_decide_unpack _); vm_compute; exact I).
  assert (forall sheet, sheet ∈ Samples.empty_sheets -> sheet.2 = [])
    as Hempty.
  { intros sheet Hin. unfold Samples.empty_sheets in Hin.
    apply elem_of_cons in Hin as [->|Hin]; [done|].
    apply list_elem_of_singleton in Hin as ->. done. }
  destruct (sync_channels_from_sheets_empty_listing 50 Samples.empty_sheets
              Samples.tg_session Hempty) as (Hz & Hlen & Hall).
  split; [exact Hempty|]. split; [exact Hnd|]. split; [exact Hz|].
  split; [exact Hlen|exact (Hall Hnd)].
Defined.

(** ** Reading the channels back: [get_all_active_channels],
       [get_channels_by_source] *)

Section Readback.

Import Db.

Lemma get_all_active_channels_snoc (l : list ChannelSource)
    (x : ChannelSource) :
  get_all_active_channels (l ++ [x]) =
    if is_active x then
      <[source_type x :=
          default [] (get_all_active_channels l !! source_type x)
          ++ [length l]]> (get_all_active_channels l)
    else get_all_active_channels l.
Proof.
  unfold get_all_active_channels.
  rewrite imap_app, List.filter_app, foldl_app. simpl.
  rewrite Nat.add_0_r. by destruct (is_active x).
Qed.

Lemma get_channels_by_source_snoc (l : list ChannelSource)
    (x : ChannelSource) (st : string) :
  get_channels_by_source (l ++ [x]) st =
    get_channels_by_source l st
    ++ (if bool_decide (source_type x = st) && is_active x
        then [length l] else []).
Proof.
  unfold get_channels_by_source.
  rewrite imap_app, List.filter_app, fmap_app. simpl.
  rewrite Nat.add_0_r.
  by destruct (bool_decide (source_type x = st) && is_active x).
Qed.

(** A lookup in the directory is the list of the other reader. *)
Lemma directory_lookup (session : list ChannelSource)
    (st : string) :
  get_all_active_channels session !! st =
    match get_channels_by_source session st with
    | [] => None
    | channels => Some channels
    end.
Proof.
  induction session as [|x l IH] using rev_ind.
  - unfold get_all_active_channels. simpl. by rewrite lookup_empty.
  - rewrite get_all_active_channels_snoc, get_channels_by_source_snoc.
    destruct (is_active x) eqn:Hact.
    + destruct (decide (source_type x = st)) as [->|Hne].
      * rewrite bool_decide_true by done. simpl.
        rewrite lookup_insert_eq, IH.
        by destruct (get_channels_by_source l _).
      * rewrite bool_decide_false by done. simpl.
        rewrite lookup_insert_ne, IH, app_nil_r by done. done.
    + rewrite andb_false_r, app_nil_r. exact IH.
Qed.

(** The two readers agree, and the grouped one has no empty group: a
    source type without active channels is absent from the directory. *)
Theorem get_all_active_channels_groups (session : list ChannelSource)
    (st : string) :
  get_all_active_channels session !! st =
    match get_channels_by_source session st with
    | [] => None
    | channels => Some channels
    end.
Proof. exact (directory_lookup session st). Qed.

(** A reference is listed for a source type exactly when it is an active
    row of that type. *)
Lemma get_channels_by_source_elem (session : list ChannelSource)
    (st : string) (i : nat) :
  i ∈ get_channels_by_source session st <->
  exists ch, session !! i = Some ch /\ source_type ch = st
             /\ is_active ch = true.
Proof.
  induction session as [|x l IH] using rev_ind.
  - split; [intros H; by apply elem_of_nil in H|by intros (? & ? & _)].
  - rewrite get_channels_by_source_snoc, elem_of_app, IH. split.
    + intros [(ch & Hl & Hs & Ha)|Hin].
      * exists ch. split; [by apply lookup_app_l_Some|done].
      * destruct (bool_decide (source_type x = st) && is_active x) eqn:Hb;
          [|by apply elem_of_nil in Hin].
        apply list_elem_of_singleton in Hin as ->.
        apply andb_true_iff in Hb as [Hs Ha].
        apply bool_decide_eq_true in Hs.
        exists x. split; [by apply list_lookup_middle|done].
    + intros (ch & Hl & Hs & Ha).
      destruct (decide (i < length l)%nat) as [Hlt|Hge].
      * left. exists ch. by rewrite lookup_app_l in Hl.
      * right. assert (i = length l) as ->.
        { apply lookup_lt_Some in Hl. rewrite length_app in Hl.
          simpl in Hl. lia. }
        rewrite list_lookup_middle in Hl by done. injection Hl as ->.
        rewrite Hs, Ha, bool_decide_true by done. simpl.
        apply list_elem_of_here.
Qed.

End Readback.

(** ** What a poll outcome leaves alone: [update_channel_result] *)

Section OutcomeFrame.

Import Db.

(** What an outcome leaves of every row. *)
Lemma update_channel_result_rows (now : Z) (session : list ChannelSource)
    (cid : option string) (st : string) (success : bool) (news_count : Z)
    (avg_score : Double.float) :
  let session' :=
    (update_channel_result now session cid st success news_count
       avg_score).1.2 in
  length session' = length session
  /\ forall j ch, session !! j = Some ch ->
       exists ch', session' !! j = Some ch'
         /\ (same_channel cid st ch = false -> ch' = ch)
         /\ (id ch', source_type ch', url ch', channel_id ch')
            = (id ch, source_type ch, url ch, channel_id ch)
         /\ (success = true ->
             is_active ch' = is_active ch
             /\ failure_count ch' = failure_count ch)
         /\ (success = false ->
             success_count ch' = success_count ch
             /\ news_collected ch' = news_collected ch
             /\ avg_interest_score ch' = avg_interest_score ch).
Proof.
  unfold update_channel_result, Session.
  destruct (query_first (same_channel cid st) session) as [[i c]|] eqn:Hq;
    simpl.
  2:{ split; [done|]. intros j ch Hl. exists ch. by repeat split. }
  apply query_first_Some in Hq as (Hi & Hp & _).
  destruct (record_result now cid success news_count avg_score c)
    as [[c' logs]|e] eqn:Hrec; simpl.
  2:{ split; [done|]. intros j ch Hl. exists ch. by repeat split. }
  split; [by rewrite length_insert|]. intros j ch Hl.
  destruct (decide (i = j)) as [->|Hne].
  2:{ exists ch. rewrite list_lookup_insert_ne by done. by repeat split. }
  pose proof (eq_trans (eq_sym Hi) Hl) as [= ->].
  exists c'. split.
  { apply list_lookup_insert_eq. by eapply lookup_lt_Some. }
  split; [intros Hno; rewrite Hno in Hp; discriminate Hp|].
  unfold record_result in Hrec. destruct success.
  - destruct ((0 <? news_count) && Double.gt_zero avg_score).
    + destruct (Double.of_int (_ - _)); [|done].
      destruct (Double.of_int news_count); [|done].
      destruct (Double.of_int (_ + _)); [|done].
      destruct (_ =? 0); [done|]. injection Hrec as <- _. simpl.
      repeat split; done.
    + injection Hrec as <- _. simpl. repeat split; done.
  - destruct (3 <=? _); injection Hrec as <- _; simpl; repeat split; done.
Qed.

(** Folding an outcome keeps the table's length; a record with another
    channel id or source type is not changed at all; the record that is
    changed keeps its identity; a successful outcome changes neither the
    activity flag nor the failure counter, a failed one neither the
    success counter, the collected count nor the average. *)
Theorem update_channel_result_frame (now : Z) (session : list ChannelSource)
    (cid : option string) (st : string) (success : bool) (news_count : Z)
    (avg_score : Double.float) :
  let session' :=
    (update_channel_result now session cid st success news_count
       avg_score).1.2 in
  length session' = length session
  /\ forall j ch, session !! j = Some ch ->
       exists ch', session' !! j = Some ch'
         /\ (same_channel cid st ch = false -> ch' = ch)
         /\ (id ch', source_type ch', url ch', channel_id ch')
            = (id ch, source_type ch, url ch, channel_id ch)
         /\ (success = true ->
             is_active ch' = is_active ch
             /\ failure_count ch' = failure_count ch)
         /\ (success = false ->
             success_count ch' = success_count ch
             /\ news_collected ch' = news_collected ch
             /\ avg_interest_score ch' = avg_interest_score ch).
Proof.
  exact (update_channel_result_rows now session cid st success news_count
           avg_score).
Qed.

End OutcomeFrame.

(** ** Marking collected items: [mark_as_used] *)

Section MarkUsed.

Import Db.

(** [mark_as_used] keeps every row and its identity, never clears a flag,
    sets the flag of the given cadence on exactly the rows whose id is
    listed and leaves the flags of the other cadences alone; a cadence it
    does not know changes nothing.  It returns the number of rows whose id
    is listed, or 0 for an unknown cadence. *)
Theorem mark_as_used_effect (news : list NewsItem) (news_ids : list Z)
    (digest_type : string) :
  let r := mark_as_used news news_ids digest_type in
  let hit (item : NewsItem) (cadence : string) :=
    bool_decide (ID item ∈ news_ids) && bool_decide (digest_type = cadence) in
  length r.2 = length news
  /\ (forall i item, news !! i = Some item ->
        exists item', r.2 !! i = Some item'
          /\ (ID item', News_URL item', Interest_score item')
             = (ID item, News_URL item, Interest_score item)
          /\ Daily_used item' = Daily_used item || hit item "daily"
          /\ Weekly_used item' = Weekly_used item || hit item "weekly"
          /\ Monthly_used item' = Monthly_used item || hit item "monthly")
  /\ r.1 = (if bool_decide (digest_type ∈ ["daily"; "weekly"; "monthly"])
            then Z.of_nat (length (List.filter (id_in news_ids) news))
            else 0).
Proof.
  intros r hit. subst r hit. unfold mark_as_used.
  destruct news_ids as [|n ids].
  { simpl. split; [done|]. split.
    - intros i item Hl. exists item. split; [done|].
      by rewrite !orb_false_r.
    - destruct (bool_decide _); [|done].
      replace (List.filter (id_in []) news) with (@nil NewsItem); [done|].
      clear. induction news as [|x news IH]; [done|].
      simpl. exact IH. }
  set (news_ids := n :: ids).
  assert (forall field,
            forall i item, news !! i = Some item ->
              ((fun item => if id_in news_ids item then set_used field item
                            else item) <$> news) !! i
              = Some (if id_in news_ids item then set_used field item
                      else item)) as Hrow.
  { intros field i item Hl. by rewrite list_lookup_fmap, Hl. }
  destruct (decide (digest_type = "daily")) as [->|Hd].
  { rewrite (bool_decide_true ("daily" = "daily")) by done. simpl.
    split; [by rewrite length_fmap|]. split; [|done].
    intros i item Hl. eexists. split; [by apply Hrow|].
    unfold id_in. destruct (bool_decide (ID item ∈ news_ids)); simpl;
      by rewrite ?orb_true_r, ?orb_false_r. }
  rewrite (bool_decide_false (digest_type = "daily")) by done.
  destruct (decide (digest_type = "weekly")) as [->|Hw].
  { rewrite (bool_decide_true ("weekly" = "weekly")) by done. simpl.
    split; [by rewrite length_fmap|]. split; [|done].
    intros i item Hl. eexists. split; [by apply Hrow|].
    unfold id_in. destruct (bool_decide (ID item ∈ news_ids)); simpl;
      by rewrite ?orb_true_r, ?orb_false_r. }
  rewrite (bool_decide_false (digest_type = "weekly")) by done.
  destruct (decide (digest_type = "monthly")) as [->|Hm].
  { rewrite (bool_decide_true ("monthly" = "monthly")) by done. simpl.
    split; [by rewrite length_fmap|]. split; [|done].
    intros i item Hl. eexists. split; [by apply Hrow|].
    unfold id_in. destruct (bool_decide (ID item ∈ news_ids)); simpl;
      by rewrite ?orb_true_r, ?orb_false_r. }
  rewrite (bool_decide_false (digest_type = "monthly")) by done. simpl.
  split; [done|]. split.
  - intros i item Hl. exists item. split; [done|]. split; [done|].
    rewrite !andb_false_r, !orb_false_r. done.
  - rewrite bool_decide_false; [done|].
    intros Hin. repeat (apply elem_of_cons in Hin as [Hin|Hin]; [done|]).
    by apply elem_of_nil in Hin.
Qed.

End MarkUsed.

(* ================================================================== *)
(** ** Synchronisation: [SheetsSyncManager.sync_channels] *)

Section Synchronisation.

Import Sheets.

(** When no synchronisation is due, when the sheets return nothing, or
    when reading them raises an exception, [sync_channels] writes neither
    the stored channels nor the time of the last synchronisation, and
    returns the directory of the channels as stored. *)
Theorem sync_channels_falls_back (t_check now now' : Z)
    (fetch : outcome (list (string * list Db.RawChannel)))
    (force : bool) (session : list Db.ChannelSource)
    (self : SheetsSyncManager) :
  needs_sync t_check force self = false
  \/ fetch = Returned []
  \/ (exists e, fetch = Raised e /\ is_Exception e = true) ->
  sync_channels t_check now now' fetch force session self
  = (Returned (Db.get_all_active_channels session), session, self).
Proof.
  unfold sync_channels, _load_from_db.
  intros [Hno|[->|(e & -> & He)]].
  - by rewrite Hno.
  - by destruct (needs_sync t_check force self).
  - rewrite He. by destruct (needs_sync t_check force self).
Qed.

(** A forced synchronisation that reads a listing with at least one
    sheet, over stored channels with distinct keys, returns a directory
    that serves, under each source type, exactly the rows of that type
    whose key the listing names; and it records the time. *)
Theorem sync_channels_serves_listed (t_check now now' : Z)
    (sheet : string * list Db.RawChannel)
    (sheets : list (string * list Db.RawChannel))
    (session : list Db.ChannelSource) (self : SheetsSyncManager) :
  NoDup (Db.key_of <$> session) ->
  exists directory session',
    sync_channels t_check now now' (Returned (sheet :: sheets)) true
      session self
    = (Returned directory, session', {| last_sync_time := Some now' |})
    /\ session' = (Db.sync_channels_from_sheets now (sheet :: sheets) session).2
    /\ forall st i,
         i ∈ default [] (directory !! st) <->
         exists ch, session' !! i = Some ch /\ Db.source_type ch = st
                    /\ Db.key_of ch ∈ Db.listed_keys (sheet :: sheets).
Proof.
  intros Hnd. unfold sync_channels, needs_sync, _load_from_db.
  cbn [negb].
  destruct (Db.sync_channels_from_sheets now (sheet :: sheets) session)
    as [created session'] eqn:Hsync.
  exists (Db.get_all_active_channels session'), session'.
  split; [reflexivity|]. split; [reflexivity|].
  intros st i.
  assert (i ∈ default [] (Db.get_all_active_channels session' !! st)
          <-> i ∈ Db.get_channels_by_source session' st) as ->.
  { rewrite directory_lookup.
    by destruct (Db.get_channels_by_source session' st). }
  rewrite get_channels_by_source_elem.
  pose proof (reconciliation_activity now (sheet :: sheets)
                session Hnd) as Hact.
  rewrite Hsync in Hact. simpl in Hact.
  split; intros (ch & Hl & Hs & H); exists ch; (split; [done|]);
    (split; [done|]); by apply (Hact i ch Hl).
Qed.

(** After a synchronisation was recorded, an unforced call made less than
    24 hours later does not depend on the sheets and writes nothing. *)
Theorem sync_channels_within_a_day (t_check now now' t : Z)
    (fetch : outcome (list (string * list Db.RawChannel)))
    (session : list Db.ChannelSource) :
  t_check - t < 24 * 3600 * 1000000 ->
  sync_channels t_check now now' fetch false session
    {| last_sync_time := Some t |}
  = (Returned (Db.get_all_active_channels session), session,
     {| last_sync_time := Some t |}).
Proof.
  intros Hlt. unfold sync_channels, needs_sync, _load_from_db. simpl.
  rewrite bool_decide_false by lia. done.
Qed.

End Synchronisation.

Section SynchronisationExamples.

Import Sheets.

Lemma sync_channels_falls_back_witness :
  let fetch := Raised (Exception "quota exceeded") in
  (needs_sync 100 true __init__ = false
   \/ fetch = Returned []
   \/ (exists e, fetch = Raised e /\ is_Exception e = true))
  /\ sync_channels 100 110 120 fetch true Samples.tg_session __init__
     = (Returned {[ "telegram" := [0; 2; 3]%nat ]}, Samples.tg_session,
        __init__).
Proof.
  intros fetch.
  assert (needs_sync 100 true __init__ = false
          \/ fetch = Returned []
          \/ (exists e, fetch = Raised e /\ is_Exception e = true)) as H.
  { right. right. exists (Exception "quota exceeded").
    split; reflexivity. }
  split; [exact H|].
  rewrite (sync_channels_falls_back 100 110 120 fetch true
             Samples.tg_session __init__ H).
  vm_compute. reflexivity.
Defined.

Lemma sync_channels_serves_listed_witness :
  NoDup (Db.key_of <$> Samples.tg_session)
  /\ exists directory session',
       sync_channels 100 110 120 (Returned (Samples.tg_sheet :: [])) true
         Samples.tg_session __init__
       = (Returned directory, session', {| last_sync_time := Some 120 |})
       /\ session'
          = (Db.sync_channels_from_sheets 110 (Samples.tg_sheet :: [])
               Samples.tg_session).2
       /\ forall st i,
            i ∈ default [] (directory !! st) <->
            exists ch, session' !! i = Some ch /\ Db.source_type ch = st
                       /\ Db.key_of ch
                          ∈ Db.listed_keys (Samples.tg_sheet :: []).
Proof.
  assert (NoDup (Db.key_of <$> Samples.tg_session)) as Hnd
    by (apply (bool_decide_unpack _); vm_compute; exact I).
  split; [exact Hnd|].
  exact (sync_channels_serves_listed 100 110 120 Samples.tg_sheet []
           Samples.tg_session __init__ Hnd).
Defined.

Lemma sync_channels_within_a_day_witness :
  3600000000 - 120 < 24 * 3600 * 1000000
  /\ sync_channels 3600000000 0 0 (Returned Samples.tg_sheets) false
       Samples.tg_session {| last_sync_time := Some 120 |}
     = (Returned (Db.get_all_active_channels Samples.tg_session),
        Samples.tg_session, {| last_sync_time := Some 120 |}).
Proof.
  assert (3600000000 - 120 < 24 * 3600 * 1000000) as H by lia.
  split; [exact H|].
  exact (sync_channels_within_a_day 3600000000 0 0 120
           (Returned Samples.tg_sheets) Samples.tg_session H).
Defined.

End SynchronisationExamples.

(** ** The directory as loaded from the database *)

Section LoadedDirectory.

Import Base.

(** References to active rows give an active list that is the whole
    list. *)
Lemma active_of_all_active (session : list Db.ChannelSource)
    (channels : list nat) :
  Forall (fun r => exists ch, session !! r = Some ch
                              /\ Db.is_active ch = true) channels ->
  active_of session channels = objects session channels
  /\ (objects session channels).*1 = channels.
Proof.
  unfold active_of, objects.
  induction 1 as [|r l (ch & Hl & Ha) _ [IH1 IH2]]; [done|].
  simpl. unfold Db.Session in *. rewrite Hl. simpl. rewrite Ha.
  split; [by f_equal|by f_equal].
Qed.

(** Every list of the directory that [get_all_active_channels] builds is
    non-empty and holds active rows only, so a scheduler initialised from
    it with the session unchanged serves the first listed row first. *)
Theorem loaded_directory_serves_first (session : list Db.ChannelSource)
    (st : string) (channels : list nat) (self : BaseScheduler) :
  Db.get_all_active_channels session !! st = Some channels ->
  exists r rest ch,
    channels = r :: rest
    /\ session !! r = Some ch
    /\ active_of session channels = objects session channels
    /\ (objects session channels).*1 = channels
    /\ let self' := initialize (Db.get_all_active_channels session) self in
       (_get_next_channel session st self').1 = Some (r, ch)
       /\ cursor st (_get_next_channel session st self').2 = 1%nat.
Proof.
  intros Hdir.
  pose proof (directory_lookup session st) as Hg.
  rewrite Hdir in Hg.
  destruct (Db.get_channels_by_source session st) as [|r rest] eqn:Hsrc;
    [done|].
  injection Hg as ->.
  assert (Forall (fun r => exists ch, session !! r = Some ch
                                      /\ Db.is_active ch = true)
                 (r :: rest)) as Hall.
  { apply Forall_forall. intros i Hin. rewrite <- Hsrc in Hin.
    apply get_channels_by_source_elem in Hin as (ch & Hl & _ & Ha).
    by exists ch. }
  destruct (active_of_all_active session _ Hall) as [Hact Hfst].
  pose proof (Forall_inv Hall) as (ch & Hl & Ha).
  exists r, rest, ch. split; [done|]. split; [done|].
  split; [done|]. split; [done|]. intros self'.
  assert (_channels_by_source self' !! st = Some (r :: rest)) as Hch
    by exact Hdir.
  assert (cursor st self' = 0%nat) as Hc0.
  { unfold cursor, self', initialize. simpl.
    by rewrite reset_indices_lookup, Hdir. }
  assert (active_of session (r :: rest) <> []) as Hne.
  { rewrite Hact. unfold objects. simpl. unfold Db.Session in *.
    by rewrite Hl. }
  assert (exists tail, active_of session (r :: rest) = (r, ch) :: tail)
    as [tail Hao].
  { rewrite Hact. unfold objects. simpl. unfold Db.Session in *.
    rewrite Hl. simpl. by eexists. }
  rewrite (get_next_channel_unfold session st self' _ Hch Hne). simpl.
  rewrite Hc0, Hao. simpl. split; [done|apply cursor_with_indices_insert].
Qed.

End LoadedDirectory.

(** ** What the rotation reads of the session *)

Section Health.

Import Base.

Lemma health_lookup (s s' : list Db.ChannelSource) (r : nat) :
  health s' = health s ->
  match s !! r, s' !! r with
  | Some ch, Some ch' =>
      Db.is_active ch' = Db.is_active ch
      /\ Db.failure_count ch' = Db.failure_count ch
  | None, None => True
  | _, _ => False
  end.
Proof.
  intros H. assert (health s' !! r = health s !! r) as Hr by by rewrite H.
  unfold health in Hr. rewrite !list_lookup_fmap in Hr.
  destruct (s !! r), (s' !! r); simpl in Hr; try done.
  by injection Hr as -> ->.
Qed.

(** Row by row, sessions of equal health have the same rows active. *)
Lemma health_active_refs (s s' : list Db.ChannelSource) (l : list nat) :
  health s' = health s ->
  (active_of s' l).*1 = (active_of s l).*1.
Proof.
  intros H. unfold active_of, objects.
  induction l as [|r l IH]; [done|]. simpl.
  pose proof (health_lookup s s' r H) as Hr. unfold Db.Session in *.
  destruct (s !! r) as [ch|], (s' !! r) as [ch'|]; simpl; try done.
  destruct Hr as [-> _].
  destruct (Db.is_active ch); simpl; [f_equal|]; exact IH.
Qed.

Lemma health_active_length (s s' : list Db.ChannelSource) (l : list nat) :
  health s' = health s ->
  length (active_of s' l) = length (active_of s l).
Proof.
  intros H. rewrite <- (length_fmap fst (active_of s' l)),
    <- (length_fmap fst (active_of s l)).
  by rewrite (health_active_refs s s' l H).
Qed.

Lemma health_needs_restart (s s' : list Db.ChannelSource) (st : string)
    (self : BaseScheduler) :
  health s' = health s ->
  _check_parser_needs_restart s' st self
  = _check_parser_needs_restart s st self.
Proof.
  intros H. unfold _check_parser_needs_restart.
  destruct (default [] (_channels_by_source self !! st)) as [|r0 l0] eqn:Hd;
    [done|].
  f_equal. f_equal. generalize (r0 :: l0). intros l. unfold objects.
  induction l as [|r l IH]; [done|]. simpl.
  pose proof (health_lookup s s' r H) as Hr. unfold Db.Session in *.
  destruct (s !! r) as [ch|], (s' !! r) as [ch'|]; simpl; try done.
  destruct Hr as [_ ->].
  destruct (3 <=? Db.failure_count ch); simpl; [f_equal|]; exact IH.
Qed.

Lemma health_check_finished (config : Config) (s s' : list Db.ChannelSource)
    (self : BaseScheduler) :
  health s' = health s ->
  _check_finished config s' self = _check_finished config s self.
Proof.
  intros H. unfold _check_finished. destruct (cycle self); [done|].
  generalize (omap (fun '(source_type, is_active) =>
                      if is_active
                         && bool_decide
                              (is_Some (_channels_by_source self !! source_type))
                      then Some source_type else None)
                   (parser_status config)).
  intros l. induction l as [|st l IH]; [done|]. simpl.
  by rewrite IH, (health_active_length s s' _ H).
Qed.

(** A successful outcome and the time stamp leave the health alone. *)
Lemma health_touch (now : Z) (r : nat) (s : list Db.ChannelSource) :
  health (touch now r s) = health s.
Proof.
  unfold health, touch, Db.Session. apply list_eq. intros j.
  rewrite !list_lookup_fmap. destruct (decide (r = j)) as [->|Hne].
  - rewrite list_lookup_alter_eq. by destruct (s !! j).
  - by rewrite list_lookup_alter_ne.
Qed.

Lemma health_update_success (now : Z) (s : list Db.ChannelSource)
    (cid : option string) (st : string) (n : Z)
    (avg : Double.float) :
  health (Db.update_channel_result now s cid st true n avg).1.2 = health s.
Proof.
  destruct (update_channel_result_rows now s cid st true n avg)
    as [Hlen Hrows].
  unfold health. apply list_eq. intros j. rewrite !list_lookup_fmap.
  destruct (s !! j) as [ch|] eqn:Hj.
  - destruct (Hrows j ch Hj) as (ch' & Hj' & _ & _ & Hs & _).
    destruct (Hs eq_refl) as [Ha Hf]. unfold Db.Session in *.
    rewrite Hj'. simpl. by rewrite Ha, Hf.
  - apply lookup_ge_None in Hj. rewrite <- Hlen in Hj.
    apply lookup_ge_None in Hj. unfold Db.Session in *. by rewrite Hj.
Qed.

(** A visit through a parser that never raises returns normally and
    leaves the health of the session as it was. *)
Lemma process_single_channel_healthy (now : Z)
    (parsers : gmap string (option BaseParser)) (st : string)
    (parser : BaseParser) (channel : nat * Db.ChannelSource)
    (s : list Db.ChannelSource) :
  parsers !! st = Some (Some parser) ->
  never_raises parser ->
  exists saved s',
    _process_single_channel now parsers st channel s = (Returned saved, s')
    /\ health s' = health s.
Proof.
  intros Hp (Hproc & Hfilt & Hsave).
  unfold _process_single_channel, process_single_channel_try.
  rewrite Hp. simpl.
  destruct (Hproc (Db.url channel.2) (Db.channel_id channel.2))
    as [items ->].
  destruct items as [|item items].
  - eexists _, _. split; [reflexivity|].
    by rewrite health_update_success, health_touch.
  - destruct (Hfilt (item :: items)) as [filtered ->].
    destruct (Hsave filtered) as [saved ->].
    eexists _, _. split; [reflexivity|].
    by rewrite health_update_success, health_touch.
Qed.

End Health.

(** ** Whole runs of the source loop *)

Section Pass.

Import Base.

Variables (config : Config) (parsers : gmap string (option BaseParser))
          (st : string).


Variables (parser : BaseParser) (session0 : list Db.ChannelSource)
          (channels : list nat).

Hypothesis Hparser : parsers !! st = Some (Some parser).
Hypothesis Hnever : never_raises parser.
Hypothesis Henabled : (st, true) ∈ parser_status config.

(** An iteration of a healthy single-pass loop with channels left: one
    visit, the cursor one further, the health of the session as before. *)
Lemma single_pass_iteration (t : Tick) (self : BaseScheduler)
    (session : list Db.ChannelSource) (a : nat * Db.ChannelSource) :
  cycle self = false ->
  _channels_by_source self !! st = Some channels ->
  health session = health session0 ->
  _check_parser_needs_restart session0 st self = false ->
  selection_error t = None ->
  active_of session0 channels !! cursor st self = Some a ->
  exists self' session',
    source_loop_iteration config parsers st t (self, session)
    = (Continue, (self', session'),
       [Poll st a.1; Sleep (get_interval config st)])
    /\ cycle self' = false
    /\ _channels_by_source self' = _channels_by_source self
    /\ health session' = health session0
    /\ cursor st self' = S (cursor st self).
Proof.
  intros Hcy Hch Hh Hok Ht Ha.
  set (c := cursor st self) in *.
  assert (c < length (active_of session channels))%nat as Hlt.
  { rewrite (health_active_length _ _ _ Hh). by eapply lookup_lt_Some. }
  assert (exists b, active_of session channels !! c = Some b /\ b.1 = a.1)
    as (b & Hb & Hba).
  { destruct (lookup_lt_is_Some_2 _ _ Hlt) as [b Hb]. exists b.
    split; [done|].
    assert ((active_of session channels).*1 !! c
            = (active_of session0 channels).*1 !! c) as Hr
      by by rewrite (health_active_refs _ _ _ Hh).
    rewrite !list_lookup_fmap, Hb, Ha in Hr. by injection Hr. }
  assert (active_of session channels <> []) as Hne
    by (intros E; rewrite E in Hlt; simpl in Hlt; lia).
  assert (_check_finished config session self = false) as Hfin.
  { apply not_true_is_false. intros Hf.
    apply check_finished_iff in Hf as [_ Hf].
    specialize (Hf st Henabled). rewrite Hch in Hf.
    specialize (Hf (mk_is_Some _ _ eq_refl)).
    unfold active_list in Hf. rewrite Hch in Hf. simpl in Hf.
    fold c in Hf. lia. }
  unfold source_loop_iteration, source_loop_try.
  rewrite Ht, Hfin, andb_false_r.
  rewrite (health_needs_restart _ _ _ _ Hh), Hok.
  rewrite (get_next_channel_unfold session st self channels Hch Hne).
  simpl. fold c.
  destruct (length (active_of session channels) <=? c)%nat eqn:Hle;
    [apply Nat.leb_le in Hle; lia|].
  rewrite Hb.
  destruct (process_single_channel_healthy (now t) parsers st parser b
              session Hparser Hnever) as (saved & s' & Hproc & Hh').
  unfold Db.Session in *. rewrite Hproc. rewrite Hba.
  eexists _, _. split; [reflexivity|]. simpl.
  split; [done|]. split; [done|]. split; [congruence|].
  apply cursor_with_indices_insert.
Qed.

(** An iteration of a single-pass loop with no channel left ends it. *)
Lemma single_pass_last_iteration (t : Tick) (self : BaseScheduler)
    (session : list Db.ChannelSource) :
  cycle self = false ->
  _channels_by_source self !! st = Some channels ->
  health session = health session0 ->
  _check_parser_needs_restart session0 st self = false ->
  selection_error t = None ->
  (length (active_of session0 channels) <= cursor st self)%nat ->
  source_loop_iteration config parsers st t (self, session)
  = (Break, (self, session), []).
Proof.
  intros Hcy Hch Hh Hok Ht Hle.
  rewrite <- (health_active_length _ _ channels Hh) in Hle.
  unfold source_loop_iteration, source_loop_try. rewrite Ht, Hcy. simpl.
  destruct (_check_finished config session self); [done|].
  rewrite (health_needs_restart _ _ _ _ Hh), Hok.
  destruct (active_of session channels) as [|b act] eqn:Hact.
  - unfold _get_next_channel. rewrite Hch. simpl.
    destruct channels; [done|]. unfold Db.Session in *. by rewrite Hact.
  - rewrite (get_next_channel_unfold session st self channels Hch);
      [|by rewrite Hact].
    simpl. rewrite Hact, Hcy. apply Nat.leb_le in Hle. by rewrite Hle.
Qed.

Lemma while_true_continue (t : Tick) (ticks : list Tick)
    (state state1 state2 : loop_state) (evs evs' : list event)
    (r : loop_end) :
  source_loop_iteration config parsers st t state = (Continue, state1, evs) ->
  while_true config parsers st ticks state1 = (r, state2, evs') ->
  while_true config parsers st (t :: ticks) state = (r, state2, evs ++ evs').
Proof. intros H1 H2. simpl. by rewrite H1, H2. Qed.

Lemma single_pass_from (k : nat) :
  forall (ticks : list Tick) (self : BaseScheduler)
         (session : list Db.ChannelSource),
    cycle self = false ->
    _channels_by_source self !! st = Some channels ->
    health session = health session0 ->
    _check_parser_needs_restart session0 st self = false ->
    (cursor st self + k = length (active_of session0 channels))%nat ->
    Forall (fun t => selection_error t = None) ticks ->
    (k < length ticks)%nat ->
    exists self' session',
      while_true config parsers st ticks (self, session)
      = (Exited, (self', session'),
         visits config st (drop (cursor st self)
                                (active_of session0 channels)))
      /\ health session' = health session0
      /\ cursor st self' = length (active_of session0 channels)
      /\ _channels_by_source self' = _channels_by_source self.
Proof.
  induction k as [|k IH]; intros ticks self session Hcy Hch Hh Hok Hc Hticks
    Hlen.
  - destruct ticks as [|t ticks]; [simpl in Hlen; lia|].
    apply Forall_cons in Hticks as [Ht _]. simpl.
    rewrite (single_pass_last_iteration t self session Hcy Hch Hh Hok Ht)
      by lia.
    exists self, session. rewrite drop_ge by lia.
    split; [done|]. split; [done|]. split; [lia|done].
  - destruct ticks as [|t ticks]; [simpl in Hlen; lia|].
    apply Forall_cons in Hticks as [Ht Hticks]. simpl in Hlen.
    destruct (lookup_lt_is_Some_2 (active_of session0 channels)
                (cursor st self) ltac:(lia)) as [a Ha].
    destruct (single_pass_iteration t self session a Hcy Hch Hh Hok Ht Ha)
      as (self1 & s1 & Hit & Hcy1 & Hd1 & Hh1 & Hc1).
    assert (_check_parser_needs_restart session0 st self1 = false) as Hok1.
    { unfold _check_parser_needs_restart in *. by rewrite Hd1. }
    destruct (IH ticks self1 s1 Hcy1 ltac:(by rewrite Hd1) Hh1 Hok1
                ltac:(lia) Hticks ltac:(lia))
      as (self' & s' & Hrun & Hh' & Hc' & Hd').
    exists self', s'.
    split; [|split; [done|split; [done|congruence]]].
    etransitivity; [exact (while_true_continue _ _ _ _ _ _ _ _ Hit Hrun)|].
    f_equal. rewrite (drop_S _ _ _ Ha), Hc1. done.
Qed.

(** In single-pass mode, a healthy source whose parser never raises is
    walked through once: the loop visits every active channel in list
    order, each followed by the pause of the source, and then exits with
    the cursor at the end; no channel's activity flag or failure counter
    has changed. *)
Theorem single_pass_visits_each_channel_once (ticks : list Tick)
    (self : BaseScheduler) :
  is_running self = true ->
  cycle self = false ->
  _channels_by_source self !! st = Some channels ->
  _check_parser_needs_restart session0 st self = false ->
  cursor st self = 0%nat ->
  Forall (fun t => selection_error t = None) ticks ->
  (length (active_of session0 channels) < length ticks)%nat ->
  exists self' session',
    _process_source_task config parsers st ticks (self, session0)
    = (Exited, (self', session'),
       visits config st (active_of session0 channels))
    /\ health session' = health session0
    /\ cursor st self' = length (active_of session0 channels).
Proof.
  intros Hrun Hcy Hch Hok Hc0 Hticks Hlen.
  destruct (single_pass_from (length (active_of session0 channels)) ticks
              self session0 Hcy Hch eq_refl Hok ltac:(lia) Hticks Hlen)
    as (self' & s' & Hw & Hh & Hc & _).
  exists self', s'. unfold _process_source_task. simpl. rewrite Hrun. simpl.
  rewrite Hc0, drop_0 in Hw. done.
Qed.

End Pass.

(** ** The cursor and a list that shrinks *)

Section Shrinking.

Import Base.

(** The cursor counts positions of the filtered list.  When the channel
    just served is deactivated before the next call, the list loses an
    element in front of the cursor and the call returns the channel after
    the next one: the channel that followed the deactivated one is passed
    over. *)
Theorem get_next_channel_passes_over (session session' : list Db.ChannelSource)
    (st : string) (self : BaseScheduler) (channels : list nat)
    (l1 l2 : list (nat * Db.ChannelSource)) (x y z : nat * Db.ChannelSource) :
  _channels_by_source self !! st = Some channels ->
  active_of session channels = l1 ++ x :: y :: z :: l2 ->
  active_of session' channels = l1 ++ y :: z :: l2 ->
  cursor st self = length l1 ->
  let r1 := _get_next_channel session st self in
  let r2 := _get_next_channel session' st r1.2 in
  r1.1 = Some x /\ r2.1 = Some z /\ cursor st r2.2 = (length l1 + 2)%nat.
Proof.
  intros Hch Hact Hact' Hc r1 r2. subst r1 r2.
  rewrite (get_next_channel_unfold session st self channels Hch)
    by (rewrite Hact; by destruct l1).
  simpl. rewrite Hact, Hc, length_app. simpl.
  destruct (length l1 + S (S (S (length l2))) <=? length l1)%nat eqn:Hle;
    [apply Nat.leb_le in Hle; lia|].
  simpl. split; [by rewrite list_lookup_middle|].
  set (self1 := with_indices _ self).
  assert (_channels_by_source self1 !! st = Some channels) as Hch1
    by exact Hch.
  assert (cursor st self1 = S (length l1)) as Hc1
    by apply cursor_with_indices_insert.
  rewrite (get_next_channel_unfold session' st self1 channels Hch1)
    by (rewrite Hact'; by destruct l1).
  simpl. rewrite Hact', Hc1, length_app. simpl.
  destruct (length l1 + S (S (length l2)) <=? S (length l1))%nat eqn:Hle';
    [apply Nat.leb_le in Hle'; lia|].
  simpl. split.
  - rewrite lookup_app_r by lia.
    by replace (S (length l1) - length l1)%nat with 1%nat by lia.
  - rewrite cursor_with_indices_insert. lia.
Qed.

End Shrinking.

(** ** Restarting a source: [BaseScheduler.restart_source] *)

Section Restart.

Import Base.

Lemma revive_all_lookup (l : list nat) (s : list Db.ChannelSource) (j : nat) :
  foldl (fun s channel => alter revive channel s) s l !! j
  = if bool_decide (j ∈ l) then revive <$> s !! j else s !! j.
Proof.
  revert s. induction l as [|r l IH]; intros s; cbn [foldl].
  - by rewrite bool_decide_false by apply not_elem_of_nil.
  - rewrite IH. destruct (decide (r = j)) as [->|Hne].
    + rewrite list_lookup_alter_eq.
      rewrite (bool_decide_true (j ∈ j :: l)) by apply list_elem_of_here.
      destruct (s !! j); simpl; by destruct (bool_decide (j ∈ l)).
    + rewrite list_lookup_alter_ne by done.
      destruct (decide (j ∈ l)) as [Hin|Hnin].
      * rewrite !bool_decide_true; [done| |done].
        by apply list_elem_of_further.
      * rewrite !bool_decide_false; [done| |done].
        intros Hin. apply elem_of_cons in Hin as [->|Hin]; done.
Qed.

(** After [restart_source] the cursor of the source is 0, its task is a
    fresh one, every channel it lists is active with no failures, so the
    source is no longer judged unhealthy and its active list is its whole
    list; rows it does not list, the directory, the other cursors and the
    other tasks are untouched. *)
Theorem restart_source_effect (session : list Db.ChannelSource) (st : string)
    (self : BaseScheduler) :
  let '(self', session', _) := restart_source session st self in
  let channels := default [] (_channels_by_source self !! st) in
  cursor st self' = 0%nat
  /\ (forall st', st' <> st -> cursor st' self' = cursor st' self
                              /\ tasks self' !! st' = tasks self !! st')
  /\ tasks self' !! st
     = Some {| task_name := st; done := false; cancelled := false |}
  /\ _channels_by_source self' = _channels_by_source self
  /\ length session' = length session
  /\ (forall j, session' !! j
                = if bool_decide (j ∈ channels) then revive <$> session !! j
                  else session !! j)
  /\ _check_parser_needs_restart session' st self' = false
  /\ active_of session' channels = objects session' channels.
Proof.
  unfold restart_source, Db.Session. simpl.
  set (channels := default [] (_channels_by_source self !! st)).
  set (session' := foldl (fun s channel => alter revive channel s)
                         session channels).
  assert (forall j, session' !! j
                    = if bool_decide (j ∈ channels)
                      then revive <$> session !! j else session !! j)
    as Hrows by apply revive_all_lookup.
  assert (Forall (fun rc : nat * Db.ChannelSource =>
                    Db.is_active rc.2 = true /\ Db.failure_count rc.2 = 0)
                 (objects session' channels)) as Hall.
  { apply Forall_forall. intros [r c] Hin. unfold objects in Hin.
    apply list_elem_of_omap in Hin as (r' & Hin & Hr').
    rewrite Hrows, bool_decide_true in Hr' by done.
    destruct (session !! r'); simpl in Hr'; [|done].
    by injection Hr' as <- <-. }
  split; [unfold cursor; simpl; by rewrite lookup_insert_eq|].
  split.
  { intros st' Hne. unfold cursor. simpl.
    by rewrite !lookup_insert_ne by done. }
  split; [simpl; by rewrite lookup_insert_eq|].
  split; [done|].
  split.
  { subst session'. clear. generalize session.
    induction channels as [|r l IH]; intros s; [done|].
    simpl. by rewrite IH, length_alter. }
  split; [exact Hrows|].
  split.
  - unfold _check_parser_needs_restart. simpl. fold channels.
    destruct channels as [|r l] eqn:Hch; [done|].
    replace (List.filter _ (objects session' (r :: l)))
      with (@nil (nat * Db.ChannelSource)); [by simpl|].
    symmetry. clear -Hall. induction Hall as [|[r' c] rest [_ Hf] _ IH];
      [done|].
    simpl in *. rewrite Hf. simpl. exact IH.
  - unfold active_of. clear -Hall.
    induction Hall as [|[r' c] rest [Ha _] _ IH]; [done|].
    simpl in *. rewrite Ha. by f_equal.
Qed.

End Restart.

(** ** A first start: [BaseScheduler.start] *)

Section FirstStart.

Import Base.

Lemma start_source_tasks (l : list string) (self : BaseScheduler) :
  let self' := foldl (fun self st => _start_source_task st self) self l in
  (forall k, tasks self' !! k
             = if bool_decide (k ∈ l)
               then Some {| task_name := k; done := false;
                            cancelled := false |}
               else tasks self !! k)
  /\ cycle self' = cycle self
  /\ _channels_by_source self' = _channels_by_source self
  /\ _channel_indices self' = _channel_indices self
  /\ is_running self' = is_running self
  /\ start_time self' = start_time self.
Proof.
  revert self. induction l as [|st l IH]; intros self; cbn [foldl].
  - split; [|done]. intros k.
    by rewrite bool_decide_false by apply not_elem_of_nil.
  - destruct (IH (_start_source_task st self))
      as (Ht & Hc & Hd & Hi & Hr & Hs).
    split; [|by rewrite Hc, Hd, Hi, Hr, Hs].
    intros k. rewrite Ht. simpl.
    destruct (decide (k ∈ l)) as [Hin|Hnin].
    + rewrite !bool_decide_true; [done| |done].
      by apply list_elem_of_further.
    + rewrite (bool_decide_false (k ∈ l)) by done.
      destruct (decide (st = k)) as [->|Hne].
      * rewrite lookup_insert_eq.
        by rewrite bool_decide_true by apply list_elem_of_here.
      * rewrite lookup_insert_ne by done.
        rewrite bool_decide_false; [done|].
        intros Hin. apply elem_of_cons in Hin as [->|Hin]; done.
Qed.

Lemma enabled_sources_elem (ps : list (string * bool)) (k : string) :
  k ∈ omap (fun '(source_type, is_active) =>
              if is_active : bool then Some source_type else None) ps
  <-> (k, true) ∈ ps.
Proof.
  rewrite list_elem_of_omap. split.
  - intros ([st' b] & Hin & Hf). destruct b; [|done].
    by injection Hf as ->.
  - intros Hin. by exists (k, true).
Qed.

(** The scheduler after a start that finds it not running. *)
Lemma start_not_running (now : Z) (running_loop : nat)
    (synced : gmap string (list nat)) (config : Config)
    (self : BaseScheduler) :
  is_running self = false ->
  let r := start now running_loop synced config self in
  r.1 = Started
  /\ is_running r.2 = true
  /\ start_time r.2 = Some now
  /\ cycle r.2 = cycle self
  /\ _channels_by_source r.2 = synced
  /\ (forall st, cursor st r.2 = 0%nat)
  /\ (forall k, is_Some (tasks r.2 !! k) <->
                (k, true) ∈ parser_status config
                \/ (cycle self = true /\ (k = "sync" \/ k = "monitor")))
  /\ (forall k t, tasks r.2 !! k = Some t -> done t = false).
Proof.
  intros Hrun r. subst r. unfold start. simpl. rewrite Hrun.
  set (self0 := initialize synced _).
  set (l := omap _ (parser_status config)).
  destruct (start_source_tasks l self0) as (Ht & Hc & Hd & Hi & Hr & Hs).
  set (self1 := foldl _ self0 l) in *.
  assert (forall st, default 0%nat (_channel_indices self1 !! st) = 0%nat)
    as Hcur.
  { intros st. rewrite Hi. unfold self0, initialize. simpl.
    rewrite reset_indices_lookup, lookup_empty. by destruct (synced !! st). }
  assert (forall k, is_Some (tasks self1 !! k) <->
                    (k, true) ∈ parser_status config) as Hdom.
  { intros k. rewrite Ht. unfold self0. simpl. rewrite lookup_empty.
    rewrite <- enabled_sources_elem. fold l.
    destruct (decide (k ∈ l)) as [Hin|Hnin].
    - rewrite bool_decide_true by done. split; [done|by eexists].
    - rewrite bool_decide_false by done. split; [by intros [? ?]|done]. }
  assert (forall k t, tasks self1 !! k = Some t -> done t = false) as Hlive.
  { intros k t. rewrite Ht. unfold self0. simpl. rewrite lookup_empty.
    destruct (bool_decide (k ∈ l)); [|done]. by intros [= <-]. }
  assert (cycle self1 = cycle self) as Hcy by (by rewrite Hc).
  rewrite Hcy. destruct (cycle self) eqn:Hcyc; simpl.
  - split; [done|]. split; [by rewrite Hr|]. split; [by rewrite Hs|].
    split; [done|]. split; [by rewrite Hd|]. split; [exact Hcur|]. split.
    + intros k. destruct (decide (k = "monitor")) as [->|Hm].
      { rewrite lookup_insert_eq. split; [intros _; right; auto|by eexists]. }
      rewrite lookup_insert_ne by done.
      destruct (decide (k = "sync")) as [->|Hsy].
      { rewrite lookup_insert_eq. split; [intros _; right; auto|by eexists]. }
      rewrite lookup_insert_ne by done. rewrite Hdom.
      split; [by left|]. intros [H|[_ [H|H]]]; done.
    + intros k t. destruct (decide (k = "monitor")) as [->|Hm].
      { rewrite lookup_insert_eq. by intros [= <-]. }
      rewrite lookup_insert_ne by done.
      destruct (decide (k = "sync")) as [->|Hsy].
      { rewrite lookup_insert_eq. by intros [= <-]. }
      rewrite lookup_insert_ne by done. apply Hlive.
  - split; [done|]. split; [by rewrite Hr|]. split; [by rewrite Hs|].
    split; [done|]. split; [by rewrite Hd|]. split; [exact Hcur|]. split.
    + intros k. rewrite Hdom. split; [by left|].
      intros [H|[H _]]; done.
    + exact Hlive.
Qed.

(** A start of an instance that is not running: it is marked running
    from that moment, holds the directory it was given with every cursor
    at 0, and its task table has a live task for each enabled source type
    and, in wrap mode only, the resync and the monitoring task. *)
Theorem start_fresh (now : Z) (running_loop : nat)
    (synced : gmap string (list nat)) (config : Config)
    (self : BaseScheduler) :
  is_running self = false ->
  let r := start now running_loop synced config self in
  r.1 = Started
  /\ is_running r.2 = true
  /\ start_time r.2 = Some now
  /\ cycle r.2 = cycle self
  /\ _channels_by_source r.2 = synced
  /\ (forall st, cursor st r.2 = 0%nat)
  /\ (forall k, is_Some (tasks r.2 !! k) <->
                (k, true) ∈ parser_status config
                \/ (cycle self = true /\ (k = "sync" \/ k = "monitor")))
  /\ (forall k t, tasks r.2 !! k = Some t -> done t = false).
Proof. exact (start_not_running now running_loop synced config self). Qed.

(** A single-pass engine started on a directory in which no enabled
    source type has an active channel is finished at once: the check that
    fires the completion hook is already true. *)
Theorem start_single_pass_nothing_to_do (now : Z) (running_loop : nat)
    (synced : gmap string (list nat)) (config : Config)
    (session : list Db.ChannelSource) (self : BaseScheduler) :
  is_running self = false ->
  cycle self = false ->
  (forall st channels, (st, true) ∈ parser_status config ->
     synced !! st = Some channels -> active_of session channels = []) ->
  _check_finished config session
    (start now running_loop synced config self).2 = true.
Proof.
  intros Hrun Hcy Hempty.
  destruct (start_not_running now running_loop synced config self Hrun)
    as (_ & _ & _ & Hc & Hd & Hcur & _).
  apply check_finished_iff. split; [congruence|].
  intros st Hen Hsome. unfold active_list. rewrite Hd in *.
  destruct Hsome as [channels Hch]. rewrite Hch. simpl.
  rewrite (Hempty st channels Hen Hch). simpl. lia.
Qed.

(** [stop] empties the task table and clears the running flag but keeps
    the directory, the cursors and the start time; it cancels exactly the
    tasks that were not done, and a second [stop] cancels nothing. *)
Theorem stop_effect (self : BaseScheduler) :
  let r := stop self in
  tasks r.1 = ∅
  /\ is_running r.1 = false
  /\ start_time r.1 = start_time self
  /\ _channels_by_source r.1 = _channels_by_source self
  /\ _channel_indices r.1 = _channel_indices self
  /\ (forall k t, r.2 !! k = Some t <->
                  tasks self !! k = Some t /\ done t = false)
  /\ stop r.1 = (r.1, ∅).
Proof.
  unfold stop. simpl.
  split; [done|]. split; [done|]. split; [done|]. split; [done|].
  split; [done|]. split.
  - intros k t. by rewrite map_lookup_filter_Some.
  - by rewrite map_filter_empty.
Qed.

End FirstStart.

(** ** Examples on the Telegram channels *)

Section SchedulerExamples.

Import Base.

Lemma loaded_directory_serves_first_witness :
  Db.get_all_active_channels Samples.tg_session !! "telegram"
  = Some [0; 2; 3]%nat
  /\ exists r rest ch,
       [0; 2; 3]%nat = r :: rest
       /\ Samples.tg_session !! r = Some ch
       /\ active_of Samples.tg_session [0; 2; 3]%nat
          = objects Samples.tg_session [0; 2; 3]%nat
       /\ (objects Samples.tg_session [0; 2; 3]%nat).*1 = [0; 2; 3]%nat
       /\ let self' :=
            initialize (Db.get_all_active_channels Samples.tg_session)
              (Samples.tg_scheduler false) in
          (_get_next_channel Samples.tg_session "telegram" self').1
          = Some (r, ch)
          /\ cursor "telegram"
               (_get_next_channel Samples.tg_session "telegram" self').2
             = 1%nat.
Proof.
  assert (Db.get_all_active_channels Samples.tg_session !! "telegram"
          = Some [0; 2; 3]%nat) as H by (vm_compute; reflexivity).
  split; [exact H|].
  exact (loaded_directory_serves_first Samples.tg_session "telegram"
           [0; 2; 3]%nat (Samples.tg_scheduler false) H).
Defined.


Lemma single_pass_visits_each_channel_once_witness :
  let self := Samples.tg_scheduler false in
  let channels := [0; 1; 2; 3]%nat in
  never_raises Samples.quiet_parser
  /\ _check_parser_needs_restart Samples.tg_session "telegram" self = false
  /\ exists self' session',
       _process_source_task Samples.tg_config Samples.tg_parsers "telegram"
         Samples.calm_ticks (self, Samples.tg_session)
       = (Exited, (self', session'),
          [Poll "telegram" 0; Sleep 5; Poll "telegram" 2; Sleep 5;
           Poll "telegram" 3; Sleep 5])
       /\ health session' = health Samples.tg_session
       /\ cursor "telegram" self' = 3%nat.
Proof.
  intros self channels.
  assert (Samples.tg_parsers !! "telegram" = Some (Some Samples.quiet_parser))
    as Hparser by (vm_compute; reflexivity).
  assert (never_raises Samples.quiet_parser) as Hnever.
  { split; [|split]; intros; eexists; reflexivity. }
  assert (("telegram", true) ∈ parser_status Samples.tg_config) as Hen
    by (apply (bool_decide_unpack _); vm_compute; exact I).
  assert (is_running self = true) as Hrun by reflexivity.
  assert (cycle self = false) as Hcy by reflexivity.
  assert (_channels_by_source self !! "telegram" = Some channels) as Hch
    by (vm_compute; reflexivity).
  assert (_check_parser_needs_restart Samples.tg_session "telegram" self
          = false) as Hok by (vm_compute; reflexivity).
  assert (cursor "telegram" self = 0%nat) as Hc0 by (vm_compute; reflexivity).
  assert (Forall (fun t => selection_error t = None) Samples.calm_ticks)
    as Hticks by (repeat constructor).
  assert (length (active_of Samples.tg_session channels)
          < length Samples.calm_ticks)%nat as Hlen by (vm_compute; lia).
  split; [exact Hnever|]. split; [exact Hok|].
  exact (single_pass_visits_each_channel_once Samples.tg_config
           Samples.tg_parsers "telegram" Samples.quiet_parser
           Samples.tg_session channels Hparser Hnever Hen
           Samples.calm_ticks self Hrun Hcy Hch Hok Hc0 Hticks Hlen).
Defined.

Lemma get_next_channel_passes_over_witness :
  let self := Samples.tg_scheduler false in
  let session' := alter Db.deactivate 0%nat Samples.tg_session in
  let r1 := _get_next_channel Samples.tg_session "telegram" self in
  let r2 := _get_next_channel session' "telegram" r1.2 in
  active_of Samples.tg_session [0; 1; 2; 3]%nat
  = [(0%nat, Samples.tg 1 "alpha" true); (2%nat, Samples.tg 3 "gamma" true);
     (3%nat, Samples.tg 4 "delta" true)]
  /\ active_of session' [0; 1; 2; 3]%nat
     = [(2%nat, Samples.tg 3 "gamma" true);
        (3%nat, Samples.tg 4 "delta" true)]
  /\ r1.1 = Some (0%nat, Samples.tg 1 "alpha" true)
  /\ r2.1 = Some (3%nat, Samples.tg 4 "delta" true)
  /\ cursor "telegram" r2.2 = 2%nat.
Proof.
  intros self session' r1 r2.
  assert (_channels_by_source self !! "telegram" = Some [0; 1; 2; 3]%nat)
    as Hch by (vm_compute; reflexivity).
  assert (active_of Samples.tg_session [0; 1; 2; 3]%nat
          = [] ++ [(0%nat, Samples.tg 1 "alpha" true);
                   (2%nat, Samples.tg 3 "gamma" true);
                   (3%nat, Samples.tg 4 "delta" true)]) as Hact
    by reflexivity.
  assert (active_of session' [0; 1; 2; 3]%nat
          = [] ++ [(2%nat, Samples.tg 3 "gamma" true);
                   (3%nat, Samples.tg 4 "delta" true)]) as Hact'
    by reflexivity.
  assert (cursor "telegram" self = @length (nat * Db.ChannelSource) [])
    as Hc by (vm_compute; reflexivity).
  split; [exact Hact|]. split; [exact Hact'|].
  exact (get_next_channel_passes_over Samples.tg_session session' "telegram"
           self [0; 1; 2; 3]%nat [] []
           (0%nat, Samples.tg 1 "alpha" true)
           (2%nat, Samples.tg 3 "gamma" true)
           (3%nat, Samples.tg 4 "delta" true) Hch Hact Hact' Hc).
Defined.

Lemma start_fresh_witness :
  let r := start 1000 1 Samples.tg_directory Samples.tg_config
             Manager.SinglePassScheduler in
  is_running Manager.SinglePassScheduler = false
  /\ r.1 = Started
  /\ is_running r.2 = true
  /\ (forall st, cursor st r.2 = 0%nat)
  /\ (forall k, is_Some (tasks r.2 !! k) <->
                (k, true) ∈ parser_status Samples.tg_config
                \/ (cycle Manager.SinglePassScheduler = true
                    /\ (k = "sync" \/ k = "monitor"))).
Proof.
  intros r.
  assert (is_running Manager.SinglePassScheduler = false) as Hrun
    by reflexivity.
  destruct (start_fresh 1000 1 Samples.tg_directory Samples.tg_config
              Manager.SinglePassScheduler Hrun)
    as (H1 & H2 & _ & _ & _ & H6 & H7 & _).
  split; [exact Hrun|]. split; [exact H1|]. split; [exact H2|].
  split; [exact H6|exact H7].
Defined.

Lemma start_single_pass_nothing_to_do_witness :
  (forall st channels,
     (st, true) ∈ parser_status Samples.tg_config ->
     Samples.idle_directory !! st = Some channels ->
     active_of Samples.tg_session channels = [])
  /\ _check_finished Samples.tg_config Samples.tg_session
       (start 1000 1 Samples.idle_directory Samples.tg_config
          Manager.SinglePassScheduler).2 = true.
Proof.
  assert (forall st channels,
            (st, true) ∈ parser_status Samples.tg_config ->
            Samples.idle_directory !! st = Some channels ->
            active_of Samples.tg_session channels = []) as Hidle.
  { intros st channels Hin Hl. simpl in Hin.
    apply elem_of_cons in Hin as [[= ? ?]|Hin].
    apply elem_of_cons in Hin as [[= ->]|Hin].
    { vm_compute in Hl. injection Hl as <-. reflexivity. }
    apply elem_of_cons in Hin as [[= ->]|Hin].
    { vm_compute in Hl. discriminate Hl. }
    by apply elem_of_nil in Hin. }
  split; [exact Hidle|].
  exact (start_single_pass_nothing_to_do 1000 1 Samples.idle_directory
           Samples.tg_config Samples.tg_session Manager.SinglePassScheduler
           eq_refl eq_refl Hidle).
Defined.

End SchedulerExamples.

(** ** More on [execute_digest_with_retry] *)

Section RetryBounds.

Import Digest.

Ltac step_cases H :=
  unfold on_raise, on_exception, next_attempt in H;
  repeat match type of H with
         | context [if ?b then _ else _] => destruct b eqn:?
         end;
  injection H as <- <- <-.

Ltac budget_done :=
  simpl in *;
  rewrite ?Nat.ltb_lt, ?Nat.ltb_ge, ?Forall_cons, ?Forall_nil in *;
  simpl in *; repeat split; try done; try lia.

(** One resumption spends what it uses of each budget. *)
Lemma resume_budgets (self self' : DigestScheduler) (f f' : frame)
    (a : answer) (evs : list event) :
  frame_ok self f = true ->
  resume self f a = Some (self', f', evs) ->
  frame_ok self' f' = true
  /\ max_retries self' = max_retries self
  /\ retry_delay self' = retry_delay self
  /\ (length (List.filter is_create evs) + creates_left self' f'
      <= creates_left self f)%nat
  /\ (length (List.filter is_publish evs) + publishes_left self' f'
      <= publishes_left self f)%nat
  /\ (length (List.filter is_sleep evs) + sleeps_left self' f'
      <= sleeps_left self f)%nat
  /\ Forall (fun e => is_sleep e = true -> e = sleep (retry_delay self)) evs.
Proof.
  intros Hok Hres.
  destruct f as [dt it|dt it n|dt it n d|dt it n|]; destruct a as [|r|r|];
    simpl in Hres; try discriminate Hres; simpl in Hok;
    try apply Nat.ltb_lt in Hok.
  - destruct (is_processing self);
      [injection Hres as <- <- <-|step_cases Hres]; budget_done.
  - destruct r as [[[ty tx [|i items]]|]|e]; simpl in Hres;
      [injection Hres as <- <- <-| injection Hres as <- <- <-
      | injection Hres as <- <- <-| step_cases Hres]; budget_done.
  - destruct r as [[|]|e]; simpl in Hres;
      [injection Hres as <- <- <-| injection Hres as <- <- <-
      | step_cases Hres]; budget_done.
  - step_cases Hres; budget_done.
Qed.

Lemma run_budgets (answers : list answer) (self self' : DigestScheduler)
    (f f' : frame) (evs : list event) :
  frame_ok self f = true ->
  run self f answers = Some (self', f', evs) ->
  (length (List.filter is_create evs) <= creates_left self f)%nat
  /\ (length (List.filter is_publish evs) <= publishes_left self f)%nat
  /\ (length (List.filter is_sleep evs) <= sleeps_left self f)%nat
  /\ Forall (fun e => is_sleep e = true -> e = sleep (retry_delay self)) evs.
Proof.
  revert self f evs. induction answers as [|a answers IH];
    intros self f evs Hok Hrun; simpl in Hrun.
  - injection Hrun as <- <- <-. simpl. repeat split; try lia. done.
  - destruct (resume self f a) as [[[s1 f1] e1]|] eqn:Hres; [|done].
    destruct (run s1 f1 answers) as [[[s2 f2] e2]|] eqn:Hrun'; [|done].
    injection Hrun as <- <- <-.
    destruct (resume_budgets _ _ _ _ _ _ Hok Hres)
      as (Hok1 & HM & HD & Hc & Hp & Hs & Hall).
    destruct (IH _ _ _ Hok1 Hrun') as (Hc' & Hp' & Hs' & Hall').
    rewrite !List.filter_app, !length_app.
    repeat split; try lia.
    apply Forall_app. split; [done|]. by rewrite <- HD.
Qed.

(** However the collaborators answer, one call of
    [execute_digest_with_retry] asks for the digest at most [max_retries]
    times, publishes at most [max_retries] times and pauses at most
    [max_retries - 1] times, each pause being [retry_delay] long. *)
Theorem execute_digest_attempts_bounded (answers : list answer)
    (self self' : DigestScheduler) (digest_type : string) (is_test : bool)
    (f' : frame) (evs : list event) :
  run self (Called digest_type is_test) answers = Some (self', f', evs) ->
  (length (List.filter is_create evs) <= max_retries self)%nat
  /\ (length (List.filter is_publish evs) <= max_retries self)%nat
  /\ (length (List.filter is_sleep evs) <= max_retries self - 1)%nat
  /\ Forall (fun e => is_sleep e = true -> e = sleep (retry_delay self)) evs.
Proof.
  intros Hrun.
  exact (run_budgets answers self self' (Called digest_type is_test) f' evs
           eq_refl Hrun).
Qed.

End RetryBounds.

Section Release.

Import Digest.

Variable w : World.

Hypothesis creator_not_cancelled :
  forall attempt, creator w attempt <> Raised CancelledError.
Hypothesis publisher_not_cancelled :
  forall attempt, publisher w attempt <> Raised CancelledError.

(** A resumption of a suspended call either leaves the scheduler alone or
    ends the call and clears the flag. *)
Lemma resume_releases (self0 : DigestScheduler) (f : frame) (a : answer) :
  suspended f = true ->
  reply w f = Some a ->
  forall self' f' evs,
    resume (with_processing true self0) f a = Some (self', f', evs) ->
    (suspended f' = true /\ self' = with_processing true self0)
    \/ (f' = Finished /\ self' = with_processing false self0).
Proof.
  intros Hs Hrep self' f' evs Hres.
  destruct f as [dt it|dt it n|dt it n d|dt it n|]; try discriminate Hs;
    simpl in Hrep; injection Hrep as <-; simpl in Hres.
  - pose proof (creator_not_cancelled n) as Hnc.
    destruct (creator w n) as [[[ty tx [|i items]]|]|e]; simpl in Hres.
    + injection Hres as <- <- <-. by right.
    + injection Hres as <- <- <-. by left.
    + injection Hres as <- <- <-. by right.
    + unfold on_raise, on_exception, next_attempt in Hres.
      destruct e; try done; simpl in Hres;
        destruct (n <? max_retries self0 - 1)%nat,
                 (S n <? max_retries self0)%nat;
        injection Hres as <- <- <-; (by left) || (by right).
  - pose proof (publisher_not_cancelled n) as Hnc.
    destruct (publisher w n) as [b|e]; simpl in Hres.
    + injection Hres as <- <- <-. by right.
    + unfold on_raise, on_exception, next_attempt in Hres.
      destruct e; try done; simpl in Hres;
        destruct (n <? max_retries self0 - 1)%nat,
                 (S n <? max_retries self0)%nat;
        injection Hres as <- <- <-; (by left) || (by right).
  - unfold next_attempt in Hres. simpl in Hres.
    destruct (S n <? max_retries self0)%nat;
      injection Hres as <- <- <-; (by left) || (by right).
Qed.

Lemma drive_releases (fuel : nat) (self0 : DigestScheduler) (f : frame) :
  suspended f = true ->
  frame_ok (with_processing true self0) f = true ->
  (steps_left (with_processing true self0) f <= fuel)%nat ->
  (drive fuel w (with_processing true self0) f).1
  = (with_processing false self0, Finished).
Proof.
  revert f. induction fuel as [|fuel IH]; intros f Hs Hok Hfuel.
  - destruct f; simpl in *; try done; apply Nat.ltb_lt in Hok; lia.
  - simpl. destruct (reply w f) as [a|] eqn:Hrep; [|by destruct f].
    destruct (resume_progress w _ f a Hok Hrep)
      as (self' & f' & evs & Hres & Hok' & _ & Hlt).
    rewrite Hres.
    destruct (resume_releases self0 f a Hs Hrep _ _ _ Hres)
      as [[Hs' ->]|[-> ->]].
    + specialize (IH f' Hs' Hok' ltac:(lia)).
      destruct (drive fuel w (with_processing true self0) f')
        as [[s2 f2] e2]. simpl in *. exact IH.
    + by destruct fuel.
Qed.

(** A call that starts with the flag clear and is never cancelled ends
    with the flag clear again and the rest of the scheduler as it was,
    whatever the collaborators return or raise. *)
Theorem execute_digest_releases_flag (self : DigestScheduler)
    (digest_type : string) (is_test : bool) :
  is_processing self = false ->
  (execute_digest_with_retry w self digest_type is_test).1
  = (with_processing false self, Finished).
Proof.
  intros Hp. unfold execute_digest_with_retry.
  replace (3 * max_retries self + 1)%nat
    with (S (3 * max_retries self)) by lia.
  cbn [drive reply resume]. rewrite Hp. unfold next_attempt.
  cbn [max_retries with_processing].
  destruct (0 <? max_retries self)%nat eqn:HM.
  - assert (frame_ok (with_processing true self)
              (AwaitCreate digest_type is_test 0) = true) as Hok
      by (simpl; exact HM).
    assert (steps_left (with_processing true self)
              (AwaitCreate digest_type is_test 0)
            <= 3 * max_retries self)%nat as Hfuel by (simpl; lia).
    pose proof (drive_releases (3 * max_retries self) self
                  (AwaitCreate digest_type is_test 0) eq_refl Hok Hfuel)
      as Hd.
    destruct (drive (3 * max_retries self) w (with_processing true self)
                (AwaitCreate digest_type is_test 0)) as [[s2 f2] e2].
    exact Hd.
  - by destruct (3 * max_retries self)%nat.
Qed.

End Release.

Section Edges.

Import Digest.

(** When the digest cannot be assembled (nothing returned, or no items)
    on the first attempt, the run ends there: nothing is published,
    nothing is marked as used, there is no pause and no second
    attempt. *)
Theorem execute_digest_without_data (w : World) (self : DigestScheduler)
    (digest_type : string) (is_test : bool) :
  is_processing self = false ->
  (0 < max_retries self)%nat ->
  (creator w 0%nat = Returned None
   \/ exists d, creator w 0%nat = Returned (Some d) /\ news_items d = []) ->
  execute_digest_with_retry w self digest_type is_test
  = (with_processing false self, Finished,
     [logged INFO "Попытка"; create_digest digest_type is_test;
      logged WARNING "Нет данных для дайджеста"]).
Proof.
  intros Hp HM Hc. unfold execute_digest_with_retry.
  destruct (max_retries self) as [|m] eqn:Hm; [lia|].
  replace (3 * S m + 1)%nat with (S (S (S (S (3 * m))))) by lia.
  cbn [drive reply resume]. rewrite Hp. unfold next_attempt.
  cbn [max_retries with_processing]. rewrite Hm.
  change (0 <? S m)%nat with true. cbn iota.
  cbn [drive reply resume].
  destruct Hc as [->|([ty tx items] & -> & Hitems)].
  - cbn [drive reply resume]. simpl. done.
  - simpl in Hitems. subst items. cbn [drive reply resume]. simpl. done.
Qed.

(** A call cancelled while it waits leaves the flag set; every later call
    on the same scheduler is then dropped without calling any
    collaborator. *)
Theorem cancelled_digest_blocks_later_calls (w w' : World)
    (self : DigestScheduler) (digest_type digest_type' : string)
    (is_test is_test' : bool) :
  is_processing self = false ->
  (0 < max_retries self)%nat ->
  creator w 0%nat = Raised CancelledError ->
  let r := execute_digest_with_retry w self digest_type is_test in
  r.1 = (with_processing true self, Finished)
  /\ execute_digest_with_retry w' r.1.1 digest_type' is_test'
     = (with_processing true self, Finished, [dropped digest_type']).
Proof.
  intros Hp HM Hc r.
  assert (r.1 = (with_processing true self, Finished)) as Hr.
  { subst r. unfold execute_digest_with_retry.
    destruct (max_retries self) as [|m] eqn:Hm; [lia|].
    replace (3 * S m + 1)%nat with (S (S (S (S (3 * m))))) by lia.
    cbn [drive reply resume]. rewrite Hp. unfold next_attempt.
    cbn [max_retries with_processing]. rewrite Hm.
    change (0 <? S m)%nat with true. cbn iota.
    cbn [drive reply resume]. rewrite Hc.
    cbn [drive reply resume]. simpl. done. }
  split; [exact Hr|]. rewrite Hr. simpl.
  unfold execute_digest_with_retry. simpl.
  replace (max_retries self + (max_retries self + (max_retries self + 0)) + 1)%nat
    with (S (3 * max_retries self)) by lia.
  cbn [drive reply resume]. simpl.
  by destruct (max_retries self + (max_retries self + (max_retries self + 0)))%nat.
Qed.

End Edges.

Section DigestExamples.

Import Digest.

Lemma execute_digest_attempts_bounded_witness :
  let answers :=
    [Go; Created (Raised (Exception "database is locked")); Slept;
     Created (Returned (Some Samples.daily_digest));
     Published (Raised (Exception "network")); Slept;
     Created (Returned (Some Samples.daily_digest));
     Published (Raised (Exception "network"))] in
  exists self' evs,
    run __init__ (Called "daily" false) answers = Some (self', Finished, evs)
    /\ length (List.filter is_create evs) = 3%nat
    /\ length (List.filter is_sleep evs) = 2%nat
    /\ (length (List.filter is_create evs) <= max_retries __init__)%nat
    /\ (length (List.filter is_publish evs) <= max_retries __init__)%nat
    /\ (length (List.filter is_sleep evs) <= max_retries __init__ - 1)%nat
    /\ Forall (fun e => is_sleep e = true -> e = sleep (retry_delay __init__))
              evs.
Proof.
  intros answers.
  destruct (run __init__ (Called "daily" false) answers)
    as [[[self' f'] evs]|] eqn:Hrun; [|vm_compute in Hrun; discriminate Hrun].
  assert (f' = Finished) as ->
    by (vm_compute in Hrun; injection Hrun as _ <- _; reflexivity).
  exists self', evs. split; [reflexivity|].
  split; [vm_compute in Hrun; injection Hrun as _ <-; reflexivity|].
  split; [vm_compute in Hrun; injection Hrun as _ <-; reflexivity|].
  exact (execute_digest_attempts_bounded answers __init__ self' "daily" false
           Finished evs Hrun).
Defined.

Lemma execute_digest_releases_flag_witness :
  (forall attempt,
     creator Samples.publish_raises_twice attempt <> Raised CancelledError)
  /\ (forall attempt,
        publisher Samples.publish_raises_twice attempt
        <> Raised CancelledError)
  /\ (execute_digest_with_retry Samples.publish_raises_twice __init__
        "daily" false).1
     = (__init__, Finished).
Proof.
  assert (forall attempt,
            creator Samples.publish_raises_twice attempt
            <> Raised CancelledError) as Hc by (intros attempt; discriminate).
  assert (forall attempt,
            publisher Samples.publish_raises_twice attempt
            <> Raised CancelledError) as Hp
    by (intros [|[|attempt]]; discriminate).
  split; [exact Hc|]. split; [exact Hp|].
  exact (execute_digest_releases_flag Samples.publish_raises_twice Hc Hp
           __init__ "daily" false eq_refl).
Defined.

Lemma execute_digest_without_data_witness :
  creator Samples.nothing_to_publish 0%nat = Returned None
  /\ execute_digest_with_retry Samples.nothing_to_publish __init__
       "weekly" false
     = (__init__, Finished,
        [logged INFO "Попытка"; create_digest "weekly" false;
         logged WARNING "Нет данных для дайджеста"]).
Proof.
  split; [reflexivity|].
  exact (execute_digest_without_data Samples.nothing_to_publish __init__
           "weekly" false eq_refl ltac:(simpl; lia) (or_introl eq_refl)).
Defined.

Lemma cancelled_digest_blocks_later_calls_witness :
  let r := execute_digest_with_retry Samples.cancelled_while_creating
             __init__ "daily" false in
  creator Samples.cancelled_while_creating 0%nat = Raised CancelledError
  /\ is_processing r.1.1 = true
  /\ execute_digest_with_retry Samples.publish_raises_twice r.1.1
       "weekly" false
     = (with_processing true __init__, Finished, [dropped "weekly"]).
Proof.
  intros r.
  destruct (cancelled_digest_blocks_later_calls
              Samples.cancelled_while_creating Samples.publish_raises_twice
              __init__ "daily" "weekly" false false eq_refl
              ltac:(simpl; lia) eq_refl) as [H1 H2].
  split; [reflexivity|]. split; [|exact H2].
  fold r in H1. by rewrite H1.
Defined.

End DigestExamples.

(* ================================================================== *)
(** ** Stopping and restarting: [SchedulerManager.stop_continuous],
       [stop_single_pass], [start_all], [restart_digest_scheduler] *)

Section Handover.

Import Manager.

Lemma task_live_delete (self : SchedulerManager) (name : string) :
  task_live (with_tasks (delete name (tasks self)) self) name = false.
Proof. unfold task_live. simpl. by rewrite lookup_delete_eq. Qed.

Lemma engine_running_stop_continuous (self : SchedulerManager) :
  engine_running (stop_continuous self).2 "continuous" = false.
Proof.
  unfold engine_running, stop_continuous, task_live. simpl.
  destruct (continuous_scheduler self) as [s|] eqn:Hs; simpl;
    rewrite lookup_delete_eq; simpl; [done|by rewrite Hs].
Qed.

Lemma engine_running_stop_single_pass (self : SchedulerManager) :
  engine_running (stop_single_pass self).2 "single_pass" = false.
Proof.
  unfold engine_running, stop_single_pass, task_live. simpl.
  by rewrite lookup_delete_eq.
Qed.

(** [stop_continuous] leaves the continuous engine with no task in the
    table and its flag cleared, whatever the manager was, and leaves the
    single-pass engine and its task alone; a [start_single_pass] that
    follows is therefore never refused. *)
Theorem stop_continuous_hands_over (self : SchedulerManager) :
  let self' := (stop_continuous self).2 in
  tasks self' !! "continuous" = None
  /\ flag_set (continuous_scheduler self') = false
  /\ single_pass_scheduler self' = single_pass_scheduler self
  /\ tasks self' !! "single_pass" = tasks self !! "single_pass"
  /\ refused (start_single_pass self') = false.
Proof.
  intros self'.
  pose proof (engine_running_stop_continuous self) as Hrun.
  fold self' in Hrun. unfold engine_running in Hrun.
  rewrite (bool_decide_true ("continuous" = "continuous")) in Hrun by done.
  apply orb_false_iff in Hrun as [Hlive Hflag].
  assert (tasks self' !! "continuous" = None) as Hnone.
  { subst self'. unfold stop_continuous. simpl.
    destruct (continuous_scheduler self); simpl; by rewrite lookup_delete_eq. }
  assert (single_pass_scheduler self' = single_pass_scheduler self) as Hsp.
  { subst self'. unfold stop_continuous. simpl.
    by destruct (continuous_scheduler self). }
  assert (tasks self' !! "single_pass" = tasks self !! "single_pass") as Ht.
  { subst self'. unfold stop_continuous. simpl.
    destruct (continuous_scheduler self); simpl;
      by rewrite lookup_delete_ne. }
  clearbody self'. repeat split; try assumption.
  destruct (refused (start_single_pass self')) eqn:Href; [|done].
  apply start_single_pass_refused_iff in Href.
  unfold get_mutual_exclusion_status in Href.
  rewrite Hlive, Hflag in Href.
  by destruct (task_live self' "single_pass"),
              (flag_set (single_pass_scheduler self')).
Qed.

(** [stop_single_pass] discards the single-pass engine and its task,
    whatever the manager was, and leaves the continuous engine and its
    task alone; a [start_continuous] that follows is never refused. *)
Theorem stop_single_pass_hands_over (self : SchedulerManager) :
  let self' := (stop_single_pass self).2 in
  tasks self' !! "single_pass" = None
  /\ single_pass_scheduler self' = None
  /\ continuous_scheduler self' = continuous_scheduler self
  /\ tasks self' !! "continuous" = tasks self !! "continuous"
  /\ refused (start_continuous self') = false.
Proof.
  intros self'.
  assert (tasks self' !! "single_pass" = None) as Hnone.
  { subst self'. unfold stop_single_pass. simpl.
    by rewrite lookup_delete_eq. }
  assert (tasks self' !! "continuous" = tasks self !! "continuous") as Ht.
  { subst self'. unfold stop_single_pass. simpl.
    destruct (single_pass_scheduler self); simpl;
      by rewrite lookup_delete_ne. }
  assert (continuous_scheduler self' = continuous_scheduler self) as Hc.
  { subst self'. unfold stop_single_pass. simpl.
    by destruct (single_pass_scheduler self). }
  assert (single_pass_scheduler self' = None) as Hsp by done.
  clearbody self'. repeat split; try assumption.
  destruct (refused (start_continuous self')) eqn:Href; [|done].
  apply start_continuous_refused_iff in Href.
  unfold get_mutual_exclusion_status, task_live in Href.
  rewrite Hnone, Hsp in Href. simpl in Href.
  by destruct (tasks self' !! "continuous") as [[? [] ?]|],
              (flag_set (continuous_scheduler self')).
Qed.

End Handover.

Section Exclusion.

Import Manager.

Lemma flag_set_new_continuous : flag_set (Some ContinuousScheduler) = false.
Proof. reflexivity. Qed.

(** Starting either engine keeps the exclusion: from a manager where at
    most one engine of the pair is running, [start_continuous] and
    [start_single_pass] lead, whether they are refused or not, to a
    manager where at most one is running. *)
Theorem start_keeps_exclusion (self : SchedulerManager) :
  exclusive self = true ->
  exclusive (start_continuous self).2 = true
  /\ exclusive (start_single_pass self).2 = true.
Proof.
  unfold exclusive, engine_running.
  rewrite (bool_decide_true ("continuous" = "continuous")) by done.
  rewrite (bool_decide_false ("single_pass" = "continuous")) by done.
  intros Hex. split.
  - unfold start_continuous, _check_mutual_exclusion,
      get_mutual_exclusion_status. simpl.
    destruct (task_live self "continuous") eqn:Hc,
             (task_live self "single_pass") eqn:Hs,
             (flag_set (continuous_scheduler self)) eqn:Hfc,
             (flag_set (single_pass_scheduler self)) eqn:Hfs;
      simpl in *; try discriminate Hex;
      rewrite ?Hc, ?Hs, ?Hfc, ?Hfs; try done;
      destruct (continuous_scheduler self); simpl;
      unfold task_live in *; simpl;
      rewrite ?lookup_insert_eq, ?lookup_insert_ne by done; simpl;
      rewrite ?Hs, ?Hfs; simpl; by rewrite ?andb_false_r.
  - unfold start_single_pass, _check_mutual_exclusion,
      get_mutual_exclusion_status. simpl.
    destruct (task_live self "continuous") eqn:Hc,
             (task_live self "single_pass") eqn:Hs,
             (flag_set (continuous_scheduler self)) eqn:Hfc,
             (flag_set (single_pass_scheduler self)) eqn:Hfs;
      simpl in *; try discriminate Hex;
      rewrite ?Hc, ?Hs, ?Hfc, ?Hfs; try done;
      destruct (single_pass_scheduler self); simpl;
      unfold task_live in *; simpl;
      rewrite ?lookup_insert_eq, ?lookup_insert_ne by done; simpl;
      rewrite ?Hc, ?Hfc; simpl; done.
Qed.

(** [start_all] makes no exclusion check: when both engines are set it
    stores a fresh task for each, so that both are live afterwards. *)
Theorem start_all_skips_exclusion (self : SchedulerManager)
    (c s : Base.BaseScheduler) :
  continuous_scheduler self = Some c ->
  single_pass_scheduler self = Some s ->
  let self' := start_all self in
  task_live self' "continuous" = true
  /\ task_live self' "single_pass" = true
  /\ exclusive self' = false.
Proof.
  intros Hc Hs self'.
  assert (task_live self' "continuous" = true
          /\ task_live self' "single_pass" = true) as [H1 H2].
  { subst self'. unfold start_all, task_live.
    destruct (digest_scheduler self); simpl; rewrite Hc; simpl;
      rewrite Hs; simpl;
      rewrite lookup_insert_eq, lookup_insert_ne, lookup_insert_eq by done;
      done. }
  repeat split; try assumption.
  unfold exclusive, engine_running. by rewrite H1, H2.
Qed.

(** [restart_digest_scheduler] installs a scheduler that is not
    processing and not yet running, whatever the old one was doing,
    reports it as not running, stores a fresh task for it, and touches
    neither the two engines nor any other task. *)
Theorem restart_digest_scheduler_effect (self : SchedulerManager) :
  let r := restart_digest_scheduler self in
  r.1 = ("digest_publisher", false)
  /\ digest_scheduler r.2 = Some Digest.__init__
  /\ tasks r.2 !! "digest_publisher" = Some (create_task "digest_scheduler")
  /\ (forall name, name <> "digest_publisher" ->
        tasks r.2 !! name = tasks self !! name)
  /\ continuous_scheduler r.2 = continuous_scheduler self
  /\ single_pass_scheduler r.2 = single_pass_scheduler self
  /\ get_mutual_exclusion_status r.2 = get_mutual_exclusion_status self.
Proof.
  intros r. subst r. unfold restart_digest_scheduler. simpl.
  repeat split.
  - by rewrite lookup_insert_eq.
  - intros name Hne. by rewrite lookup_insert_ne, lookup_delete_ne.
  - unfold get_mutual_exclusion_status, task_live. simpl.
    by rewrite !lookup_insert_ne, !lookup_delete_ne.
Qed.

End Exclusion.

Section ManagerExamples.

Import Manager.

Lemma start_keeps_exclusion_witness :
  exclusive Samples.single_pass_started = true
  /\ refused (start_continuous Samples.single_pass_started) = true
  /\ exclusive (start_continuous Samples.single_pass_started).2 = true
  /\ refused (start_single_pass Samples.single_pass_started) = false
  /\ exclusive (start_single_pass Samples.single_pass_started).2 = true.
Proof.
  assert (exclusive Samples.single_pass_started = true) as H
    by (vm_compute; reflexivity).
  destruct (start_keeps_exclusion Samples.single_pass_started H) as [H1 H2].
  split; [exact H|]. split; [vm_compute; reflexivity|].
  split; [exact H1|]. split; [vm_compute; reflexivity|exact H2].
Defined.

Lemma start_all_skips_exclusion_witness :
  let self := (stop_continuous Samples.both_started).2 in
  exclusive self = true
  /\ task_live (start_all self) "continuous" = true
  /\ task_live (start_all self) "single_pass" = true
  /\ exclusive (start_all self) = false.
Proof.
  intros self.
  assert (continuous_scheduler self
          = Some (Base.stop ContinuousScheduler).1) as Hc by reflexivity.
  assert (single_pass_scheduler self = Some SinglePassScheduler) as Hs
    by reflexivity.
  split; [|exact (start_all_skips_exclusion self _ _ Hc Hs)].
  vm_compute. reflexivity.
Defined.

End ManagerExamples.
